(** * Simply Magic Areas: occupancy state machine and light controller

    A shallow embedding of [select.py] ([AreaStateSelect]) and [light.py]
    ([AreaLightGroup]) of the [simply_magic_areas] Home Assistant
    integration, of the cover groups of [cover.py] and of the list
    helpers of [util.py], with the properties of its specification and
    further properties of the code stated over it.

    Conventions of the embedding.
    - Python [float] is IEEE binary64; it is modelled by [spec_float] with
      precision 53 and maximal exponent 1024, every operation rounded to
      nearest even exactly as the interpreter does.
    - [datetime] values are integer microsecond counts ([Z]).  The source
      compares [timedelta.total_seconds()] (a float) with integer second
      counts; for timeouts below 2^32 seconds that comparison agrees with
      the comparison of microsecond counts used here.
    - [str] is [string].  [str.lower] is modelled on ASCII strings, where
      it shifts [A]..[Z] and keeps every other character; the Unicode
      case tables are not modelled, and what is proved about the value
      of [lower] is stated for ASCII strings ([is_ascii]).
    - Methods that mutate [self] or [hass] take and return the state
      explicitly. *)

From Stdlib Require Import ZArith QArith.QArith_base List Bool Ascii String Lia.
From Stdlib Require Import Floats.SpecFloat.
From stdpp Require Import base decidable option list strings gmap.

#[local] Open Scope string_scope.
#[local] Open Scope Z_scope.

(** ** Python floats *)

Module PyFloat.

Definition prec : Z := 53.
Definition emax : Z := 1024.

Definition float : Type := spec_float.

(** [float(n)] for an integer [n] (rounded to nearest even). *)
Definition of_Z (n : Z) : float := binary_normalize prec emax n 0 false.

Definition zero : float := S754_zero false.
Definition one : float := of_Z 1.

Definition add : float -> float -> float := SFadd prec emax.
Definition sub : float -> float -> float := SFsub prec emax.
Definition mul : float -> float -> float := SFmul prec emax.

Definition is_zero (x : float) : bool :=
  match x with S754_zero _ => true | _ => false end.

(** [x / y]; [None] stands for [ZeroDivisionError]. *)
Definition div (x y : float) : option float :=
  if is_zero y then None else Some (SFdiv prec emax x y).

(** [x > y], [x < y] and [x <= y]: false as soon as an operand is NaN. *)
Definition gtb (x y : float) : bool := SFltb y x.
Definition ltb (x y : float) : bool := SFltb x y.
Definition leb (x y : float) : bool := SFleb x y.

(** [int(x)]: truncation toward zero; [None] stands for the
    [ValueError] / [OverflowError] raised on NaN and infinities. *)
Definition to_int (x : float) : option Z :=
  match x with
  | S754_zero _ => Some 0
  | S754_finite s m e =>
      let v := if 0 <=? e then Z.pos m * 2 ^ e else Z.pos m / 2 ^ (- e) in
      Some (if s then - v else v)
  | S754_infinity _ | S754_nan => None
  end.

(** Truthiness of a float: only zeros are falsy. *)
Definition truthy (x : float) : bool := negb (is_zero x).

Definition is_finite (x : float) : bool :=
  match x with
  | S754_zero _ | S754_finite _ _ _ => true
  | _ => false
  end.

(** A strictly positive finite double. *)
Definition is_pos_finite (x : float) : bool :=
  match x with S754_finite false _ _ => true | _ => false end.

(** The exact rational value of a finite double (0 otherwise). *)
Definition to_Q (x : float) : Q :=
  match x with
  | S754_finite s m e =>
      let v := if 0 <=? e then inject_Z (Z.pos m * 2 ^ e)
               else Qmake (Z.pos m) (Z.to_pos (2 ^ (- e))) in
      if s then Qopp v else v
  | _ => inject_Z 0
  end.

End PyFloat.

Definition pyfloat : Type := PyFloat.float.

(** ** Python strings *)

(** [str.lower] and [str.upper] on ASCII strings: the letters [A]..[Z]
    are shifted to [a]..[z] (and back), every other character is kept.
    On a string with a character outside ASCII the interpreter follows
    the Unicode case tables, which are not modelled: there [lower] and
    [upper] are not the interpreter's functions. *)
Definition is_upper (c : ascii) : bool :=
  let n := N_of_ascii c in (65 <=? n)%N && (n <=? 90)%N.


Definition lower_char (c : ascii) : ascii :=
  if is_upper c then ascii_of_N (N_of_ascii c + 32) else c.


Fixpoint lower (s : string) : string :=
  match s with
  | EmptyString => EmptyString
  | String c s' => String (lower_char c) (lower s')
  end.





(** Truthiness of a [str]: only the empty string is falsy. *)
Definition str_truthy (s : string) : bool := negb (String.eqb s "").

(** ** Home Assistant constants ([homeassistant.const]) *)

Definition STATE_ON : string := "on".
Definition STATE_OFF : string := "off".
Definition SERVICE_TURN_ON : string := "turn_on".
Definition SERVICE_TURN_OFF : string := "turn_off".
Definition LIGHT_DOMAIN : string := "light".

(** ** Data model *)

(** Modelled from the spec: the [AreaState] enumeration lives in
    [config/area_state.py], which is not among the sources.  The spec gives
    a closed enumeration [Clear], [Occupied], [Extended] plus the
    configured secondary states, each named by a string. *)
Inductive AreaState : Type :=
| AREA_STATE_CLEAR
| AREA_STATE_OCCUPIED
| AREA_STATE_EXTENDED
| AREA_STATE_SECONDARY (name : string).

#[global] Instance AreaState_eq_dec : EqDecision AreaState.
Proof. solve_decision. Defined.

(** [homeassistant.core.State]: the state string of an entity and the
    truthiness of its [restored] attribute. *)
Record HAState : Type := mkHAState {
  state : string;
  restored : bool
}.

(** [Event[EventStateChangedData]]. *)
Record Event : Type := mkEvent {
  event_type : string;
  event_entity_id : string;
  old_state : option HAState;
  new_state : option HAState
}.

(** Modelled from the spec: [StateConfigData] is declared in
    [base/magic.py], which is not among the sources.  The fields are the
    ones the sources read: trigger entity, its "on" value, the resulting
    state, the lights of that state and its dim level in percent. *)
Record StateConfigData : Type := mkStateConfigData {
  entity : option string;
  entity_state_on : string;
  for_state : AreaState;
  lights : list string;
  dim_level : pyfloat
}.

(** Modelled from the spec: [MagicArea] is declared in [base/magic.py],
    which is not among the sources.  Each field stands for the accessor the
    sources call on [self.area]:
    - [area_state]: the mutable [area.state];
    - [is_meta]: [area.is_meta()];
    - [conf_clear_timeout], [conf_extended_timeout]: the entries
      [CONF_CLEAR_TIMEOUT] and [CONF_EXTENDED_TIMEOUT] of [area.config]
      when present;
    - [on_states]: [feature_config(...).get(CONF_ON_STATES,
      DEFAULT_ON_STATES)];
    - [all_state_configs]: the dictionary [area.all_state_configs()] in
      iteration order;
    - [has_configured_state], [state_config]: the methods of these names;
    - [control_enabled_system]: [is_control_enabled(ControlType.System)];
    - [min_brightness_level], [max_brightness_level], [manual_timeout]:
      the configured values after their defaults;
    - [humidity_occupied_id], [humidity_empty_id], [illuminance_id]: the
      entity ids [simply_magic_entity_id] builds. *)
Record MagicArea : Type := mkMagicArea {
  area_state : AreaState;
  is_meta : bool;
  conf_clear_timeout : option Z;
  conf_extended_timeout : option Z;
  on_states : list string;
  all_state_configs : list (AreaState * StateConfigData);
  has_configured_state : AreaState -> bool;
  state_config : AreaState -> option StateConfigData;
  control_enabled_system : bool;
  min_brightness_level : pyfloat;
  max_brightness_level : pyfloat;
  manual_timeout : Z;
  humidity_occupied_id : string;
  humidity_empty_id : string;
  illuminance_id : string
}.

Definition set_area_state (st : AreaState) (a : MagicArea) : MagicArea :=
  {| area_state := st;
     is_meta := is_meta a;
     conf_clear_timeout := conf_clear_timeout a;
     conf_extended_timeout := conf_extended_timeout a;
     on_states := on_states a;
     all_state_configs := all_state_configs a;
     has_configured_state := has_configured_state a;
     state_config := state_config a;
     control_enabled_system := control_enabled_system a;
     min_brightness_level := min_brightness_level a;
     max_brightness_level := max_brightness_level a;
     manual_timeout := manual_timeout a;
     humidity_occupied_id := humidity_occupied_id a;
     humidity_empty_id := humidity_empty_id a;
     illuminance_id := illuminance_id a |}.

(** *** The timer service ([call_later]) *)

(** Which method armed a timer.  The label is a ghost: both the clear and
    the extended timer run [_update_state] when they fire. *)
Inductive TimerKind : Type := ClearTimer | ExtendedTimer | ManualTimer.

#[global] Instance TimerKind_eq_dec : EqDecision TimerKind.
Proof. solve_decision. Defined.

Record Timer : Type := mkTimer {
  timer_id : nat;
  timer_kind : TimerKind;
  timer_delay : Z
}.

(** *** The actuator command sink ([hass.services.call]) *)

Record ServiceCall : Type := mkServiceCall {
  call_domain : string;
  call_service : string;
  call_entity_id : string;
  call_brightness : option Z
}.

(** What [LightGroup.async_update_group_state] (Home Assistant's own code)
    computes from the members of a group. *)
Record GroupState : Type := mkGroupState {
  group_is_on : option bool;
  group_brightness : option Z
}.

(** *** The world: [self.hass] and [self.area] *)

(** - [states]: [hass.states];
    - [timers]: the pending [call_later] timers, [next_timer] the next
      fresh handle;
    - [calls]: the service calls issued so far, oldest first;
    - [clock], [clock_reads]: the [n]-th call of [datetime.now(UTC)]
      returns [clock n];
    - [group_state]: the result of Home Assistant's group aggregation for
      a given member list;
    - [area]: the [MagicArea] shared by the select and the light group. *)
Record World : Type := mkWorld {
  states : gmap string HAState;
  timers : list Timer;
  next_timer : nat;
  calls : list ServiceCall;
  clock : nat -> Z;
  clock_reads : nat;
  group_state : list string -> GroupState;
  area : MagicArea
}.

Definition set_states (sts : gmap string HAState) (w : World) : World :=
  mkWorld sts (timers w) (next_timer w) (calls w) (clock w) (clock_reads w)
          (group_state w) (area w).

Definition set_timers (ts : list Timer) (n : nat) (w : World) : World :=
  mkWorld (states w) ts n (calls w) (clock w) (clock_reads w)
          (group_state w) (area w).

Definition set_calls (cs : list ServiceCall) (w : World) : World :=
  mkWorld (states w) (timers w) (next_timer w) cs (clock w) (clock_reads w)
          (group_state w) (area w).

Definition set_clock_reads (n : nat) (w : World) : World :=
  mkWorld (states w) (timers w) (next_timer w) (calls w) (clock w) n
          (group_state w) (area w).

Definition set_area (a : MagicArea) (w : World) : World :=
  mkWorld (states w) (timers w) (next_timer w) (calls w) (clock w)
          (clock_reads w) (group_state w) a.

(** [datetime.now(UTC)]. *)
Definition datetime_now (w : World) : Z * World :=
  (clock w (clock_reads w), set_clock_reads (S (clock_reads w)) w).

(** [call_later(hass, delay, action)]: a new pending timer; the returned
    handle cancels it. *)
Definition call_later (kind : TimerKind) (delay : Z) (w : World) : nat * World :=
  (next_timer w,
   set_timers (timers w ++ [mkTimer (next_timer w) kind delay])%list
              (S (next_timer w)) w).

(** Calling a cancel handle: the timer is dropped if it is still pending,
    nothing happens otherwise. *)
Definition cancel_timer (handle : nat) (w : World) : World :=
  set_timers
    (List.filter (fun t => negb (Nat.eqb (timer_id t) handle)) (timers w))
    (next_timer w) w.

(** [hass.services.call(domain, service, data)]. *)
Definition services_call (c : ServiceCall) (w : World) : World :=
  set_calls (calls w ++ [c])%list w.

Definition seconds (n : Z) : Z := n * 1000000.

(** ** [select.py]: the occupancy state machine *)

(** An entry of the [active_sensors] list: the id of a presence sensor, or
    the [State] object of the humidity up-trend sensor that the source
    appends when no presence sensor is active. *)
Inductive ActiveSensor : Type :=
| SensorId (sensor : string)
| TrendUp (trend_up : HAState).

(** The fields of [AreaStateSelect]; the [attr_*] fields are the keys of
    [_attr_extra_state_attributes] the evaluation writes. *)
Record AreaStateSelect : Type := mkAreaStateSelect {
  _attr_current_option : AreaState;
  _last_off_time : Z;
  _clear_timeout_callback : option nat;
  _extended_timeout_callback : option nat;
  _sensors : list string;
  _mode : string;
  attr_active_sensors : list ActiveSensor;
  attr_last_active_sensors : list ActiveSensor;
  attr_state : option AreaState;
  attr_clear_timeout : option Z;
  attr_extended_timeout : option Z
}.

Definition set_current_option (st : AreaState) (s : AreaStateSelect) : AreaStateSelect :=
  mkAreaStateSelect st (_last_off_time s) (_clear_timeout_callback s)
    (_extended_timeout_callback s) (_sensors s) (_mode s)
    (attr_active_sensors s) (attr_last_active_sensors s) (attr_state s)
    (attr_clear_timeout s) (attr_extended_timeout s).

Definition set_last_off_time (t : Z) (s : AreaStateSelect) : AreaStateSelect :=
  mkAreaStateSelect (_attr_current_option s) t (_clear_timeout_callback s)
    (_extended_timeout_callback s) (_sensors s) (_mode s)
    (attr_active_sensors s) (attr_last_active_sensors s) (attr_state s)
    (attr_clear_timeout s) (attr_extended_timeout s).

Definition set_clear_timeout_callback (cb : option nat) (s : AreaStateSelect)
  : AreaStateSelect :=
  mkAreaStateSelect (_attr_current_option s) (_last_off_time s) cb
    (_extended_timeout_callback s) (_sensors s) (_mode s)
    (attr_active_sensors s) (attr_last_active_sensors s) (attr_state s)
    (attr_clear_timeout s) (attr_extended_timeout s).

Definition set_extended_timeout_callback (cb : option nat) (s : AreaStateSelect)
  : AreaStateSelect :=
  mkAreaStateSelect (_attr_current_option s) (_last_off_time s)
    (_clear_timeout_callback s) cb (_sensors s) (_mode s)
    (attr_active_sensors s) (attr_last_active_sensors s) (attr_state s)
    (attr_clear_timeout s) (attr_extended_timeout s).

Definition set_active_sensors (l : list ActiveSensor) (s : AreaStateSelect)
  : AreaStateSelect :=
  mkAreaStateSelect (_attr_current_option s) (_last_off_time s)
    (_clear_timeout_callback s) (_extended_timeout_callback s) (_sensors s)
    (_mode s) l (attr_last_active_sensors s) (attr_state s)
    (attr_clear_timeout s) (attr_extended_timeout s).

Definition set_last_active_sensors (l : list ActiveSensor) (s : AreaStateSelect)
  : AreaStateSelect :=
  mkAreaStateSelect (_attr_current_option s) (_last_off_time s)
    (_clear_timeout_callback s) (_extended_timeout_callback s) (_sensors s)
    (_mode s) (attr_active_sensors s) l (attr_state s)
    (attr_clear_timeout s) (attr_extended_timeout s).

(** [__init__]: the area starts clear, with no timer, and a last-off time
    two days in the past. *)
Definition AreaStateSelect_init (now : Z) : AreaStateSelect :=
  mkAreaStateSelect AREA_STATE_CLEAR (now - seconds (2 * 86400)) None None
    [] "one" [] [] None None None.

Definition _get_clear_timeout (w : World) : Z :=
  default 60 (conf_clear_timeout (area w)).

Definition _get_extended_timeout (w : World) : Z :=
  default 60 (conf_extended_timeout (area w)).

Definition _is_on_clear_timeout (self : AreaStateSelect) : bool :=
  bool_decide (is_Some (_clear_timeout_callback self)).

Definition _is_on_extended_timeout (self : AreaStateSelect) : bool :=
  bool_decide (is_Some (_extended_timeout_callback self)).

Definition _remove_clear_timeout (w : World) (self : AreaStateSelect)
  : World * AreaStateSelect :=
  match _clear_timeout_callback self with
  | None => (w, self)
  | Some cb => (cancel_timer cb w, set_clear_timeout_callback None self)
  end.

Definition _set_clear_timeout (timeout : Z) (w : World) (self : AreaStateSelect)
  : World * AreaStateSelect :=
  let '(w1, self1) :=
    if _is_on_clear_timeout self then _remove_clear_timeout w self
    else (w, self) in
  let '(cb, w2) := call_later ClearTimer timeout w1 in
  (w2, set_clear_timeout_callback (Some cb) self1).

Definition _remove_extended_timeout (w : World) (self : AreaStateSelect)
  : World * AreaStateSelect :=
  match _extended_timeout_callback self with
  | None => (w, self)
  | Some cb => (cancel_timer cb w, set_extended_timeout_callback None self)
  end.

Definition _set_extended_timeout (timeout : Z) (w : World) (self : AreaStateSelect)
  : World * AreaStateSelect :=
  let '(w1, self1) :=
    if _is_on_extended_timeout self then _remove_extended_timeout w self
    else (w, self) in
  let '(cb, w2) := call_later ExtendedTimer timeout w1 in
  (w2, set_extended_timeout_callback (Some cb) self1).

Definition _cleanup_timers (w : World) (self : AreaStateSelect)
  : World * AreaStateSelect :=
  let '(w1, self1) := _remove_clear_timeout w self in
  _remove_extended_timeout w1 self1.

(** The secondary-state loop of [get_current_area_state]: one iteration
    per entry of [all_state_configs], the last match wins. *)
Definition trigger_matches (w : World) (conf : StateConfigData) : bool :=
  match entity conf with
  | None => false
  | Some e =>
      match states w !! e with
      | None => false
      | Some ent => String.eqb (lower (state ent)) (entity_state_on conf)
      end
  end.

Definition secondary_state_loop (w : World)
  (configs : list (AreaState * StateConfigData)) (new_state : AreaState)
  : AreaState :=
  fold_left
    (fun acc kc => if trigger_matches w (snd kc) then for_state (snd kc) else acc)
    configs new_state.

Section Select.

(** [INVALID_STATES] is a constant of [const.py], which is not among the
    sources; it is a parameter of the development. *)
Variable INVALID_STATES : list string.

(** The body of the sensor loop of [_get_sensors_state]: is this sensor
    appended to [active_sensors]? *)
Definition sensor_is_active (w : World) (valid_states : list string)
  (sensor : string) : bool :=
  match states w !! sensor with
  | None => false
  | Some ent =>
      if bool_decide (state ent ∈ INVALID_STATES) then false
      else bool_decide (state ent ∈ valid_states)
  end.

Definition _get_sensors_state (w : World) (self : AreaStateSelect)
  : bool * (World * AreaStateSelect) :=
  let valid_states :=
    if is_meta (area w) then [STATE_ON] else on_states (area w) in
  let active_sensors :=
    map SensorId (List.filter (sensor_is_active w valid_states) (_sensors self)) in
  let '(active_sensors1, (w1, self1)) :=
    if Nat.eqb (length active_sensors) 0 then
      match states w !! humidity_occupied_id (area w),
            states w !! humidity_empty_id (area w) with
      | Some trend_up, Some trend_down =>
          let active_sensors' :=
            if String.eqb (state trend_up) STATE_ON
               && negb (String.eqb (state trend_down) STATE_ON)
            then (active_sensors ++ [TrendUp trend_up])%list
            else active_sensors in
          if String.eqb (state trend_down) STATE_ON then
            let '(now, w') := datetime_now w in
            (active_sensors', (w', set_last_off_time now self))
          else (active_sensors', (w, self))
      | _, _ => (active_sensors, (w, self))
      end
    else (active_sensors, (w, self)) in
  let self2 := set_active_sensors active_sensors1 self1 in
  let self3 :=
    match active_sensors1 with
    | [] => self2
    | _ :: _ => set_last_active_sensors active_sensors1 self2
    end in
  (if String.eqb (_mode self3) "all"
   then Nat.eqb (length active_sensors1) (length (_sensors self3))
   else Nat.ltb 0 (length active_sensors1),
   (w1, self3)).

Definition get_current_area_state (w : World) (self : AreaStateSelect)
  : AreaState * (World * AreaStateSelect) :=
  let '(occupied_state, (w1, self1)) := _get_sensors_state w self in
  let '(now, w2) := datetime_now w1 in
  let seconds_since_last_change := now - _last_off_time self1 in
  let clear_timeout := _get_clear_timeout w2 in
  let extended_timeout := _get_extended_timeout w2 + clear_timeout in
  if negb occupied_state then
    let '(w3, self3) :=
      if negb (_is_on_clear_timeout self1)
         && (seconds_since_last_change <? seconds clear_timeout)
      then _set_clear_timeout
             (seconds clear_timeout - seconds_since_last_change) w2 self1
      else (w2, self1) in
    if seconds clear_timeout <=? seconds_since_last_change then
      if seconds extended_timeout <=? seconds_since_last_change then
        (AREA_STATE_CLEAR, _remove_extended_timeout w3 self3)
      else
        let '(w4, self4) := _remove_clear_timeout w3 self3 in
        (AREA_STATE_EXTENDED,
         if negb (_is_on_extended_timeout self4)
            && (seconds_since_last_change <? seconds extended_timeout)
         then _set_extended_timeout
                (seconds extended_timeout - seconds_since_last_change) w4 self4
         else (w4, self4))
    else
      (secondary_state_loop w3 (all_state_configs (area w3)) AREA_STATE_OCCUPIED,
       (w3, self3))
  else
    let '(w3, self3) := _remove_clear_timeout w2 self1 in
    let '(w4, self4) := _remove_extended_timeout w3 self3 in
    (secondary_state_loop w4 (all_state_configs (area w4)) AREA_STATE_OCCUPIED,
     (w4, self4)).

Definition _update_attributes (w : World) (self : AreaStateSelect) : AreaStateSelect :=
  mkAreaStateSelect (_attr_current_option self) (_last_off_time self)
    (_clear_timeout_callback self) (_extended_timeout_callback self)
    (_sensors self) (_mode self) (attr_active_sensors self)
    (attr_last_active_sensors self) (Some (area_state (area w)))
    (Some (_get_clear_timeout w)) (Some (_get_extended_timeout w)).

Definition _update_state (w : World) (self : AreaStateSelect)
  : World * AreaStateSelect :=
  let last_state := area_state (area w) in
  let '(new_state, (w1, self1)) := get_current_area_state w self in
  if decide (last_state = new_state) then (w1, self1)
  else
    let w2 := set_area (set_area_state new_state (area w1)) w1 in
    let self2 := set_current_option new_state self1 in
    (w2, _update_attributes w2 self2).

Definition _sensor_state_change (event : Event) (w : World) (self : AreaStateSelect)
  : World * AreaStateSelect :=
  match new_state event with
  | None => (w, self)
  | Some ns =>
      let to_state := state ns in
      if bool_decide (to_state ∈ INVALID_STATES) then (w, self)
      else
        let '(w2, self2) :=
          if str_truthy to_state
             && negb (bool_decide (to_state ∈ on_states (area w)))
          then
            let '(now, w1) := datetime_now w in
            _remove_clear_timeout w1 (set_last_off_time now self)
          else (w, self) in
        let '(_, w3) := datetime_now w2 in
        _update_state w3 self2
  end.

Definition _humidity_sensor_change (event : Event) (w : World) (self : AreaStateSelect)
  : World * AreaStateSelect :=
  match new_state event with
  | None => (w, self)
  | Some ns =>
      if bool_decide (state ns ∈ INVALID_STATES) then (w, self)
      else
        let '(_, w1) := datetime_now w in
        _update_state w1 self
  end.

Definition _group_entity_state_change (event : Event) (w : World)
  (self : AreaStateSelect) : World * AreaStateSelect :=
  if negb (String.eqb (event_type event) "state_changed") then (w, self)
  else
    match new_state event with
    | None => (w, self)
    | Some ns =>
        if bool_decide (state ns ∈ INVALID_STATES) then (w, self)
        else
          let '(_, w1) := datetime_now w in
          _update_state w1 self
    end.

End Select.

(** ** [light.py]: the light actuation controller *)

Definition ATTR_LAST_ON_ILLUMINANCE : string := "last_on_illuminance".
Definition ATTR_MANUAL_CONTROL : string := "manual_control".

(** The values stored under the two keys of
    [_attr_extra_state_attributes] that [light.py] reads back. *)
Inductive PyVal : Type :=
| PyBool (b : bool)
| PyFloat (f : pyfloat).

(** Truthiness of a value. *)
Definition py_truthy (v : PyVal) : bool :=
  match v with
  | PyBool b => b
  | PyFloat f => PyFloat.truthy f
  end.

(** The number a value stands for in arithmetic ([True] is 1). *)
Definition py_number (v : PyVal) : pyfloat :=
  match v with
  | PyBool true => PyFloat.one
  | PyBool false => PyFloat.zero
  | PyFloat f => f
  end.

(** How a procedure ended: normally, or by an exception that leaves the
    handler. *)
Inductive Outcome : Type := Returned | Raised.

(** The fields of [AreaLightGroup]; [is_on] and [brightness] are the
    [_attr_is_on] and [_attr_brightness] of the underlying [LightGroup]. *)
Record AreaLightGroup : Type := mkAreaLightGroup {
  entity_id : string;
  _entity_ids : list string;
  is_on : option bool;
  brightness : option Z;
  last_update_from_entity : bool;
  _manual_timeout_cb : option nat;
  _attr_extra_state_attributes : gmap string PyVal
}.

Definition set_entity_ids (ids : list string) (g : AreaLightGroup) : AreaLightGroup :=
  mkAreaLightGroup (entity_id g) ids (is_on g) (brightness g)
    (last_update_from_entity g) (_manual_timeout_cb g)
    (_attr_extra_state_attributes g).

Definition set_last_update_from_entity (b : bool) (g : AreaLightGroup)
  : AreaLightGroup :=
  mkAreaLightGroup (entity_id g) (_entity_ids g) (is_on g) (brightness g) b
    (_manual_timeout_cb g) (_attr_extra_state_attributes g).

Definition set_manual_timeout_cb (cb : option nat) (g : AreaLightGroup)
  : AreaLightGroup :=
  mkAreaLightGroup (entity_id g) (_entity_ids g) (is_on g) (brightness g)
    (last_update_from_entity g) cb (_attr_extra_state_attributes g).

Definition set_attributes (m : gmap string PyVal) (g : AreaLightGroup)
  : AreaLightGroup :=
  mkAreaLightGroup (entity_id g) (_entity_ids g) (is_on g) (brightness g)
    (last_update_from_entity g) (_manual_timeout_cb g) m.

(** [LightGroup.async_update_group_state()]: Home Assistant recomputes
    [is_on] and [brightness] from the current members. *)
Definition async_update_group_state (w : World) (g : AreaLightGroup)
  : AreaLightGroup :=
  mkAreaLightGroup (entity_id g) (_entity_ids g)
    (group_is_on (group_state w (_entity_ids g)))
    (group_brightness (group_state w (_entity_ids g)))
    (last_update_from_entity g) (_manual_timeout_cb g)
    (_attr_extra_state_attributes g).

(** Truthiness of [self.is_on] ([None] is falsy). *)
Definition is_on_truthy (g : AreaLightGroup) : bool := default false (is_on g).

(** [int(conf.dim_level * 255 / 100)]. *)
Definition nominal_brightness (conf : StateConfigData) : option Z :=
  PyFloat.div (PyFloat.mul (dim_level conf) (PyFloat.of_Z 255)) (PyFloat.of_Z 100)
    ≫= PyFloat.to_int.

(** The illuminance block of [_turn_on_light]: the brightness to command,
    from the nominal [brightness] and the illuminance read.  [None] stands
    for an exception of the arithmetic. *)
Definition dimmed_brightness (brightness : Z)
  (luminesence min_brightness max_brightness : pyfloat) : option Z :=
  if PyFloat.gtb luminesence min_brightness then
    if PyFloat.gtb luminesence max_brightness then Some 0
    else
      let diff := PyFloat.sub luminesence min_brightness in
      PyFloat.div diff (PyFloat.sub max_brightness min_brightness)
        ≫= fun q =>
      PyFloat.to_int
        (PyFloat.mul (PyFloat.of_Z brightness) (PyFloat.sub PyFloat.one q))
  else Some brightness.

(** *** Control release *)

Definition _is_controlled_by_this_entity (self : AreaLightGroup) : PyVal :=
  default (PyBool false) (_attr_extra_state_attributes self !! ATTR_MANUAL_CONTROL).

(** The body is [self._attr_extra_state_attributes.get(ATTR_MANUAL_CONTROL,
    enabled)]: a read whose result is dropped. *)
Definition _set_controlled_by_this_entity (enabled : bool) (self : AreaLightGroup)
  : AreaLightGroup :=
  let _ := default (PyBool enabled)
             (_attr_extra_state_attributes self !! ATTR_MANUAL_CONTROL) in
  self.

Definition _reset_control (self : AreaLightGroup) : AreaLightGroup :=
  _set_controlled_by_this_entity true self.

Definition _reset_manual_timeout (self : AreaLightGroup) : AreaLightGroup :=
  set_manual_timeout_cb None (_set_controlled_by_this_entity true self).

(** *** Light handling *)

Definition _turn_off_light (w : World) (self : AreaLightGroup)
  : World * AreaLightGroup :=
  if negb (is_on_truthy self) then (w, self)
  else if negb (control_enabled_system (area w)) then (w, self)
  else
    (services_call
       (mkServiceCall LIGHT_DOMAIN SERVICE_TURN_OFF (entity_id self) None) w,
     set_last_update_from_entity true self).

Section Light.

(** Python's builtin [float] on a [str]: [None] stands for [ValueError]. *)
Variable float_of_str : string -> option pyfloat.

(** Modelled from the spec: the lookup [AreaState(value)] of the
    enumeration of [config/area_state.py], which is not among the sources;
    [None] when the string is no member of the enumeration. *)
Variable AreaState_of_str : string -> option AreaState.

Definition _get_illuminance (w : World) (self : AreaLightGroup)
  : pyfloat * AreaLightGroup :=
  if is_on_truthy self then
    match _attr_extra_state_attributes self !! ATTR_LAST_ON_ILLUMINANCE with
    | Some v => (if py_truthy v then py_number v else PyFloat.zero, self)
    | None => (PyFloat.zero, self)
    end
  else
    match states w !! illuminance_id (area w) with
    | None =>
        (PyFloat.zero,
         set_attributes
           (<[ATTR_LAST_ON_ILLUMINANCE := PyFloat PyFloat.zero]>
              (_attr_extra_state_attributes self)) self)
    | Some sensor_entity =>
        match float_of_str (state sensor_entity) with
        | Some f =>
            (f,
             set_attributes
               (<[ATTR_LAST_ON_ILLUMINANCE := PyFloat f]>
                  (_attr_extra_state_attributes self)) self)
        | None => (PyFloat.zero, self)
        end
    end.

Definition _turn_on_light (conf : StateConfigData) (w : World) (self : AreaLightGroup)
  : Outcome * (World * AreaLightGroup) :=
  let self1 := async_update_group_state w (set_entity_ids (lights conf) self) in
  match nominal_brightness conf with
  | None => (Raised, (w, self1))
  | Some brightness0 =>
      if is_on_truthy self1 && bool_decide (brightness self1 = Some brightness0)
      then (Returned, (w, self1))
      else
        let '(luminesence, self2) := _get_illuminance w self1 in
        match dimmed_brightness brightness0 luminesence
                (min_brightness_level (area w)) (max_brightness_level (area w)) with
        | None => (Raised, (w, self2))
        | Some brightness1 =>
            if negb (control_enabled_system (area w)) then (Returned, (w, self2))
            else if brightness1 =? 0 then (Returned, _turn_off_light w self2)
            else
              (Returned,
               (services_call
                  (mkServiceCall LIGHT_DOMAIN SERVICE_TURN_ON (entity_id self2)
                     (Some brightness1)) w,
                set_last_update_from_entity true self2))
        end
  end.

(** *** State change handling *)

Definition _area_state_change (event : Event) (w : World) (self : AreaLightGroup)
  : Outcome * (World * AreaLightGroup) :=
  if negb (String.eqb (event_type event) "state_changed") then (Returned, (w, self))
  else
    match old_state event, new_state event with
    | Some _, Some ns =>
        match AreaState_of_str (state ns) with
        | None => (Returned, (w, self))
        | Some to_state =>
            if has_configured_state (area w) to_state then
              match state_config (area w) to_state with
              | Some conf => _turn_on_light conf w self
              | None => (Returned, (w, self))
              end
            else (Returned, (w, self))
        end
    | _, _ => (Returned, (w, self))
    end.

Definition is_on_off (s : string) : bool :=
  String.eqb s STATE_ON || String.eqb s STATE_OFF.

(** Cancel the pending auto-release timer, if any, and arm a new one. *)
Definition rearm_manual_timeout (w : World) (self : AreaLightGroup)
  : World * AreaLightGroup :=
  let w1 :=
    match _manual_timeout_cb self with
    | Some cb => cancel_timer cb w
    | None => w
    end in
  let '(cb', w2) := call_later ManualTimer (seconds (manual_timeout (area w1))) w1 in
  (w2, set_manual_timeout_cb (Some cb') self).

Definition _update_group_state (event : Event) (w : World) (self : AreaLightGroup)
  : World * AreaLightGroup :=
  if negb (bool_decide (area_state (area w) = AREA_STATE_CLEAR))
  then (w, _reset_control self)
  else
    match old_state event, new_state event with
    | Some os, Some ns =>
        if negb (is_on_off (state os)) then (w, self)
        else if negb (is_on_off (state ns)) then (w, self)
        else if restored os then
          if negb (py_truthy (_is_controlled_by_this_entity self))
          then rearm_manual_timeout w self
          else (w, self)
        else if last_update_from_entity self
        then (w, set_last_update_from_entity false self)
        else rearm_manual_timeout w (_set_controlled_by_this_entity false self)
    | _, _ => (w, self)
    end.

End Light.

(** ** Specification-side definitions *)

(** The humidity trend sensors take part in an evaluation when both
    exist and one of them is on: an up-trend that is on (while the
    down-trend is not) counts as an active sensor, and a down-trend that is
    on refreshes [_last_off_time]. *)
Definition trend_intervenes (w : World) : bool :=
  match states w !! humidity_occupied_id (area w),
        states w !! humidity_empty_id (area w) with
  | Some trend_up, Some trend_down =>
      String.eqb (state trend_up) STATE_ON || String.eqb (state trend_down) STATE_ON
  | _, _ => false
  end.

(** The last configuration whose trigger matches, if any. *)
Fixpoint last_match (w : World) (configs : list (AreaState * StateConfigData))
  : option StateConfigData :=
  match configs with
  | [] => None
  | kc :: rest =>
      match last_match w rest with
      | Some c => Some c
      | None => if trigger_matches w (snd kc) then Some (snd kc) else None
      end
  end.

(** "Occupied, or the matching secondary state". *)
Definition occupied_or_secondary (w : World) : AreaState :=
  match last_match w (all_state_configs (area w)) with
  | Some c => for_state c
  | None => AREA_STATE_OCCUPIED
  end.

(** The pending timers of one kind. *)
Definition pending (kind : TimerKind) (w : World) : list Timer :=
  List.filter (fun t => bool_decide (timer_kind t = kind)) (timers w).

(** The events the select entity reacts to: the three state-change
    listeners, the periodic tick, a clear or extended timer that fires,
    the removal of the entity, and a change of the entity states made by
    the rest of the system. *)
Inductive SelectEvent : Type :=
| SensorChanged (event : Event)
| HumidityChanged (event : Event)
| GroupEntityChanged (event : Event)
| IntervalTick
| TimerFired (handle : nat)
| EntityRemoved
| StatesChanged (sts : gmap string HAState).

Definition is_pending (handle : nat) (w : World) : bool :=
  existsb (fun t => Nat.eqb (timer_id t) handle) (timers w).

(** One reaction.  A timer that fires leaves the pending set and runs
    [_update_state]; the handle kept in the entity is not reset. *)
Definition select_step (INVALID_STATES : list string) (ev : SelectEvent)
  (st : World * AreaStateSelect) : World * AreaStateSelect :=
  let '(w, self) := st in
  match ev with
  | SensorChanged event => _sensor_state_change INVALID_STATES event w self
  | HumidityChanged event => _humidity_sensor_change INVALID_STATES event w self
  | GroupEntityChanged event =>
      _group_entity_state_change INVALID_STATES event w self
  | IntervalTick => _update_state INVALID_STATES w self
  | TimerFired handle =>
      if is_pending handle w
      then _update_state INVALID_STATES (cancel_timer handle w) self
      else (w, self)
  | EntityRemoved => _cleanup_timers w self
  | StatesChanged sts => (set_states sts w, self)
  end.

(** The states the select entity can be in: it starts with no timer armed
    and none pending, and then reacts to events. *)
Inductive reachable (INVALID_STATES : list string)
  : World * AreaStateSelect -> Prop :=
| reachable_init w self :
    timers w = [] ->
    _clear_timeout_callback self = None ->
    _extended_timeout_callback self = None ->
    reachable INVALID_STATES (w, self)
| reachable_step ev st :
    reachable INVALID_STATES st ->
    reachable INVALID_STATES (select_step INVALID_STATES ev st).

(** The claimed brightness in exact arithmetic: the nominal brightness up
    to the minimum threshold, zero from the maximum threshold on, and the
    truncated linear interpolation in between. *)
Definition Qtrunc (q : Q) : Z := Z.quot (Qnum q) (Z.pos (Qden q)).

Definition exact_brightness (N : Z) (L mn mx : Q) : Z :=
  if Qle_bool L mn then N
  else if Qle_bool mx L then 0
  else Qtrunc (inject_Z N * (1 - (L - mn) / (mx - mn)))%Q.

(** The same value with every operation rounded as Python rounds it. *)
Definition float_brightness (N : Z) (L mn mx : pyfloat) : option Z :=
  PyFloat.div (PyFloat.sub L mn) (PyFloat.sub mx mn) ≫= fun q =>
  PyFloat.to_int (PyFloat.mul (PyFloat.of_Z N) (PyFloat.sub PyFloat.one q)).

(** What [_turn_on_light] does with a brightness to command: zero goes to
    the turn-off procedure, anything else is sent as a turn-on command. *)
Definition command_brightness (b : Z) (w : World) (self : AreaLightGroup)
  : World * AreaLightGroup :=
  if b =? 0 then _turn_off_light w self
  else
    (services_call
       (mkServiceCall LIGHT_DOMAIN SERVICE_TURN_ON (entity_id self) (Some b)) w,
     set_last_update_from_entity true self).

(** The light group with one more value stored under [manual_control]. *)
Definition with_manual_control (v : PyVal) (self : AreaLightGroup) : AreaLightGroup :=
  set_attributes (<[ATTR_MANUAL_CONTROL := v]> (_attr_extra_state_attributes self)) self.

(** ** Example configurations *)

(** A parser for the examples: strings of decimal digits, on which it
    agrees with Python's [float]; words such as [unavailable] are
    rejected, as [float] rejects them. *)
Definition digit_value (c : ascii) : option Z :=
  let n := N_of_ascii c in
  if (48 <=? n)%N && (n <=? 57)%N then Some (Z.of_N n - 48) else None.

Fixpoint digits_value (s : string) (acc : Z) : option Z :=
  match s with
  | EmptyString => Some acc
  | String c s' =>
      match digit_value c with
      | Some d => digits_value s' (10 * acc + d)
      | None => None
      end
  end.

Definition float_of_digits (s : string) : option pyfloat :=
  match s with
  | EmptyString => None
  | _ => PyFloat.of_Z <$> digits_value s 0
  end.

(** The three base members of the enumeration, by their names. *)
Definition base_AreaState_of_str (s : string) : option AreaState :=
  if String.eqb s "clear" then Some AREA_STATE_CLEAR
  else if String.eqb s "occupied" then Some AREA_STATE_OCCUPIED
  else if String.eqb s "extended" then Some AREA_STATE_EXTENDED
  else None.

Definition example_INVALID_STATES : list string := ["unavailable"; "unknown"].

(** The configuration of a state, looked up in the list of configured
    states. *)
Fixpoint lookup_config (st : AreaState) (cs : list (AreaState * StateConfigData))
  : option StateConfigData :=
  match cs with
  | [] => None
  | (k, c) :: cs' => if decide (k = st) then Some c else lookup_config st cs'
  end.

Definition example_area (st : AreaState)
  (configs : list (AreaState * StateConfigData)) (mn mx : Z) : MagicArea :=
  mkMagicArea st false (Some 60) (Some 30) [STATE_ON] configs
    (fun k => bool_decide (is_Some (lookup_config k configs)))
    (fun k => lookup_config k configs) true
    (PyFloat.of_Z mn) (PyFloat.of_Z mx) 60
    "binary_sensor.humidity_occupancy" "binary_sensor.humidity_empty"
    "sensor.illuminance".

(** A world whose clock always reads [now] and whose light groups are all
    in the state [gs]. *)
Definition example_world (sts : gmap string HAState) (now : Z) (gs : GroupState)
  (a : MagicArea) : World :=
  mkWorld sts [] 0 [] (fun _ => now) 0 (fun _ => gs) a.

Definition example_select (last_off : Z) (sensors : list string) : AreaStateSelect :=
  mkAreaStateSelect AREA_STATE_OCCUPIED last_off None None sensors "one"
    [] [] None None None.

Definition example_light (attrs : gmap string PyVal) : AreaLightGroup :=
  mkAreaLightGroup "light.simply_magic_areas_light_den" [] None None false None attrs.

Definition ha (s : string) : HAState := mkHAState s false.

(** The "active" values an aggregation pass uses. *)
Definition valid_states (w : World) : list string :=
  if is_meta (area w) then [STATE_ON] else on_states (area w).

(** The list of active sensors an aggregation pass builds (it is stored
    under [active_sensors]). *)
Definition active_sensors_of (INVALID_STATES : list string) (w : World)
  (self : AreaStateSelect) : list ActiveSensor :=
  attr_active_sensors (snd (snd (_get_sensors_state INVALID_STATES w self))).

(** *** Occupancy examples *)

(** One motion sensor that has been off since time 0; the humidity
    down-trend sensor is on; the clock reads 100 s. *)
Definition trend_down_world : World :=
  example_world
    {[ "binary_sensor.motion1" := ha "off";
       "binary_sensor.humidity_occupancy" := ha "off";
       "binary_sensor.humidity_empty" := ha "on" ]}
    (seconds 100) (mkGroupState None None)
    (example_area AREA_STATE_OCCUPIED [] 10 50).

(** The same sensor, no humidity sensors; the clock reads [now] seconds. *)
Definition quiet_world (now : Z) : World :=
  example_world {[ "binary_sensor.motion1" := ha "off" ]}
    (seconds now) (mkGroupState None None)
    (example_area AREA_STATE_OCCUPIED [] 10 50).

Definition motion_select : AreaStateSelect :=
  example_select 0 ["binary_sensor.motion1"].

Definition unavailable_world : World :=
  example_world {[ "binary_sensor.motion1" := ha "unavailable" ]}
    (seconds 10) (mkGroupState None None)
    (example_area AREA_STATE_OCCUPIED [] 10 50).

Definition to_unavailable : Event :=
  mkEvent "state_changed" "binary_sensor.motion1"
    (Some (ha "on")) (Some (ha "unavailable")).

(** A sleep state triggered by an input whose state is written in capitals. *)
Definition sleep_conf : StateConfigData :=
  mkStateConfigData (Some "input_boolean.sleep") "on"
    (AREA_STATE_SECONDARY "sleep") ["light.den"] (PyFloat.of_Z 30).


(** Three secondary states whose triggers all exist: the sleep and the
    movie input are on, the guest input is off. *)
Definition movie_conf : StateConfigData :=
  mkStateConfigData (Some "input_boolean.movie") "on"
    (AREA_STATE_SECONDARY "movie") ["light.den"] (PyFloat.of_Z 10).

Definition guest_conf : StateConfigData :=
  mkStateConfigData (Some "input_boolean.guest") "on"
    (AREA_STATE_SECONDARY "guest") ["light.den"] (PyFloat.of_Z 80).

Definition three_trigger_world : World :=
  example_world {[ "input_boolean.sleep" := ha "on";
                   "input_boolean.movie" := ha "On";
                   "input_boolean.guest" := ha "off" ]}
    0 (mkGroupState None None)
    (example_area AREA_STATE_OCCUPIED
       [(AREA_STATE_SECONDARY "sleep", sleep_conf);
        (AREA_STATE_SECONDARY "movie", movie_conf);
        (AREA_STATE_SECONDARY "guest", guest_conf)] 10 50).


(** *** Light examples *)

Definition turn_on_call (self : AreaLightGroup) (b : Z) : ServiceCall :=
  mkServiceCall LIGHT_DOMAIN SERVICE_TURN_ON (entity_id self) (Some b).

Definition turn_off_call (self : AreaLightGroup) : ServiceCall :=
  mkServiceCall LIGHT_DOMAIN SERVICE_TURN_OFF (entity_id self) None.

Definition light_conf (st : AreaState) (dim : Z) : StateConfigData :=
  mkStateConfigData None "on" st ["light.den"] (PyFloat.of_Z dim).

(** A world for the light group: the members are in state [gs], the
    thresholds are [mn] and [mx], system control is enabled, the area is in
    state [st] and [configs] are its state configurations. *)
Definition light_world (sts : gmap string HAState) (gs : GroupState)
  (st : AreaState) (configs : list (AreaState * StateConfigData)) (mn mx : Z)
  : World :=
  example_world sts 0 gs (example_area st configs mn mx).

Definition group_off : GroupState := mkGroupState (Some false) None.
Definition group_on (b : Z) : GroupState := mkGroupState (Some true) (Some b).

(** A light group that is on, with an armed auto-release timer. *)
Definition light_on (attrs : gmap string PyVal) : AreaLightGroup :=
  mkAreaLightGroup "light.simply_magic_areas_light_den" ["light.den"]
    (Some true) (Some 128) false (Some 0%nat) attrs.

Definition with_pending_manual_timer (w : World) : World :=
  set_timers [mkTimer 0 ManualTimer (seconds 60)] 1 w.

Definition to_clear : Event :=
  mkEvent "state_changed" "select.simply_magic_areas_state_den"
    (Some (ha "extended")) (Some (ha "clear")).

(** *** The timer invariant *)

(** Every pending timer has a handle below the next fresh one, handles are
    pairwise distinct, and a pending clear (extended) timer is the one
    whose handle the entity holds. *)
Definition timers_ok (st : World * AreaStateSelect) : Prop :=
  let '(w, self) := st in
  (forall t, In t (timers w) -> (timer_id t < next_timer w)%nat) /\
  NoDup (map timer_id (timers w)) /\
  (forall t, In t (timers w) -> timer_kind t = ClearTimer ->
             _clear_timeout_callback self = Some (timer_id t)) /\
  (forall t, In t (timers w) -> timer_kind t = ExtendedTimer ->
             _extended_timeout_callback self = Some (timer_id t)).

(** ** Further code of the integration *)

(** *** [select.py]: loading the presence sensors *)

Definition BINARY_SENSOR_DOMAIN : string := "binary_sensor".
Definition SELECT_DOMAIN : string := "select".
Definition ATTR_DEVICE_CLASS : string := "device_class".
Definition ATTR_ENTITY_ID : string := "entity_id".

(** What [_load_presence_sensors] reads from [self.area]; the entity
    dictionaries are read at the string-valued keys [entity_id] and
    [device_class] only.
    - [child_areas]: [area.get_child_areas()];
    - [entities]: the dictionary [area.entities] in iteration order;
    - [presence_device_platforms]: [feature_config(...).get(
      CONF_PRESENCE_DEVICE_PLATFORMS, DEFAULT_PRESENCE_DEVICE_PLATFORMS)];
    - [presence_sensor_device_class]: [feature_config(...).get(
      CONF_PRESENCE_SENSOR_DEVICE_CLASS,
      DEFAULT_PRESENCE_DEVICE_SENSOR_CLASS)]. *)
Record AreaEntities : Type := mkAreaEntities {
  child_areas : list string;
  entities : list (string * list (gmap string string));
  presence_device_platforms : list string;
  presence_sensor_device_class : list string
}.

Definition set_sensors (l : list string) (s : AreaStateSelect) : AreaStateSelect :=
  mkAreaStateSelect (_attr_current_option s) (_last_off_time s)
    (_clear_timeout_callback s) (_extended_timeout_callback s) l (_mode s)
    (attr_active_sensors s) (attr_last_active_sensors s) (attr_state s)
    (attr_clear_timeout s) (attr_extended_timeout s).

(** The body of the inner loop for one entity of [component]: nothing is
    appended ([Some None]), an id is appended ([Some (Some id)]), or
    [entity[ATTR_ENTITY_ID]] raises [KeyError] ([None]). *)
Definition presence_sensor_of (ae : AreaEntities) (component : string)
  (entity : gmap string string) : option (option string) :=
  if bool_decide (entity = ∅) then Some None
  else if String.eqb component BINARY_SENSOR_DOMAIN
          && match entity !! ATTR_DEVICE_CLASS with
             | None => true
             | Some dc => negb (bool_decide (dc ∈ presence_sensor_device_class ae))
             end
  then Some None
  else
    match entity !! ATTR_ENTITY_ID with
    | Some id => Some (Some id)
    | None => None
    end.

(** The inner loop: the sensors appended so far and how the loop ended. *)
Fixpoint load_component (ae : AreaEntities) (component : string)
  (ents : list (gmap string string)) (sensors : list string)
  : Outcome * list string :=
  match ents with
  | [] => (Returned, sensors)
  | entity :: rest =>
      match presence_sensor_of ae component entity with
      | None => (Raised, sensors)
      | Some None => load_component ae component rest sensors
      | Some (Some id) => load_component ae component rest (sensors ++ [id])%list
      end
  end.

(** The outer loop over [area.entities.items()]. *)
Fixpoint load_components (ae : AreaEntities)
  (items : list (string * list (gmap string string))) (sensors : list string)
  : Outcome * list string :=
  match items with
  | [] => (Returned, sensors)
  | (component, ents) :: rest =>
      if negb (bool_decide (component ∈ presence_device_platforms ae))
      then load_components ae rest sensors
      else
        match load_component ae component ents sensors with
        | (Returned, sensors') => load_components ae rest sensors'
        | (Raised, sensors') => (Raised, sensors')
        end
  end.

Definition child_area_select_id (child_area : string) : string :=
  (SELECT_DOMAIN ++ ".simply_magic_area_state_" ++ child_area)%string.

Definition _load_presence_sensors (ae : AreaEntities) (w : World)
  (self : AreaStateSelect) : Outcome * AreaStateSelect :=
  if is_meta (area w) then
    (Returned,
     set_sensors (_sensors self ++ map child_area_select_id (child_areas ae))%list self)
  else
    let '(o, sensors) := load_components ae (entities ae) (_sensors self) in
    (o, set_sensors sensors self).

(** *** [cover.py]: cover groups by device class *)

Definition COVER_DOMAIN : string := "cover".

(** [AreaCoverGroup]: the device class of the group, the cover entities
    [_entities] it selects and their ids
    ([_attributes[ATTR_COVER_ENTITY_ID]], the members of the group). *)
Record AreaCoverGroup : Type := mkAreaCoverGroup {
  _device_class : option string;
  _entities : list (gmap string string);
  cover_entity_id : list string
}.

Definition has_device_class (device_class : option string)
  (e : gmap string string) : bool :=
  bool_decide (e !! ATTR_DEVICE_CLASS = device_class).

(** [[e[ATTR_ENTITY_ID] for e in ents]]; [None] stands for [KeyError]. *)
Fixpoint entity_ids (ents : list (gmap string string)) : option (list string) :=
  match ents with
  | [] => Some []
  | e :: rest =>
      match e !! ATTR_ENTITY_ID with
      | None => None
      | Some id =>
          match entity_ids rest with
          | None => None
          | Some ids => Some (id :: ids)
          end
      end
  end.

(** [AreaCoverGroup.__init__]. *)
Definition AreaCoverGroup_init (covers : list (gmap string string))
  (device_class : option string) : option AreaCoverGroup :=
  let ents := List.filter (has_device_class device_class) covers in
  match entity_ids ents with
  | None => None
  | Some ids => Some (mkAreaCoverGroup device_class ents ids)
  end.

(** The loop of [async_setup_entry] over the device classes; [None]
    stands for [KeyError]. *)
Fixpoint cover_groups_loop (covers : list (gmap string string))
  (device_classes : list (option string)) : option (list AreaCoverGroup) :=
  match device_classes with
  | [] => Some []
  | device_class :: rest =>
      match entity_ids (List.filter (has_device_class device_class) covers) with
      | None => None
      | Some covers_in_device_class =>
          if existsb str_truthy covers_in_device_class then
            match AreaCoverGroup_init covers device_class,
                  cover_groups_loop covers rest with
            | Some g, Some gs => Some (g :: gs)
            | _, _ => None
            end
          else cover_groups_loop covers rest
      end
  end.

(** [async_setup_entry] of [cover.py]: the groups handed to
    [async_add_entities] (none when the function returns early).
    [COVER_DEVICE_CLASSES] is Home Assistant's list of cover device
    classes; [has_feature] and [has_entities] are the results of
    [area.has_feature(CONF_FEATURE_COVER_GROUPS)] and
    [area.has_entities(COVER_DOMAIN)]; [covers] is
    [area.entities[COVER_DOMAIN]]. *)
Definition cover_async_setup_entry (COVER_DEVICE_CLASSES : list string)
  (has_feature has_entities : bool) (covers : list (gmap string string))
  : option (list AreaCoverGroup) :=
  if negb has_feature then Some []
  else if negb has_entities then Some []
  else cover_groups_loop covers (map Some COVER_DEVICE_CLASSES ++ [None])%list.

(** *** [util.py]: flattening entity lists *)

(** The values an entity list may hold: a [str], a [bytes], a value that
    is not iterable, or any other iterable, given by the items its
    iteration yields. *)
Inductive PyItem : Type :=
| ItemStr (s : string)
| ItemBytes (b : string)
| ItemScalar (n : Z)
| ItemIterable (items : list PyItem).

Definition is_iterable (item : PyItem) : bool :=
  match item with
  | ItemStr _ | ItemBytes _ | ItemIterable _ => true
  | ItemScalar _ => false
  end.

Definition is_basestring (item : PyItem) : bool :=
  match item with
  | ItemStr _ | ItemBytes _ => true
  | _ => false
  end.

Definition is_entity_list (item : PyItem) : bool :=
  is_iterable item && negb (is_basestring item).

(** What the loop of [flatten_entity_list] yields for one item. *)
Fixpoint flatten_item (i : PyItem) : list PyItem :=
  if is_entity_list i then
    match i with
    | ItemIterable items => flat_map flatten_item items
    | _ => [i]
    end
  else [i].

(** [flatten_entity_list(input_list)], as the list of the values the
    generator yields. *)
Definition flatten_entity_list (input_list : list PyItem) : list PyItem :=
  flat_map flatten_item input_list.

(** *** The light group as a reactive system *)

(** The events the light group reacts to: a state change of the area
    state entity, a state change of the group itself, its auto-release
    timer firing, and a change made by the rest of the system to the entity
    states, the members' aggregate state or the area. *)
Inductive LightEvent : Type :=
| AreaStateChanged (event : Event)
| OwnStateChanged (event : Event)
| ManualTimerFired (handle : nat)
| SurroundingsChanged (sts : gmap string HAState)
    (gs : list string -> GroupState) (a : MagicArea).

Definition set_surroundings (sts : gmap string HAState)
  (gs : list string -> GroupState) (a : MagicArea) (w : World) : World :=
  mkWorld sts (timers w) (next_timer w) (calls w) (clock w) (clock_reads w) gs a.

Definition is_pending_manual (handle : nat) (w : World) : bool :=
  existsb (fun t => Nat.eqb (timer_id t) handle
                    && bool_decide (timer_kind t = ManualTimer)) (timers w).

(** One reaction.  An exception of [_area_state_change] leaves the state
    as it was when it was raised.  An auto-release timer that fires
    leaves the pending set and runs [_reset_manual_timeout]. *)
Definition light_step (float_of_str : string -> option pyfloat)
  (AreaState_of_str : string -> option AreaState) (ev : LightEvent)
  (st : World * AreaLightGroup) : World * AreaLightGroup :=
  let '(w, self) := st in
  match ev with
  | AreaStateChanged event =>
      snd (_area_state_change float_of_str AreaState_of_str event w self)
  | OwnStateChanged event => _update_group_state event w self
  | ManualTimerFired handle =>
      if is_pending_manual handle w
      then (cancel_timer handle w, _reset_manual_timeout self)
      else (w, self)
  | SurroundingsChanged sts gs a => (set_surroundings sts gs a w, self)
  end.

(** The states of the light group: it starts with no timer armed and none
    pending, and then reacts to events. *)
Inductive light_reachable (float_of_str : string -> option pyfloat)
  (AreaState_of_str : string -> option AreaState)
  : World * AreaLightGroup -> Prop :=
| light_reachable_init w self :
    timers w = [] ->
    _manual_timeout_cb self = None ->
    light_reachable float_of_str AreaState_of_str (w, self)
| light_reachable_step ev st :
    light_reachable float_of_str AreaState_of_str st ->
    light_reachable float_of_str AreaState_of_str
      (light_step float_of_str AreaState_of_str ev st).

(** Every pending timer has a handle below the next fresh one, handles are
    pairwise distinct, and a pending auto-release timer is the one whose
    handle the light group holds. *)
Definition manual_timer_ok (st : World * AreaLightGroup) : Prop :=
  let '(w, self) := st in
  (forall t, In t (timers w) -> (timer_id t < next_timer w)%nat) /\
  NoDup (map timer_id (timers w)) /\
  (forall t, In t (timers w) -> timer_kind t = ManualTimer ->
             _manual_timeout_cb self = Some (timer_id t)).

(** *** Further specification-side definitions *)

(** The humidity down-trend sensor is on (and the up-trend sensor exists):
    an aggregation pass that finds no active presence sensor then sets
    [_last_off_time] to the current time. *)
Definition trend_down_on (w : World) : bool :=
  match states w !! humidity_occupied_id (area w),
        states w !! humidity_empty_id (area w) with
  | Some _, Some trend_down => String.eqb (state trend_down) STATE_ON
  | _, _ => false
  end.

(** The option shown by the select entity is the state of the area. *)
Definition in_sync (st : World * AreaStateSelect) : Prop :=
  _attr_current_option (snd st) = area_state (area (fst st)).

(** A sensor takes part in the vote: its entity exists and its state is
    not invalid. *)
Definition votes (INVALID_STATES : list string) (w : World) (sensor : string) : bool :=
  match states w !! sensor with
  | None => false
  | Some ent => negb (bool_decide (state ent ∈ INVALID_STATES))
  end.

(** A service call a light group may issue: a turn-off without brightness
    or a turn-on with a brightness other than zero, on the group itself. *)
Definition well_formed_call (self : AreaLightGroup) (c : ServiceCall) : Prop :=
  call_domain c = LIGHT_DOMAIN /\
  call_entity_id c = entity_id self /\
  ((call_service c = SERVICE_TURN_OFF /\ call_brightness c = None) \/
   (call_service c = SERVICE_TURN_ON /\
    exists b, call_brightness c = Some b /\ b <> 0)).

(** What a run of a procedure did to the world: nothing, or one more
    call at the end of the log, well formed, with the marking set. *)
Definition one_marked_call_or_none (w : World) (self : AreaLightGroup)
  (flag : bool) (r : World * AreaLightGroup) : Prop :=
  (fst r = w /\ last_update_from_entity (snd r) = flag) \/
  (exists c, fst r = services_call c w /\ well_formed_call self c /\
             last_update_from_entity (snd r) = true).


(** An entity of [component] is taken as a presence sensor: it is not an
    empty dictionary and, for a binary sensor, it has an allowed device
    class. *)
Definition is_presence_entity (ae : AreaEntities) (component : string)
  (entity : gmap string string) : bool :=
  negb (bool_decide (entity = ∅))
  && (negb (String.eqb component BINARY_SENSOR_DOMAIN)
      || match entity !! ATTR_DEVICE_CLASS with
         | Some dc => bool_decide (dc ∈ presence_sensor_device_class ae)
         | None => false
         end).

(** An entity of the area counts as a presence sensor with id [s]. *)
Definition presence_sensor_in (ae : AreaEntities)
  (items : list (string * list (gmap string string))) (s : string) : Prop :=
  exists component ents entity,
    In (component, ents) items /\
    component ∈ presence_device_platforms ae /\
    In entity ents /\
    is_presence_entity ae component entity = true /\
    entity !! ATTR_ENTITY_ID = Some s.

(** *** Further examples *)

(** The motion sensor is on. *)
Definition on_world : World :=
  example_world {[ "binary_sensor.motion1" := ha "on" ]}
    (seconds 100) (mkGroupState None None)
    (example_area AREA_STATE_CLEAR [] 10 50).

(** A select entity that still holds the handle of a clear timer that is
    no longer pending. *)
Definition stale_select : AreaStateSelect :=
  set_clear_timeout_callback (Some 7%nat) motion_select.

(** The motion sensor goes off. *)
Definition to_off : Event :=
  mkEvent "state_changed" "binary_sensor.motion1" (Some (ha "on")) (Some (ha "off")).

(** A select entity with a second sensor that has no state. *)
Definition two_sensor_select : AreaStateSelect :=
  example_select 0 ["binary_sensor.motion1"; "binary_sensor.gone"].

(** Four covers: two blinds, one without device class and one of a class
    that Home Assistant does not list. *)
Definition blind_left : gmap string string :=
  {[ ATTR_ENTITY_ID := "cover.blind_left"; ATTR_DEVICE_CLASS := "blind" ]}.

Definition blind_right : gmap string string :=
  {[ ATTR_ENTITY_ID := "cover.blind_right"; ATTR_DEVICE_CLASS := "blind" ]}.

Definition hatch : gmap string string :=
  {[ ATTR_ENTITY_ID := "cover.hatch"; ATTR_DEVICE_CLASS := "trapdoor" ]}.

Definition example_covers : list (gmap string string) :=
  [ blind_left;
    {[ ATTR_ENTITY_ID := "cover.garage" ]};
    blind_right;
    hatch ].

Definition example_cover_groups : list AreaCoverGroup :=
  default [] (cover_async_setup_entry ["awning"; "blind"] true true example_covers).

(** The group of the blinds. *)
Definition blind_group : AreaCoverGroup :=
  mkAreaCoverGroup (Some "blind") [blind_left; blind_right]
    ["cover.blind_left"; "cover.blind_right"].

(** The entities of an area: two binary sensors, of which only the motion
    sensor has an allowed device class, a media player and a light. *)
Definition example_entities : AreaEntities :=
  mkAreaEntities []
    [ (BINARY_SENSOR_DOMAIN,
       [ {[ ATTR_ENTITY_ID := "binary_sensor.motion1"; ATTR_DEVICE_CLASS := "motion" ]};
         {[ ATTR_ENTITY_ID := "binary_sensor.window"; ATTR_DEVICE_CLASS := "window" ]};
         {[ ATTR_ENTITY_ID := "binary_sensor.plain" ]};
         ∅ ]);
      ("media_player", [ {[ ATTR_ENTITY_ID := "media_player.tv" ]} ]);
      ("light", [ {[ ATTR_ENTITY_ID := "light.den" ]} ]) ]
    ["media_player"; BINARY_SENSOR_DOMAIN]
    ["motion"; "occupancy"; "presence"].

(** The light group changes from on to off. *)
Definition own_on_to_off : Event :=
  mkEvent "state_changed" "light.simply_magic_areas_light_den"
    (Some (ha "on")) (Some (ha "off")).

(** A clear area whose Clear state is configured with dim level 50. *)
Definition clear_world : World :=
  light_world ∅ group_off AREA_STATE_CLEAR
    [(AREA_STATE_CLEAR, light_conf AREA_STATE_CLEAR 50)] 10 50.

Definition lux_world : World :=
  light_world {[ "sensor.illuminance" := ha "30" ]} group_off
    AREA_STATE_OCCUPIED [] 10 50.

(** * Properties *)

(** ** The occupancy windows *)

Lemma secondary_state_loop_last_match w configs acc :
  secondary_state_loop w configs acc =
  match last_match w configs with
  | Some c => for_state c
  | None => acc
  end.
Proof.
  revert acc. induction configs as [|kc rest IH]; intros acc; [reflexivity|].
  unfold secondary_state_loop in *. cbn [fold_left last_match].
  rewrite IH. destruct (last_match w rest); [reflexivity|].
  destruct (trigger_matches w (snd kc)); reflexivity.
Qed.

Lemma filter_all_false {A} (f : A -> bool) (l : list A) :
  (forall x, In x l -> f x = false) -> List.filter f l = [].
Proof.
  induction l as [|a l IH]; intros H; [reflexivity|].
  cbn [List.filter]. rewrite (H a) by (left; reflexivity).
  apply IH. intros x Hx. apply H. right. exact Hx.
Qed.

Lemma get_sensors_state_quiet INV w self :
  _mode self = "one" ->
  (forall s, In s (_sensors self) -> sensor_is_active INV w (valid_states w) s = false) ->
  trend_intervenes w = false ->
  _get_sensors_state INV w self = (false, (w, set_active_sensors [] self)).
Proof.
  intros Hmode Hs Ht. unfold _get_sensors_state.
  fold (valid_states w).
  rewrite (filter_all_false _ _ Hs). cbn [map length Nat.eqb].
  unfold trend_intervenes in Ht.
  destruct (states w !! humidity_occupied_id (area w)) as [up|];
    destruct (states w !! humidity_empty_id (area w)) as [down|];
    try (cbn; rewrite Hmode; reflexivity).
  apply orb_false_iff in Ht as [Hu Hd]. rewrite Hu, Hd.
  cbn. rewrite Hmode. reflexivity.
Qed.


Lemma trigger_matches_ext w w' conf :
  states w = states w' -> trigger_matches w' conf = trigger_matches w conf.
Proof. intros H. unfold trigger_matches. rewrite H. reflexivity. Qed.

Lemma secondary_state_loop_ext w w' configs acc :
  states w = states w' ->
  secondary_state_loop w' configs acc = secondary_state_loop w configs acc.
Proof.
  intros H. revert acc. unfold secondary_state_loop.
  induction configs as [|kc rest IH]; intros acc; [reflexivity|].
  cbn [fold_left]. rewrite (trigger_matches_ext w w' _ H). apply IH.
Qed.

Lemma remove_clear_timeout_frame w self :
  states (fst (_remove_clear_timeout w self)) = states w /\
  area (fst (_remove_clear_timeout w self)) = area w.
Proof. unfold _remove_clear_timeout. destruct (_clear_timeout_callback self); split; reflexivity. Qed.

Lemma set_clear_timeout_frame t w self :
  states (fst (_set_clear_timeout t w self)) = states w /\
  area (fst (_set_clear_timeout t w self)) = area w.
Proof.
  unfold _set_clear_timeout.
  destruct (_is_on_clear_timeout self).
  - pose proof (remove_clear_timeout_frame w self) as [H1 H2].
    destruct (_remove_clear_timeout w self) as [w1 self1]. cbn in *. split; assumption.
  - split; reflexivity.
Qed.

(** C1 (amended): when no presence sensor is active and the humidity trend
    sensors do not intervene, the evaluation measures the time elapsed
    since the recorded last-inactive time [_last_off_time]: below the clear
    timeout it returns Occupied or the matching secondary state, from the
    clear timeout up to clear plus extended timeout it returns Extended,
    and from there on Clear. *)
Theorem C1_timeout_windows INV w self :
  _mode self = "one" ->
  (forall s, In s (_sensors self) -> sensor_is_active INV w (valid_states w) s = false) ->
  trend_intervenes w = false ->
  0 <= _get_extended_timeout w ->
  let elapsed := clock w (clock_reads w) - _last_off_time self in
  let C := _get_clear_timeout w in
  let E := _get_extended_timeout w in
  let result := fst (get_current_area_state INV w self) in
  (elapsed < seconds C -> result = occupied_or_secondary w) /\
  (seconds C <= elapsed < seconds (C + E) -> result = AREA_STATE_EXTENDED) /\
  (seconds (C + E) <= elapsed -> result = AREA_STATE_CLEAR).
Proof.
  intros Hmode Hs Ht HE elapsed C E result.
  subst result. unfold get_current_area_state.
  rewrite (get_sensors_state_quiet INV w self Hmode Hs Ht).
  cbn [datetime_now negb].
  change (_last_off_time (set_active_sensors [] self)) with (_last_off_time self).
  change (_get_clear_timeout (set_clock_reads (S (clock_reads w)) w)) with C.
  change (_get_extended_timeout (set_clock_reads (S (clock_reads w)) w)) with E.
  fold elapsed. fold E in HE.
  assert (Hsec : seconds (E + C) = seconds E + seconds C) by (unfold seconds; lia).
  assert (Hsec' : seconds (C + E) = seconds E + seconds C) by (unfold seconds; lia).
  assert (HE' : 0 <= seconds E) by (unfold seconds; lia).
  set (w0 := set_clock_reads (S (clock_reads w)) w).
  set (self0 := set_active_sensors [] self).
  repeat split.
  - intros Hlt.
    destruct (seconds C <=? elapsed) eqn:Hc; [apply Z.leb_le in Hc; lia|].
    unfold occupied_or_secondary. rewrite <- secondary_state_loop_last_match.
    destruct (_ && _).
    + pose proof (set_clear_timeout_frame (seconds C - elapsed) w0 self0) as [H1 H2].
      destruct (_set_clear_timeout _ _ _) as [w3 self3]. cbn [fst] in *.
      rewrite H2. apply secondary_state_loop_ext. symmetry. exact H1.
    + reflexivity.
  - intros [Hge Hlt].
    destruct (seconds C <=? elapsed) eqn:Hc; [|apply Z.leb_gt in Hc; lia].
    destruct (seconds (E + C) <=? elapsed) eqn:He; [apply Z.leb_le in He; lia|].
    destruct (_ && _); [destruct (_set_clear_timeout _ _ _)|];
      destruct (_remove_clear_timeout _ _); reflexivity.
  - intros Hge.
    destruct (seconds C <=? elapsed) eqn:Hc; [|apply Z.leb_gt in Hc; lia].
    destruct (seconds (E + C) <=? elapsed) eqn:He; [|apply Z.leb_gt in He; lia].
    destruct (_ && _); [destruct (_set_clear_timeout _ _ _)|]; reflexivity.
Qed.


(** C1, as stated, fails: the motion sensor has been off for 100 s, with a
    clear timeout of 60 s and an extended timeout of 30 s, and the
    evaluation still does not return Clear, because the humidity down-trend
    sensor is on and refreshes the last-inactive time. *)
Lemma C1_counterexample :
  let w := trend_down_world in
  let self := motion_select in
  ~ ((forall s, In s (_sensors self) ->
        sensor_is_active example_INVALID_STATES w (valid_states w) s = false) ->
     seconds (_get_clear_timeout w + _get_extended_timeout w)
       <= clock w (clock_reads w) - _last_off_time self ->
     fst (get_current_area_state example_INVALID_STATES w self) = AREA_STATE_CLEAR).
Proof.
  intros w self H.
  assert (Hr : fst (get_current_area_state example_INVALID_STATES w self)
               = AREA_STATE_OCCUPIED) by (vm_compute; reflexivity).
  rewrite H in Hr; [discriminate| |vm_compute; discriminate].
  intros s [<-|[]]. vm_compute. reflexivity.
Qed.

Lemma C1_timeout_windows_witness :
  fst (get_current_area_state example_INVALID_STATES (quiet_world 70) motion_select)
  = AREA_STATE_EXTENDED.
Proof.
  apply (C1_timeout_windows example_INVALID_STATES (quiet_world 70) motion_select).
  - reflexivity.
  - intros s [<-|[]]. vm_compute. reflexivity.
  - vm_compute. reflexivity.
  - vm_compute. discriminate.
  - vm_compute. split; [discriminate|reflexivity].
Defined.

(** The scenario of the specification: clear timeout 60 s, extended
    timeout 30 s, the sensor off since time 0. *)
Example occupied_until_60 :
  fst (get_current_area_state example_INVALID_STATES (quiet_world 59) motion_select)
  = AREA_STATE_OCCUPIED.
Proof. vm_compute. reflexivity. Qed.

Example extended_from_60 :
  fst (get_current_area_state example_INVALID_STATES (quiet_world 60) motion_select)
  = AREA_STATE_EXTENDED /\
  fst (get_current_area_state example_INVALID_STATES (quiet_world 89) motion_select)
  = AREA_STATE_EXTENDED.
Proof. split; vm_compute; reflexivity. Qed.

Example clear_from_90 :
  fst (get_current_area_state example_INVALID_STATES (quiet_world 90) motion_select)
  = AREA_STATE_CLEAR.
Proof. vm_compute. reflexivity. Qed.

(** ** Invalid sensor readings *)


Lemma sensor_is_active_invalid INV w vs sensor ent :
  states w !! sensor = Some ent -> state ent ∈ INV ->
  sensor_is_active INV w vs sensor = false.
Proof.
  intros Hl Hi. unfold sensor_is_active. rewrite Hl.
  rewrite bool_decide_eq_true_2 by exact Hi. reflexivity.
Qed.

Lemma active_sensors_of_cases INV w self :
  let vs := if is_meta (area w) then [STATE_ON] else on_states (area w) in
  let base := map SensorId (List.filter (sensor_is_active INV w vs) (_sensors self)) in
  active_sensors_of INV w self = base \/
  exists up, base = [] /\ state up = STATE_ON /\ active_sensors_of INV w self = [TrendUp up].
Proof.
  intros vs base. unfold active_sensors_of, _get_sensors_state.
  fold vs. fold base.
  destruct (Nat.eqb (length base) 0) eqn:Hlen.
  - assert (Hb : base = []) by (destruct base; [reflexivity|discriminate]).
    rewrite Hb.
    destruct (states w !! humidity_occupied_id (area w)) as [up|];
      destruct (states w !! humidity_empty_id (area w)) as [down|];
      try (left; reflexivity).
    destruct (String.eqb (state up) STATE_ON) eqn:Hu;
      destruct (String.eqb (state down) STATE_ON) eqn:Hd; cbn;
      try (left; reflexivity).
    right. exists up. apply String.eqb_eq in Hu. auto.
  - left. destruct base; [discriminate|]. reflexivity.
Qed.

(** C7: a sensor whose state is in the invalid set is never put on the
    list of active sensors, neither is a humidity up-trend sensor in such a
    state, and a sensor or humidity event whose new state is invalid
    changes nothing, so it never updates [_last_off_time]. *)
Theorem C7_invalid_readings INV w self :
  STATE_ON ∉ INV ->
  (forall sensor ent,
      states w !! sensor = Some ent -> state ent ∈ INV ->
      ~ In (SensorId sensor) (active_sensors_of INV w self)) /\
  (forall up, In (TrendUp up) (active_sensors_of INV w self) -> state up ∉ INV) /\
  (forall event ns,
      new_state event = Some ns -> state ns ∈ INV ->
      _sensor_state_change INV event w self = (w, self) /\
      _humidity_sensor_change INV event w self = (w, self)).
Proof.
  intros Hon. repeat split.
  - intros sensor ent Hl Hi Hin.
    destruct (active_sensors_of_cases INV w self) as [Heq|(up & _ & _ & Heq)];
      rewrite Heq in Hin.
    + apply in_map_iff in Hin as (s & [= ->] & Hf).
      apply filter_In in Hf as [_ Hact].
      rewrite (sensor_is_active_invalid INV w _ sensor ent Hl Hi) in Hact.
      discriminate.
    + destruct Hin as [Hin|[]]. discriminate.
  - intros up Hin.
    destruct (active_sensors_of_cases INV w self) as [Heq|(up' & _ & Hu & Heq)];
      rewrite Heq in Hin.
    + apply in_map_iff in Hin as (s & Hs & _). discriminate.
    + destruct Hin as [[= ->]|[]]. rewrite Hu. exact Hon.
  - unfold _sensor_state_change. rewrite H.
    rewrite bool_decide_eq_true_2 by assumption. reflexivity.
  - unfold _humidity_sensor_change. rewrite H.
    rewrite bool_decide_eq_true_2 by assumption. reflexivity.
Qed.


Lemma C7_invalid_readings_witness :
  (STATE_ON ∉ example_INVALID_STATES) /\
  _sensor_state_change example_INVALID_STATES to_unavailable
    unavailable_world motion_select = (unavailable_world, motion_select).
Proof.
  assert (Hon : STATE_ON ∉ example_INVALID_STATES).
  { intros H. apply list_elem_of_In in H. vm_compute in H. intuition discriminate. }
  split; [exact Hon|].
  apply (C7_invalid_readings example_INVALID_STATES unavailable_world motion_select Hon)
    with (ns := ha "unavailable").
  - reflexivity.
  - apply list_elem_of_In. left. reflexivity.
Defined.

(** ** Case of the trigger state *)














(** ** Timer discipline *)

Lemma timers_ok_ext w self w' self' :
  timers w' = timers w -> next_timer w' = next_timer w ->
  _clear_timeout_callback self' = _clear_timeout_callback self ->
  _extended_timeout_callback self' = _extended_timeout_callback self ->
  timers_ok (w, self) -> timers_ok (w', self').
Proof.
  intros Ht Hn Hc He. unfold timers_ok. rewrite Ht, Hn, Hc, He. tauto.
Qed.

Lemma NoDup_map_filter {A B} (f : A -> B) (p : A -> bool) (l : list A) :
  NoDup (map f l) -> NoDup (map f (List.filter p l)).
Proof.
  induction l as [|a l IH]; intros H; [constructor|].
  cbn in *. apply NoDup_cons in H as [Hn Hd].
  destruct (p a); [|auto]. cbn. apply NoDup_cons. split; [|auto].
  intros Hin. apply Hn. apply list_elem_of_In in Hin. apply list_elem_of_In.
  apply in_map_iff in Hin as (x & Hx & Hf). apply filter_In in Hf as [Hf _].
  apply in_map_iff. eauto.
Qed.

Lemma timers_ok_cancel h w self :
  timers_ok (w, self) -> timers_ok (cancel_timer h w, self).
Proof.
  intros (H1 & H2 & H3 & H4). unfold timers_ok, cancel_timer. cbn.
  repeat split.
  - intros t Ht. apply filter_In in Ht as [Ht _]. auto.
  - apply NoDup_map_filter. exact H2.
  - intros t Ht. apply filter_In in Ht as [Ht _]. auto.
  - intros t Ht. apply filter_In in Ht as [Ht _]. auto.
Qed.

Lemma timers_ok_remove_clear w self :
  timers_ok (w, self) -> timers_ok (_remove_clear_timeout w self).
Proof.
  intros H. unfold _remove_clear_timeout.
  destruct (_clear_timeout_callback self) as [cb|] eqn:Hcb; [|exact H].
  pose proof (timers_ok_cancel cb w self H) as (H1 & H2 & H3 & H4).
  destruct H as (_ & _ & H3' & _).
  unfold timers_ok. repeat split; try assumption.
  intros t Ht Hk. exfalso. cbn in Ht. apply filter_In in Ht as [Ht Hne].
  specialize (H3' t Ht Hk). rewrite Hcb in H3'. injection H3' as ->.
  rewrite Nat.eqb_refl in Hne. discriminate.
Qed.

Lemma timers_ok_remove_extended w self :
  timers_ok (w, self) -> timers_ok (_remove_extended_timeout w self).
Proof.
  intros H. unfold _remove_extended_timeout.
  destruct (_extended_timeout_callback self) as [cb|] eqn:Hcb; [|exact H].
  pose proof (timers_ok_cancel cb w self H) as (H1 & H2 & H3 & H4).
  destruct H as (_ & _ & _ & H4').
  unfold timers_ok. repeat split; try assumption.
  intros t Ht Hk. exfalso. cbn in Ht. apply filter_In in Ht as [Ht Hne].
  specialize (H4' t Ht Hk). rewrite Hcb in H4'. injection H4' as ->.
  rewrite Nat.eqb_refl in Hne. discriminate.
Qed.

Lemma NoDup_map_snoc (l : list Timer) (t : Timer) :
  NoDup (map timer_id l) ->
  (forall x, In x l -> (timer_id x < timer_id t)%nat) ->
  NoDup (map timer_id (l ++ [t])).
Proof.
  intros Hd Hlt. rewrite map_app. apply NoDup_app. split; [exact Hd|]. split.
  - intros x Hx Hx'. apply list_elem_of_In in Hx, Hx'.
    apply in_map_iff in Hx as (y & <- & Hy). cbn in Hx'.
    destruct Hx' as [Hx'|[]]. specialize (Hlt y Hy). lia.
  - cbn. apply NoDup_singleton.
Qed.


Lemma no_pending_clear w self :
  timers_ok (w, self) -> _clear_timeout_callback self = None ->
  pending ClearTimer w = [].
Proof.
  intros (_ & _ & H3 & _) Hn. apply filter_all_false. intros x Hx.
  apply bool_decide_eq_false_2. intros Hk.
  specialize (H3 x Hx Hk). congruence.
Qed.

Lemma no_pending_extended w self :
  timers_ok (w, self) -> _extended_timeout_callback self = None ->
  pending ExtendedTimer w = [].
Proof.
  intros (_ & _ & _ & H4) Hn. apply filter_all_false. intros x Hx.
  apply bool_decide_eq_false_2. intros Hk.
  specialize (H4 x Hx Hk). congruence.
Qed.

Lemma remove_clear_timeout_callback w self :
  _clear_timeout_callback (snd (_remove_clear_timeout w self)) = None /\
  _extended_timeout_callback (snd (_remove_clear_timeout w self))
    = _extended_timeout_callback self /\
  next_timer (fst (_remove_clear_timeout w self)) = next_timer w.
Proof.
  unfold _remove_clear_timeout.
  destruct (_clear_timeout_callback self) eqn:E; cbn; auto.
Qed.

Lemma remove_extended_timeout_callback w self :
  _extended_timeout_callback (snd (_remove_extended_timeout w self)) = None /\
  _clear_timeout_callback (snd (_remove_extended_timeout w self))
    = _clear_timeout_callback self /\
  next_timer (fst (_remove_extended_timeout w self)) = next_timer w.
Proof.
  unfold _remove_extended_timeout.
  destruct (_extended_timeout_callback self) eqn:E; cbn; auto.
Qed.

(** Arming on a state without a handle: the new timer is the only pending
    one of its kind. *)
Lemma timers_ok_call_later_clear t w self :
  timers_ok (w, self) -> _clear_timeout_callback self = None ->
  timers_ok (snd (call_later ClearTimer t w),
             set_clear_timeout_callback (Some (fst (call_later ClearTimer t w))) self) /\
  pending ClearTimer (snd (call_later ClearTimer t w))
    = [mkTimer (next_timer w) ClearTimer t].
Proof.
  intros H Hn. pose proof (no_pending_clear w self H Hn) as Hp.
  destruct H as (H1 & H2 & H3 & H4). split.
  - unfold timers_ok. cbn. repeat split.
    + intros x Hx. apply in_app_iff in Hx as [Hx|[<-|[]]]; [specialize (H1 x Hx)|cbn]; lia.
    + apply NoDup_map_snoc; [exact H2|]. cbn. exact H1.
    + intros x Hx Hk. apply in_app_iff in Hx as [Hx|[<-|[]]]; [|reflexivity].
      specialize (H3 x Hx Hk). congruence.
    + intros x Hx Hk. apply in_app_iff in Hx as [Hx|[<-|[]]]; [auto|discriminate].
  - unfold pending in *. cbn. rewrite List.filter_app, Hp. reflexivity.
Qed.

Lemma timers_ok_call_later_extended t w self :
  timers_ok (w, self) -> _extended_timeout_callback self = None ->
  timers_ok (snd (call_later ExtendedTimer t w),
             set_extended_timeout_callback
               (Some (fst (call_later ExtendedTimer t w))) self) /\
  pending ExtendedTimer (snd (call_later ExtendedTimer t w))
    = [mkTimer (next_timer w) ExtendedTimer t].
Proof.
  intros H Hn. pose proof (no_pending_extended w self H Hn) as Hp.
  destruct H as (H1 & H2 & H3 & H4). split.
  - unfold timers_ok. cbn. repeat split.
    + intros x Hx. apply in_app_iff in Hx as [Hx|[<-|[]]]; [specialize (H1 x Hx)|cbn]; lia.
    + apply NoDup_map_snoc; [exact H2|]. cbn. exact H1.
    + intros x Hx Hk. apply in_app_iff in Hx as [Hx|[<-|[]]]; [auto|discriminate].
    + intros x Hx Hk. apply in_app_iff in Hx as [Hx|[<-|[]]]; [|reflexivity].
      specialize (H4 x Hx Hk). congruence.
  - unfold pending in *. cbn. rewrite List.filter_app, Hp. reflexivity.
Qed.

Lemma set_clear_timeout_ok t w self :
  timers_ok (w, self) ->
  timers_ok (_set_clear_timeout t w self) /\
  pending ClearTimer (fst (_set_clear_timeout t w self))
    = [mkTimer (next_timer w) ClearTimer t].
Proof.
  intros H. unfold _set_clear_timeout.
  assert (Hr : timers_ok (if _is_on_clear_timeout self
                          then _remove_clear_timeout w self else (w, self)) /\
               _clear_timeout_callback
                 (snd (if _is_on_clear_timeout self
                       then _remove_clear_timeout w self else (w, self))) = None /\
               next_timer (fst (if _is_on_clear_timeout self
                       then _remove_clear_timeout w self else (w, self))) = next_timer w).
  { unfold _is_on_clear_timeout. case_bool_decide as Hs.
    - split; [apply timers_ok_remove_clear; exact H|].
      pose proof (remove_clear_timeout_callback w self). tauto.
    - split; [exact H|]. split; [|reflexivity]. cbn [fst snd].
      destruct (_clear_timeout_callback self) eqn:E; [|reflexivity].
      exfalso. apply Hs. eauto. }
  destruct (if _is_on_clear_timeout self then _ else _) as [w1 self1].
  destruct Hr as (Hok & Hnone & Hnext). cbn [fst snd] in *.
  pose proof (timers_ok_call_later_clear t w1 self1 Hok Hnone) as [Ha Hb].
  rewrite Hnext in Hb. split; assumption.
Qed.

Lemma set_extended_timeout_ok t w self :
  timers_ok (w, self) ->
  timers_ok (_set_extended_timeout t w self) /\
  pending ExtendedTimer (fst (_set_extended_timeout t w self))
    = [mkTimer (next_timer w) ExtendedTimer t].
Proof.
  intros H. unfold _set_extended_timeout.
  assert (Hr : timers_ok (if _is_on_extended_timeout self
                          then _remove_extended_timeout w self else (w, self)) /\
               _extended_timeout_callback
                 (snd (if _is_on_extended_timeout self
                       then _remove_extended_timeout w self else (w, self))) = None /\
               next_timer (fst (if _is_on_extended_timeout self
                       then _remove_extended_timeout w self else (w, self))) = next_timer w).
  { unfold _is_on_extended_timeout. case_bool_decide as Hs.
    - split; [apply timers_ok_remove_extended; exact H|].
      pose proof (remove_extended_timeout_callback w self). tauto.
    - split; [exact H|]. split; [|reflexivity]. cbn [fst snd].
      destruct (_extended_timeout_callback self) eqn:E; [|reflexivity].
      exfalso. apply Hs. eauto. }
  destruct (if _is_on_extended_timeout self then _ else _) as [w1 self1].
  destruct Hr as (Hok & Hnone & Hnext). cbn [fst snd] in *.
  pose proof (timers_ok_call_later_extended t w1 self1 Hok Hnone) as [Ha Hb].
  rewrite Hnext in Hb. split; assumption.
Qed.

Lemma timers_ok_get_sensors_state INV w self :
  timers_ok (w, self) -> timers_ok (snd (_get_sensors_state INV w self)).
Proof.
  intros H. unfold _get_sensors_state.
  destruct (Nat.eqb _ 0);
    [destruct (states w !! humidity_occupied_id (area w)) as [up|];
     [destruct (states w !! humidity_empty_id (area w)) as [down|];
      [destruct (String.eqb (state down) STATE_ON)|]|]|];
    cbn [snd datetime_now];
    repeat match goal with
           | |- context [match ?x with [] => _ | _ :: _ => _ end] => destruct x
           end;
    (eapply timers_ok_ext; [..|exact H]; reflexivity).
Qed.

Lemma timers_ok_get_current_area_state INV w self :
  timers_ok (w, self) -> timers_ok (snd (get_current_area_state INV w self)).
Proof.
  intros H. unfold get_current_area_state.
  pose proof (timers_ok_get_sensors_state INV w self H) as H1.
  destruct (_get_sensors_state INV w self) as [occupied [w1 self1]].
  cbn [snd datetime_now] in *.
  set (w2 := set_clock_reads (S (clock_reads w1)) w1).
  assert (H2 : timers_ok (w2, self1))
    by (eapply timers_ok_ext; [..|exact H1]; reflexivity).
  clearbody w2.
  destruct occupied; cbn [negb].
  - pose proof (timers_ok_remove_clear w2 self1 H2) as H3.
    destruct (_remove_clear_timeout w2 self1) as [w3 self3].
    pose proof (timers_ok_remove_extended w3 self3 H3) as H4.
    destruct (_remove_extended_timeout w3 self3) as [w4 self4]. exact H4.
  - match goal with
    | |- context [if ?c then _set_clear_timeout ?t w2 self1 else _] =>
        assert (H3 : timers_ok (if c then _set_clear_timeout t w2 self1 else (w2, self1)))
          by (destruct c; [apply set_clear_timeout_ok|]; assumption);
        destruct (if c then _set_clear_timeout t w2 self1 else (w2, self1)) as [w3 self3]
    end.
    destruct (_ <=? _); [|exact H3].
    destruct (_ <=? _); cbn [snd].
    + apply timers_ok_remove_extended. exact H3.
    + pose proof (timers_ok_remove_clear w3 self3 H3) as H4.
      destruct (_remove_clear_timeout w3 self3) as [w4 self4]. cbn [snd].
      destruct (_ && _); [apply set_extended_timeout_ok|]; assumption.
Qed.

Lemma timers_ok_update_state INV w self :
  timers_ok (w, self) -> timers_ok (_update_state INV w self).
Proof.
  intros H. unfold _update_state.
  pose proof (timers_ok_get_current_area_state INV w self H) as H1.
  destruct (get_current_area_state INV w self) as [new_state [w1 self1]].
  cbn [snd] in H1. destruct (decide _); [exact H1|].
  eapply timers_ok_ext; [..|exact H1]; reflexivity.
Qed.

Lemma timers_ok_clock w self :
  timers_ok (w, self) -> timers_ok (snd (datetime_now w), self).
Proof. intros H. eapply timers_ok_ext; [..|exact H]; reflexivity. Qed.

Lemma timers_ok_step INV ev st :
  timers_ok st -> timers_ok (select_step INV ev st).
Proof.
  destruct st as [w self]. intros H. destruct ev as [e|e|e| |h| |sts]; cbn [select_step].
  - unfold _sensor_state_change.
    destruct (new_state e) as [ns|]; [|exact H].
    case_bool_decide; [exact H|].
    match goal with
    | |- context [if ?c then ?a else (w, self)] =>
        assert (H2 : timers_ok (if c then a else (w, self)));
        [destruct c; [|exact H]|
         destruct (if c then a else (w, self)) as [w2 self2]]
    end.
    { cbn [datetime_now]. apply timers_ok_remove_clear.
      eapply timers_ok_ext; [..|exact H]; reflexivity. }
    cbn [datetime_now]. apply timers_ok_update_state.
    eapply timers_ok_ext; [..|exact H2]; reflexivity.
  - unfold _humidity_sensor_change.
    destruct (new_state e) as [ns|]; [|exact H].
    case_bool_decide; [exact H|]. cbn [datetime_now].
    apply timers_ok_update_state. eapply timers_ok_ext; [..|exact H]; reflexivity.
  - unfold _group_entity_state_change.
    destruct (negb _); [exact H|].
    destruct (new_state e) as [ns|]; [|exact H].
    case_bool_decide; [exact H|]. cbn [datetime_now].
    apply timers_ok_update_state. eapply timers_ok_ext; [..|exact H]; reflexivity.
  - apply timers_ok_update_state. exact H.
  - destruct (is_pending h w); [|exact H].
    apply timers_ok_update_state. apply timers_ok_cancel. exact H.
  - unfold _cleanup_timers.
    pose proof (timers_ok_remove_clear w self H) as H1.
    destruct (_remove_clear_timeout w self) as [w1 self1].
    apply timers_ok_remove_extended. exact H1.
  - eapply timers_ok_ext; [..|exact H]; reflexivity.
Qed.

Lemma reachable_timers_ok INV st : reachable INV st -> timers_ok st.
Proof.
  induction 1 as [w self Ht Hc He|ev st Hr IH].
  - unfold timers_ok. rewrite Ht. cbn. repeat split; try (intros t []).
    constructor.
  - apply timers_ok_step. exact IH.
Qed.

Lemma NoDup_same_id (l : list Timer) (h : nat) :
  NoDup (map timer_id l) -> (forall t, In t l -> timer_id t = h) ->
  (length l <= 1)%nat.
Proof.
  destruct l as [|a [|b l]]; cbn; intros Hd Hh; try lia.
  exfalso. apply NoDup_cons in Hd as [Hn _]. apply Hn.
  rewrite (Hh a), <- (Hh b) by auto. left.
Qed.

Lemma timers_ok_at_most_one w self :
  timers_ok (w, self) ->
  (length (pending ClearTimer w) <= 1)%nat /\
  (length (pending ExtendedTimer w) <= 1)%nat.
Proof.
  intros H. pose proof H as (H1 & H2 & H3 & H4). split.
  - destruct (_clear_timeout_callback self) as [h|] eqn:E.
    + apply (NoDup_same_id _ h); [apply NoDup_map_filter; exact H2|].
      intros t Ht. apply filter_In in Ht as [Ht Hk].
      apply bool_decide_eq_true_1 in Hk. specialize (H3 t Ht Hk). congruence.
    + rewrite (no_pending_clear w self H E). cbn. lia.
  - destruct (_extended_timeout_callback self) as [h|] eqn:E.
    + apply (NoDup_same_id _ h); [apply NoDup_map_filter; exact H2|].
      intros t Ht. apply filter_In in Ht as [Ht Hk].
      apply bool_decide_eq_true_1 in Hk. specialize (H4 t Ht Hk). congruence.
    + rewrite (no_pending_extended w self H E). cbn. lia.
Qed.

Lemma remove_clear_timeout_idem w self :
  (_clear_timeout_callback self = None -> _remove_clear_timeout w self = (w, self)) /\
  (let '(w1, self1) := _remove_clear_timeout w self in
   _remove_clear_timeout w1 self1 = (w1, self1)).
Proof.
  unfold _remove_clear_timeout. split.
  - intros ->. reflexivity.
  - destruct (_clear_timeout_callback self) eqn:E; cbn; [reflexivity|].
    rewrite E. reflexivity.
Qed.

Lemma remove_extended_timeout_idem w self :
  (_extended_timeout_callback self = None -> _remove_extended_timeout w self = (w, self)) /\
  (let '(w1, self1) := _remove_extended_timeout w self in
   _remove_extended_timeout w1 self1 = (w1, self1)).
Proof.
  unfold _remove_extended_timeout. split.
  - intros ->. reflexivity.
  - destruct (_extended_timeout_callback self) eqn:E; cbn; [reflexivity|].
    rewrite E. reflexivity.
Qed.

(** Cancelling a handle that is no longer pending leaves the timers alone. *)
Lemma cancel_not_pending h w :
  is_pending h w = false -> timers (cancel_timer h w) = timers w.
Proof.
  unfold is_pending, cancel_timer. cbn. intros H.
  induction (timers w) as [|a l IH]; [reflexivity|].
  cbn in *. apply orb_false_iff in H as [Ha Hl]. rewrite Ha. cbn.
  f_equal. apply IH. exact Hl.
Qed.

(** C8: in every reachable state at most one clear timer and at most one
    extended timer are pending; after arming a timer of a kind the new
    timer is the only pending one of that kind; removing a timeout with no
    handle, or a second time, changes nothing, and removing one whose timer
    is no longer pending leaves the pending timers alone. *)
Theorem C8_timer_discipline INV w self :
  reachable INV (w, self) ->
  ((length (pending ClearTimer w) <= 1)%nat /\
   (length (pending ExtendedTimer w) <= 1)%nat) /\
  (forall t,
      pending ClearTimer (fst (_set_clear_timeout t w self))
        = [mkTimer (next_timer w) ClearTimer t] /\
      pending ExtendedTimer (fst (_set_extended_timeout t w self))
        = [mkTimer (next_timer w) ExtendedTimer t]) /\
  ((_clear_timeout_callback self = None -> _remove_clear_timeout w self = (w, self)) /\
   (_extended_timeout_callback self = None ->
    _remove_extended_timeout w self = (w, self))) /\
  ((let '(w1, self1) := _remove_clear_timeout w self in
    _remove_clear_timeout w1 self1 = (w1, self1)) /\
   (let '(w1, self1) := _remove_extended_timeout w self in
    _remove_extended_timeout w1 self1 = (w1, self1))) /\
  (forall h,
      is_pending h w = false ->
      (_clear_timeout_callback self = Some h ->
       timers (fst (_remove_clear_timeout w self)) = timers w) /\
      (_extended_timeout_callback self = Some h ->
       timers (fst (_remove_extended_timeout w self)) = timers w)).
Proof.
  intros Hr. pose proof (reachable_timers_ok INV _ Hr) as Hok.
  split; [apply (timers_ok_at_most_one w self Hok)|].
  split; [intros t; split;
          [apply set_clear_timeout_ok|apply set_extended_timeout_ok]; exact Hok|].
  pose proof (remove_clear_timeout_idem w self) as [Hc1 Hc2].
  pose proof (remove_extended_timeout_idem w self) as [He1 He2].
  split; [split; assumption|]. split; [split; assumption|].
  intros h Hp. split; intros Hcb.
  - unfold _remove_clear_timeout. rewrite Hcb. cbn [fst].
    apply cancel_not_pending. exact Hp.
  - unfold _remove_extended_timeout. rewrite Hcb. cbn [fst].
    apply cancel_not_pending. exact Hp.
Qed.

Lemma C8_timer_discipline_witness :
  let st := select_step example_INVALID_STATES IntervalTick
              (quiet_world 10, motion_select) in
  reachable example_INVALID_STATES (fst st, snd st) /\
  length (pending ClearTimer (fst st)) = 1%nat /\
  (length (pending ClearTimer (fst st)) <= 1)%nat.
Proof.
  intros st.
  assert (Hr : reachable example_INVALID_STATES (fst st, snd st)).
  { rewrite <- surjective_pairing. apply reachable_step, reachable_init; reflexivity. }
  split; [exact Hr|]. split; [reflexivity|].
  apply (C8_timer_discipline example_INVALID_STATES (fst st) (snd st) Hr).
Defined.


(** ** The light procedures and the manual-control attribute *)

Section LightFacts.
Variable float_of_str : string -> option pyfloat.
Variable AreaState_of_str : string -> option AreaState.

Lemma manual_control_ne : ATTR_MANUAL_CONTROL <> ATTR_LAST_ON_ILLUMINANCE.
Proof. discriminate. Qed.

Lemma get_illuminance_with_manual v w self :
  _get_illuminance float_of_str w (with_manual_control v self) =
  (fst (_get_illuminance float_of_str w self),
   with_manual_control v (snd (_get_illuminance float_of_str w self))).
Proof.
  unfold _get_illuminance, with_manual_control.
  change (is_on_truthy (set_attributes _ self)) with (is_on_truthy self).
  cbn [_attr_extra_state_attributes set_attributes].
  rewrite (lookup_insert_ne _ _ _ _ manual_control_ne).
  destruct (is_on_truthy self).
  - destruct (_ !! ATTR_LAST_ON_ILLUMINANCE); reflexivity.
  - destruct (states w !! illuminance_id (area w)) as [ent|].
    + destruct (float_of_str (state ent)); cbn; [|reflexivity].
      unfold set_attributes. cbn.
      rewrite (insert_insert_ne _ _ _ _ _ manual_control_ne). reflexivity.
    + cbn. unfold set_attributes. cbn.
      rewrite (insert_insert_ne _ _ _ _ _ manual_control_ne). reflexivity.
Qed.

Lemma turn_off_light_with_manual v w self :
  _turn_off_light w (with_manual_control v self) =
  (fst (_turn_off_light w self), with_manual_control v (snd (_turn_off_light w self))).
Proof.
  unfold _turn_off_light.
  change (is_on_truthy (with_manual_control v self)) with (is_on_truthy self).
  destruct (is_on_truthy self); [|reflexivity].
  destruct (control_enabled_system (area w)); reflexivity.
Qed.

Lemma turn_on_light_with_manual conf v w self :
  _turn_on_light float_of_str conf w (with_manual_control v self) =
  (fst (_turn_on_light float_of_str conf w self),
   (fst (snd (_turn_on_light float_of_str conf w self)),
    with_manual_control v (snd (snd (_turn_on_light float_of_str conf w self))))).
Proof.
  unfold _turn_on_light.
  change (async_update_group_state w (set_entity_ids (lights conf) (with_manual_control v self)))
    with (with_manual_control v (async_update_group_state w (set_entity_ids (lights conf) self))).
  set (self1 := async_update_group_state w (set_entity_ids (lights conf) self)).
  destruct (nominal_brightness conf) as [N|]; [|reflexivity].
  change (is_on_truthy (with_manual_control v self1)) with (is_on_truthy self1).
  change (brightness (with_manual_control v self1)) with (brightness self1).
  destruct (_ && _); [reflexivity|].
  rewrite get_illuminance_with_manual.
  destruct (_get_illuminance float_of_str w self1) as [L self2]. cbn [fst snd].
  destruct (dimmed_brightness _ _ _ _) as [b|]; [|reflexivity].
  destruct (negb _); [reflexivity|].
  destruct (b =? 0); [|reflexivity].
  rewrite turn_off_light_with_manual. cbn [fst snd]. reflexivity.
Qed.

Lemma turn_off_light_frame w self :
  _attr_extra_state_attributes (snd (_turn_off_light w self))
    = _attr_extra_state_attributes self /\
  _manual_timeout_cb (snd (_turn_off_light w self)) = _manual_timeout_cb self /\
  timers (fst (_turn_off_light w self)) = timers w /\
  (control_enabled_system (area w) = false ->
   calls (fst (_turn_off_light w self)) = calls w).
Proof.
  unfold _turn_off_light. destruct (negb (is_on_truthy self)); [auto|].
  destruct (control_enabled_system (area w)); cbn; auto.
  repeat split. discriminate.
Qed.

Lemma get_illuminance_frame w self :
  _attr_extra_state_attributes (snd (_get_illuminance float_of_str w self))
    !! ATTR_MANUAL_CONTROL
    = _attr_extra_state_attributes self !! ATTR_MANUAL_CONTROL /\
  _manual_timeout_cb (snd (_get_illuminance float_of_str w self))
    = _manual_timeout_cb self.
Proof.
  unfold _get_illuminance. destruct (is_on_truthy self).
  - destruct (_ !! ATTR_LAST_ON_ILLUMINANCE); auto.
  - destruct (states w !! illuminance_id (area w)) as [ent|];
      [destruct (float_of_str (state ent))|]; cbn; auto;
      rewrite lookup_insert_ne by discriminate; auto.
Qed.

Lemma turn_on_light_frame conf w self :
  _attr_extra_state_attributes (snd (snd (_turn_on_light float_of_str conf w self)))
    !! ATTR_MANUAL_CONTROL
    = _attr_extra_state_attributes self !! ATTR_MANUAL_CONTROL /\
  _manual_timeout_cb (snd (snd (_turn_on_light float_of_str conf w self)))
    = _manual_timeout_cb self /\
  timers (fst (snd (_turn_on_light float_of_str conf w self))) = timers w /\
  (control_enabled_system (area w) = false ->
   calls (fst (snd (_turn_on_light float_of_str conf w self))) = calls w).
Proof.
  unfold _turn_on_light.
  set (self1 := async_update_group_state w (set_entity_ids (lights conf) self)).
  destruct (nominal_brightness conf) as [N|]; [|cbn; auto].
  destruct (_ && _); [cbn; auto|].
  pose proof (get_illuminance_frame w self1) as [Ha Hm].
  destruct (_get_illuminance float_of_str w self1) as [L self2]. cbn [fst snd] in *.
  destruct (dimmed_brightness _ _ _ _) as [b|]; [|cbn; auto].
  destruct (control_enabled_system (area w)) eqn:Hc; cbn [negb]; [|cbn; auto].
  destruct (b =? 0).
  - pose proof (turn_off_light_frame w self2) as (H1 & H2 & H3 & H4).
    cbn [fst snd]. rewrite H1, H2, H3. repeat split; auto. discriminate.
  - cbn. repeat split; auto. discriminate.
Qed.

End LightFacts.

(** ** Manual control *)

Lemma set_controlled_by_this_entity_noop enabled self :
  _set_controlled_by_this_entity enabled self = self.
Proof. reflexivity. Qed.

(** C3, evaluated where it fails: on a light group without the
    [manual_control] attribute, writing [True] with
    [_set_controlled_by_this_entity] is followed by
    [_is_controlled_by_this_entity] returning [False]; the setter only
    reads. *)
Theorem C3_setter_does_not_persist :
  _is_controlled_by_this_entity
    (_set_controlled_by_this_entity true (example_light ∅)) = PyBool false /\
  _set_controlled_by_this_entity true (example_light ∅) = example_light ∅.
Proof. split; reflexivity. Qed.

Section ManualControl.
Variable float_of_str : string -> option pyfloat.
Variable AreaState_of_str : string -> option AreaState.

(** C2 (amended): the turn-on and turn-off procedures do not consult the
    [manual_control] attribute: whatever value it holds, they issue the
    same commands and do the same bookkeeping, and they leave the
    attribute as it is; they issue no command when system control is
    disabled. *)
Theorem C2_manual_control_not_consulted conf w self v :
  (_turn_on_light float_of_str conf w (with_manual_control v self) =
   (fst (_turn_on_light float_of_str conf w self),
    (fst (snd (_turn_on_light float_of_str conf w self)),
     with_manual_control v (snd (snd (_turn_on_light float_of_str conf w self)))))) /\
  (_turn_off_light w (with_manual_control v self) =
   (fst (_turn_off_light w self),
    with_manual_control v (snd (_turn_off_light w self)))) /\
  (_is_controlled_by_this_entity (snd (snd (_turn_on_light float_of_str conf w self)))
   = _is_controlled_by_this_entity self /\
   _is_controlled_by_this_entity (snd (_turn_off_light w self))
   = _is_controlled_by_this_entity self) /\
  (control_enabled_system (area w) = false ->
   calls (fst (snd (_turn_on_light float_of_str conf w self))) = calls w /\
   calls (fst (_turn_off_light w self)) = calls w).
Proof.
  split; [apply turn_on_light_with_manual|].
  split; [apply turn_off_light_with_manual|].
  pose proof (turn_on_light_frame float_of_str conf w self) as (Ha & _ & _ & Hc).
  pose proof (turn_off_light_frame w self) as (Ha' & _ & _ & Hc').
  split.
  - unfold _is_controlled_by_this_entity. rewrite Ha, Ha'. split; reflexivity.
  - intros H. split; auto.
Qed.

(** C4 (amended): when the area's state changes to Clear, the light
    controller leaves the manual-control attribute, the auto-release handle
    and the pending timers as they are; it issues no command when Clear has
    no state configuration or system control is disabled, and otherwise
    runs the turn-on procedure with the configuration of Clear. *)
Theorem C4_clear_transition event w self ns :
  new_state event = Some ns ->
  AreaState_of_str (state ns) = Some AREA_STATE_CLEAR ->
  let r := _area_state_change float_of_str AreaState_of_str event w self in
  (_is_controlled_by_this_entity (snd (snd r)) = _is_controlled_by_this_entity self /\
   _manual_timeout_cb (snd (snd r)) = _manual_timeout_cb self /\
   timers (fst (snd r)) = timers w) /\
  (has_configured_state (area w) AREA_STATE_CLEAR = false \/
   state_config (area w) AREA_STATE_CLEAR = None \/
   control_enabled_system (area w) = false ->
   calls (fst (snd r)) = calls w) /\
  (forall conf os,
      event_type event = "state_changed" -> old_state event = Some os ->
      has_configured_state (area w) AREA_STATE_CLEAR = true ->
      state_config (area w) AREA_STATE_CLEAR = Some conf ->
      r = _turn_on_light float_of_str conf w self).
Proof.
  intros Hns HA r. subst r. unfold _area_state_change.
  rewrite Hns, HA.
  pose proof (fun conf => turn_on_light_frame float_of_str conf w self) as Hf.
  destruct (String.eqb (event_type event) "state_changed") eqn:Het; cbn [negb].
  2:{ repeat split; auto. intros conf os H. apply String.eqb_neq in Het. contradiction. }
  destruct (old_state event) as [os|].
  2:{ repeat split; auto. intros conf os' _ H. discriminate. }
  destruct (has_configured_state (area w) AREA_STATE_CLEAR).
  2:{ repeat split; auto. intros conf os' _ _ H. discriminate. }
  destruct (state_config (area w) AREA_STATE_CLEAR) as [conf|].
  - destruct (Hf conf) as (Ha & Hm & Ht & Hc).
    repeat split; auto.
    + unfold _is_controlled_by_this_entity. rewrite Ha. reflexivity.
    + intros [H|[H|H]]; [discriminate|discriminate|auto].
    + intros conf' os' _ _ _ [= ->]. reflexivity.
  - repeat split; auto. intros conf os' _ _ _ H. discriminate.
Qed.

(** C6 (amended): turn-on is a no-op when the group is already on at
    exactly the nominal brightness [int(dim_level * 255 / 100)]: nothing is
    commanded and only the member list and the group state are refreshed;
    and one invocation issues at most one command. *)
Theorem C6_no_op_at_nominal conf w self N :
  nominal_brightness conf = Some N ->
  group_state w (lights conf) = mkGroupState (Some true) (Some N) ->
  _turn_on_light float_of_str conf w self =
    (Returned, (w, async_update_group_state w (set_entity_ids (lights conf) self))) /\
  forall w' self',
    (length (calls (fst (snd (_turn_on_light float_of_str conf w' self'))))
     <= S (length (calls w')))%nat.
Proof.
  intros HN Hg. split.
  - unfold _turn_on_light. rewrite HN.
    set (self1 := async_update_group_state w (set_entity_ids (lights conf) self)).
    assert (Hc : is_on_truthy self1 && bool_decide (brightness self1 = Some N) = true).
    { apply andb_true_intro. split.
      - unfold is_on_truthy, self1. cbn. rewrite Hg. reflexivity.
      - apply bool_decide_eq_true_2. unfold self1. cbn. rewrite Hg. reflexivity. }
    rewrite Hc. reflexivity.
  - intros w' self'. unfold _turn_on_light.
    destruct (nominal_brightness conf) as [N'|]; [|cbn; lia].
    destruct (_ && _); [cbn; lia|].
    destruct (_get_illuminance _ _ _) as [L self2].
    destruct (dimmed_brightness _ _ _ _) as [b|]; [|cbn; lia].
    destruct (negb _); [cbn; lia|].
    destruct (b =? 0).
    + unfold _turn_off_light.
      destruct (negb (is_on_truthy self2)); [cbn; lia|].
      destruct (negb _); cbn; [lia|]. rewrite length_app. cbn. lia.
    + cbn. rewrite length_app. cbn. lia.
Qed.

(** The parts of the illuminance read that hold as specified. *)
Lemma get_illuminance_on w self :
  is_on_truthy self = true ->
  snd (_get_illuminance float_of_str w self) = self /\
  fst (_get_illuminance float_of_str w self) =
    match _attr_extra_state_attributes self !! ATTR_LAST_ON_ILLUMINANCE with
    | Some v => if py_truthy v then py_number v else PyFloat.zero
    | None => PyFloat.zero
    end.
Proof.
  intros H. unfold _get_illuminance. rewrite H.
  destruct (_ !! ATTR_LAST_ON_ILLUMINANCE); split; reflexivity.
Qed.

Lemma get_illuminance_missing w self :
  is_on_truthy self = false ->
  states w !! illuminance_id (area w) = None ->
  fst (_get_illuminance float_of_str w self) = PyFloat.zero /\
  _attr_extra_state_attributes (snd (_get_illuminance float_of_str w self))
    !! ATTR_LAST_ON_ILLUMINANCE = Some (PyFloat PyFloat.zero).
Proof.
  intros H Hm. unfold _get_illuminance. rewrite H, Hm. cbn.
  rewrite lookup_insert_eq. split; reflexivity.
Qed.

Lemma get_illuminance_unparseable w self ent :
  is_on_truthy self = false ->
  states w !! illuminance_id (area w) = Some ent ->
  float_of_str (state ent) = None ->
  _get_illuminance float_of_str w self = (PyFloat.zero, self).
Proof. intros H Hs Hp. unfold _get_illuminance. rewrite H, Hs, Hp. reflexivity. Qed.

End ManualControl.

(** C2, as stated, fails: with [manual_control] set to [True] (and just
    as well to [False]) the turn-on procedure sends a turn-on command and
    the turn-off procedure a turn-off command. *)
Lemma C2_counterexample :
  let conf := light_conf AREA_STATE_OCCUPIED 100 in
  let w := light_world ∅ group_off AREA_STATE_OCCUPIED [] 10 50 in
  let held := example_light {[ ATTR_MANUAL_CONTROL := PyBool true ]} in
  let released := example_light {[ ATTR_MANUAL_CONTROL := PyBool false ]} in
  _is_controlled_by_this_entity held = PyBool true /\
  calls (fst (snd (_turn_on_light float_of_digits conf w held)))
    = [turn_on_call held 255] /\
  calls (fst (snd (_turn_on_light float_of_digits conf w released)))
    = [turn_on_call released 255] /\
  calls (fst (_turn_off_light w (light_on {[ ATTR_MANUAL_CONTROL := PyBool true ]})))
    = [turn_off_call held].
Proof. repeat split; vm_compute; reflexivity. Qed.

Lemma C2_manual_control_not_consulted_witness :
  let w := set_area
             (mkMagicArea AREA_STATE_OCCUPIED false None None [STATE_ON] []
                (fun _ => false) (fun _ => None) false
                (PyFloat.of_Z 10) (PyFloat.of_Z 50) 60 "up" "down" "sensor.illuminance")
             (light_world ∅ group_off AREA_STATE_OCCUPIED [] 10 50) in
  control_enabled_system (area w) = false /\
  calls (fst (snd (_turn_on_light float_of_digits
                     (light_conf AREA_STATE_OCCUPIED 100) w (example_light ∅))))
  = calls w.
Proof.
  intros w. split; [reflexivity|].
  apply (C2_manual_control_not_consulted float_of_digits
           (light_conf AREA_STATE_OCCUPIED 100) w (example_light ∅) (PyBool true)).
  reflexivity.
Defined.

(** C4, as stated, fails: Clear is configured with dim level 0 and the
    lights are on under a manual override with its auto-release timer
    pending; the change to Clear leaves the [manual_control] attribute
    (whichever value it holds), the handle and the timer as they are, and
    sends a turn-off command. *)
Lemma C4_counterexample :
  let w := with_pending_manual_timer
             (light_world ∅ (group_on 128) AREA_STATE_CLEAR
                [(AREA_STATE_CLEAR, light_conf AREA_STATE_CLEAR 0)] 10 50) in
  let held := light_on {[ ATTR_MANUAL_CONTROL := PyBool true ]} in
  let plain := light_on ∅ in
  let r1 := _area_state_change float_of_digits base_AreaState_of_str to_clear w held in
  let r2 := _area_state_change float_of_digits base_AreaState_of_str to_clear w plain in
  (_is_controlled_by_this_entity held = PyBool true /\
   _is_controlled_by_this_entity (snd (snd r1)) = PyBool true) /\
  (_is_controlled_by_this_entity plain = PyBool false /\
   _is_controlled_by_this_entity (snd (snd r2)) = PyBool false) /\
  (_manual_timeout_cb (snd (snd r1)) = Some 0%nat /\
   timers (fst (snd r1)) = timers w) /\
  calls (fst (snd r1)) = [turn_off_call held].
Proof. repeat split; vm_compute; reflexivity. Qed.

Lemma C4_clear_transition_witness :
  let w := with_pending_manual_timer
             (light_world ∅ (group_on 128) AREA_STATE_CLEAR [] 10 50) in
  let self := light_on {[ ATTR_MANUAL_CONTROL := PyBool true ]} in
  calls (fst (snd (_area_state_change float_of_digits base_AreaState_of_str
                     to_clear w self))) = calls w.
Proof.
  intros w self.
  apply (C4_clear_transition float_of_digits base_AreaState_of_str to_clear w self
           (ha "clear")); [reflexivity|reflexivity|].
  left. reflexivity.
Defined.

(** C6, as stated, fails: the nominal brightness is 204, the illuminance
    recorded at turn-on is 30 between the thresholds 10 and 50, so the
    commanded brightness is 102; the group is on at exactly 102, and the
    procedure sends the command again, each time it is invoked. *)
Lemma C6_counterexample :
  let conf := light_conf AREA_STATE_OCCUPIED 80 in
  let w := light_world ∅ (group_on 102) AREA_STATE_OCCUPIED [] 10 50 in
  let self := light_on {[ ATTR_LAST_ON_ILLUMINANCE := PyFloat (PyFloat.of_Z 30) ]} in
  let r1 := _turn_on_light float_of_digits conf w self in
  let r2 := _turn_on_light float_of_digits conf (fst (snd r1)) (snd (snd r1)) in
  nominal_brightness conf = Some 204 /\
  group_state w (lights conf) = group_on 102 /\
  calls (fst (snd r1)) = [turn_on_call self 102] /\
  calls (fst (snd r2)) = [turn_on_call self 102; turn_on_call self 102].
Proof. repeat split; vm_compute; reflexivity. Qed.

Lemma C6_no_op_at_nominal_witness :
  let conf := light_conf AREA_STATE_OCCUPIED 80 in
  let w := light_world ∅ (group_on 204) AREA_STATE_OCCUPIED [] 10 50 in
  calls (fst (snd (_turn_on_light float_of_digits conf w (example_light ∅)))) = [].
Proof.
  intros conf w.
  rewrite (proj1 (C6_no_op_at_nominal float_of_digits conf w (example_light ∅) 204
                    ltac:(vm_compute; reflexivity) ltac:(reflexivity))).
  reflexivity.
Defined.

(** C9, evaluated where it fails: the group is off, 30 is recorded as the
    last on-illuminance and the illuminance sensor reports [unavailable];
    the read returns 0 but the record still holds 30.  When the sensor is
    missing, the same read does record 0. *)
Theorem C9_parse_failure_not_recorded :
  let w := light_world {[ "sensor.illuminance" := ha "unavailable" ]}
             group_off AREA_STATE_OCCUPIED [] 10 50 in
  let w_missing := light_world ∅ group_off AREA_STATE_OCCUPIED [] 10 50 in
  let self := example_light {[ ATTR_LAST_ON_ILLUMINANCE := PyFloat (PyFloat.of_Z 30) ]} in
  float_of_digits "unavailable" = None /\
  fst (_get_illuminance float_of_digits w self) = PyFloat.zero /\
  _attr_extra_state_attributes (snd (_get_illuminance float_of_digits w self))
    !! ATTR_LAST_ON_ILLUMINANCE = Some (PyFloat (PyFloat.of_Z 30)) /\
  _attr_extra_state_attributes (snd (_get_illuminance float_of_digits w_missing self))
    !! ATTR_LAST_ON_ILLUMINANCE = Some (PyFloat PyFloat.zero).
Proof. repeat split; vm_compute; reflexivity. Qed.


(** ** Brightness from illuminance *)

Lemma SFcompare_antisym (a b : spec_float) (c : comparison) :
  SFcompare a b = Some c -> SFcompare b a = Some (CompOpp c).
Proof.
  destruct a as [sa|sa| |sa ma ea], b as [sb|sb| |sb mb eb]; simpl;
    try discriminate;
    try (intros [= <-]; try destruct sa; try destruct sb; reflexivity).
  intros [= <-]. f_equal.
  destruct sa, sb; try reflexivity;
    rewrite (Z.compare_antisym ea eb); destruct (ea ?= eb) eqn:E; simpl; try reflexivity.
  - rewrite Pos.compare_cont_antisym. simpl. now rewrite CompOpp_involutive.
  - rewrite Pos.compare_cont_antisym. reflexivity.
Qed.

Lemma leb_not_gtb x y : PyFloat.leb x y = true -> PyFloat.gtb x y = false.
Proof.
  unfold PyFloat.leb, PyFloat.gtb, SFleb, SFltb.
  destruct (SFcompare x y) as [c|] eqn:E; [|discriminate].
  rewrite (SFcompare_antisym x y c E). destruct c; simpl; congruence.
Qed.

Lemma ltb_not_gtb x y : PyFloat.ltb x y = true -> PyFloat.gtb x y = false.
Proof.
  unfold PyFloat.ltb, PyFloat.gtb, SFltb.
  destruct (SFcompare x y) as [c|] eqn:E; [|discriminate].
  rewrite (SFcompare_antisym x y c E). destruct c; simpl; congruence.
Qed.

Lemma SFltb_leb_trans a b c :
  SFltb a b = true -> SFleb b c = true -> SFltb a c = true.
Proof.
  unfold SFltb, SFleb.
  destruct a as [sa|sa| |sa ma ea], b as [sb|sb| |sb mb eb], c as [sc|sc| |sc mc ec];
    simpl; try discriminate; try reflexivity;
    repeat match goal with s : bool |- _ => destruct s end;
    simpl; try discriminate; try reflexivity.
  all: repeat match goal with
    | |- context [(?x ?= ?y)] => 
        let H := fresh "H" in destruct (Z.compare_spec x y) as [H|H|H]
    end; simpl; try discriminate; try reflexivity; try lia.
  all: subst.
  all: rewrite ?Pos.compare_cont_spec; unfold Pos.switch_Eq.
  all: repeat match goal with
    | |- context [Pos.compare ?x ?y] =>
        let H := fresh "H" in destruct (Pos.compare_spec x y) as [H|H|H]
    end; simpl; try discriminate; try reflexivity; try lia.
Qed.

Lemma SFdiv_self s m e :
  SFdiv PyFloat.prec PyFloat.emax (S754_finite s m e) (S754_finite s m e) = PyFloat.one.
Proof.
  unfold SFdiv, SFdiv_core_binary.
  rewrite !Z.sub_diag.
  change (Z.min (fexp PyFloat.prec PyFloat.emax 0) 0) with (-53).
  change (0 - -53) with 53.
  cbv beta iota zeta.
  assert (H : Z.div_eucl (Z.shiftl (Z.pos m) 53) (Z.pos m) = (2 ^ 53, 0)).
  { rewrite Z.shiftl_mul_pow2 by lia. rewrite Z.mul_comm.
    pose proof (Z.div_mul (2 ^ 53) (Z.pos m) ltac:(lia)) as Hq.
    pose proof (Z.mod_mul (2 ^ 53) (Z.pos m) ltac:(lia)) as Hr.
    unfold Z.div, Z.modulo in Hq, Hr.
    destruct (Z.div_eucl (2 ^ 53 * Z.pos m) (Z.pos m)) as [q r].
    now subst. }
  rewrite H. unfold new_location.
  destruct (Z.even (Z.pos m)); destruct s; vm_compute; reflexivity.
Qed.

Lemma of_Z_byte_finite N :
  0 <= N <= 255 -> PyFloat.is_finite (PyFloat.of_Z N) = true.
Proof.
  intros H.
  assert (Hall : forallb (fun n => PyFloat.is_finite (PyFloat.of_Z (Z.of_nat n)))
                   (seq 0 256) = true) by (vm_compute; reflexivity).
  rewrite forallb_forall in Hall.
  specialize (Hall (Z.to_nat N)). rewrite Z2Nat.id in Hall by lia.
  apply Hall. apply in_seq. lia.
Qed.

Lemma to_int_mul_zero x s :
  PyFloat.is_finite x = true ->
  PyFloat.to_int (PyFloat.mul x (S754_zero s)) = Some 0.
Proof. destruct x; try discriminate; reflexivity. Qed.

Lemma sub_of_equal mx L mn :
  SFcompare mx L = Some Eq ->
  PyFloat.is_pos_finite (PyFloat.sub mx mn) = true ->
  PyFloat.sub L mn = PyFloat.sub mx mn.
Proof.
  destruct mx as [s1|s1| |s1 m1 e1], L as [s2|s2| |s2 m2 e2]; simpl;
    try discriminate;
    try (destruct s1; discriminate); try (destruct s2; discriminate).
  - destruct mn as [s|s| |s m e]; try discriminate;
      destruct s1, s2, s; try discriminate; intros; reflexivity.
  - destruct s1, s2; try discriminate; intros _;
      destruct mn as [s|s| |s m e]; try discriminate; destruct s; discriminate.
  - destruct s1, s2; try discriminate;
      destruct (Z.compare_spec e1 e2) as [He|He|He]; try discriminate;
      rewrite Pos.compare_cont_spec; unfold Pos.switch_Eq;
      destruct (Pos.compare_spec m1 m2) as [Hm|Hm|Hm]; try discriminate;
      subst; intros; reflexivity.
Qed.

Lemma dimmed_brightness_low N L mn mx :
  PyFloat.leb L mn = true -> dimmed_brightness N L mn mx = Some N.
Proof. intros H. unfold dimmed_brightness. rewrite (leb_not_gtb L mn H). reflexivity. Qed.

Lemma dimmed_brightness_mid N L mn mx :
  PyFloat.ltb mn L = true -> PyFloat.ltb L mx = true ->
  dimmed_brightness N L mn mx = float_brightness N L mn mx.
Proof.
  intros H1 H2. unfold dimmed_brightness.
  change (PyFloat.gtb L mn) with (PyFloat.ltb mn L). rewrite H1.
  rewrite (ltb_not_gtb L mx H2). reflexivity.
Qed.

Lemma dimmed_brightness_high N L mn mx :
  0 <= N <= 255 ->
  PyFloat.ltb mn mx = true ->
  PyFloat.is_pos_finite (PyFloat.sub mx mn) = true ->
  PyFloat.leb mx L = true ->
  dimmed_brightness N L mn mx = Some 0.
Proof.
  intros HN Hlt Hspan Hle. unfold dimmed_brightness.
  assert (Hgt : PyFloat.gtb L mn = true) by (exact (SFltb_leb_trans mn mx L Hlt Hle)).
  rewrite Hgt.
  destruct (PyFloat.gtb L mx) eqn:Hmx; [reflexivity|].
  assert (Heq : SFcompare mx L = Some Eq).
  { unfold PyFloat.leb, SFleb in Hle. unfold PyFloat.gtb, SFltb in Hmx.
    destruct (SFcompare mx L) as [[]|]; congruence. }
  rewrite (sub_of_equal mx L mn Heq Hspan).
  destruct (PyFloat.sub mx mn) as [| | |[] m e] eqn:Hs; try discriminate.
  unfold PyFloat.div. cbn [PyFloat.is_zero]. rewrite SFdiv_self.
  cbn [mbind option_bind].
  change (PyFloat.sub PyFloat.one PyFloat.one) with (S754_zero false).
  apply to_int_mul_zero. apply of_Z_byte_finite. exact HN.
Qed.

Section Brightness.
Variable float_of_str : string -> option pyfloat.

(** C5 (amended): with nominal brightness [N] between 0 and 255,
    thresholds [min < max] whose difference is a finite double, control
    enabled and the group not already on at [N]: if [L <= min] the
    commanded brightness is [N]; if [min < L < max] it is the truncation
    of [N * (1 - (L - min) / (max - min))] evaluated in double precision,
    each operation rounded as Python rounds it; if [L >= max] it is 0 and
    the call goes to the turn-off procedure.  A brightness of 0 always goes
    to the turn-off procedure.  With min 10, max 50, L 30 and N 200 the
    brightness is 100. *)
Theorem C5_commanded_brightness conf w self N :
  nominal_brightness conf = Some N ->
  0 <= N <= 255 ->
  let mn := min_brightness_level (area w) in
  let mx := max_brightness_level (area w) in
  PyFloat.ltb mn mx = true ->
  PyFloat.is_pos_finite (PyFloat.sub mx mn) = true ->
  control_enabled_system (area w) = true ->
  let self1 := async_update_group_state w (set_entity_ids (lights conf) self) in
  (is_on_truthy self1 && bool_decide (brightness self1 = Some N)) = false ->
  let L := fst (_get_illuminance float_of_str w self1) in
  let self2 := snd (_get_illuminance float_of_str w self1) in
  (PyFloat.leb L mn = true ->
   _turn_on_light float_of_str conf w self = (Returned, command_brightness N w self2)) /\
  (PyFloat.ltb mn L = true -> PyFloat.ltb L mx = true ->
   _turn_on_light float_of_str conf w self =
   match float_brightness N L mn mx with
   | Some b => (Returned, command_brightness b w self2)
   | None => (Raised, (w, self2))
   end) /\
  (PyFloat.leb mx L = true ->
   _turn_on_light float_of_str conf w self = (Returned, _turn_off_light w self2)) /\
  float_brightness 200 (PyFloat.of_Z 30) (PyFloat.of_Z 10) (PyFloat.of_Z 50) = Some 100.
Proof.
  intros HN Hbyte mn mx Hlt Hspan Hctl self1 Hnot L self2.
  assert (Hrun : _turn_on_light float_of_str conf w self =
                 match dimmed_brightness N L mn mx with
                 | Some b => (Returned, command_brightness b w self2)
                 | None => (Raised, (w, self2))
                 end).
  { unfold _turn_on_light. rewrite HN. fold self1. rewrite Hnot.
    subst L self2. destruct (_get_illuminance float_of_str w self1) as [L self2].
    cbn [fst snd]. fold mn mx.
    destruct (dimmed_brightness N L mn mx) as [b|]; [|reflexivity].
    rewrite Hctl. cbn [negb]. unfold command_brightness.
    destruct (b =? 0); reflexivity. }
  repeat split.
  - intros H. rewrite Hrun, (dimmed_brightness_low N L mn mx H). reflexivity.
  - intros H1 H2. rewrite Hrun, (dimmed_brightness_mid N L mn mx H1 H2). reflexivity.
  - intros H. rewrite Hrun, (dimmed_brightness_high N L mn mx Hbyte Hlt Hspan H).
    reflexivity.
Qed.
End Brightness.


(** C5, as stated, fails: with dim level 4 the nominal brightness is 10;
    at illuminance 19 between the thresholds 10 and 20 the exact value of
    [10 * (1 - 9 / 10)] is 1, but in double precision [1.0 - 0.9] is
    smaller than a tenth, the product is smaller than 1 and truncates to 0:
    the lights are turned off instead of being dimmed to 1. *)
Lemma C5_counterexample :
  let conf := light_conf AREA_STATE_OCCUPIED 4 in
  let w := light_world ∅ (group_on 128) AREA_STATE_OCCUPIED [] 10 20 in
  let self := example_light {[ ATTR_LAST_ON_ILLUMINANCE := PyFloat (PyFloat.of_Z 19) ]} in
  nominal_brightness conf = Some 10 /\
  exact_brightness 10 (PyFloat.to_Q (PyFloat.of_Z 19)) (PyFloat.to_Q (PyFloat.of_Z 10))
    (PyFloat.to_Q (PyFloat.of_Z 20)) = 1 /\
  dimmed_brightness 10 (PyFloat.of_Z 19) (PyFloat.of_Z 10) (PyFloat.of_Z 20) = Some 0 /\
  calls (fst (snd (_turn_on_light float_of_digits conf w self))) = [turn_off_call self].
Proof. repeat split; vm_compute; reflexivity. Qed.

Lemma C5_commanded_brightness_witness :
  let conf := light_conf AREA_STATE_OCCUPIED 80 in
  let w := light_world {[ "sensor.illuminance" := ha "50" ]} group_off
             AREA_STATE_OCCUPIED [] 10 50 in
  calls (fst (snd (_turn_on_light float_of_digits conf w (example_light ∅)))) = [].
Proof.
  intros conf w.
  rewrite (proj1 (proj2 (proj2
             (C5_commanded_brightness float_of_digits conf w (example_light ∅) 204
                ltac:(vm_compute; reflexivity) ltac:(lia)
                ltac:(vm_compute; reflexivity) ltac:(vm_compute; reflexivity)
                ltac:(reflexivity) ltac:(reflexivity))))
             ltac:(vm_compute; reflexivity)).
  reflexivity.
Defined.

(** * Further properties *)

(** ** The evaluation and its timers *)

Lemma get_sensors_state_frame INV w self :
  _clear_timeout_callback (snd (snd (_get_sensors_state INV w self)))
    = _clear_timeout_callback self /\
  _extended_timeout_callback (snd (snd (_get_sensors_state INV w self)))
    = _extended_timeout_callback self /\
  timers (fst (snd (_get_sensors_state INV w self))) = timers w /\
  next_timer (fst (snd (_get_sensors_state INV w self))) = next_timer w /\
  states (fst (snd (_get_sensors_state INV w self))) = states w /\
  area (fst (snd (_get_sensors_state INV w self))) = area w /\
  _attr_current_option (snd (snd (_get_sensors_state INV w self)))
    = _attr_current_option self.
Proof.
  unfold _get_sensors_state.
  destruct (Nat.eqb _ 0);
    [destruct (states w !! humidity_occupied_id (area w)) as [up|];
     [destruct (states w !! humidity_empty_id (area w)) as [down|];
      [destruct (String.eqb (state down) STATE_ON)|]|]|];
    cbn [snd fst datetime_now];
    repeat match goal with
           | |- context [match ?x with [] => _ | _ :: _ => _ end] => destruct x
           end;
    repeat split; reflexivity.
Qed.

(** With a presence sensor active the aggregation answers [True], reads
    no clock and leaves [_last_off_time] alone. *)
Lemma get_sensors_state_active INV w self s :
  _mode self = "one" ->
  In s (_sensors self) ->
  sensor_is_active INV w (valid_states w) s = true ->
  fst (_get_sensors_state INV w self) = true /\
  fst (snd (_get_sensors_state INV w self)) = w /\
  _last_off_time (snd (snd (_get_sensors_state INV w self))) = _last_off_time self.
Proof.
  intros Hmode Hin Hact. unfold _get_sensors_state. fold (valid_states w).
  assert (Hf : In s (List.filter (sensor_is_active INV w (valid_states w)) (_sensors self)))
    by (apply filter_In; split; assumption).
  destruct (List.filter _ _) as [|a l]; [destruct Hf|].
  cbn. rewrite Hmode. cbn. repeat split; reflexivity.
Qed.

(** X1: with a presence sensor active, the evaluation returns Occupied or the
    last matching secondary state, drops both timer handles and leaves no
    clear and no extended timer pending. *)
Theorem occupied_cancels_timers INV w self s :
  _mode self = "one" ->
  In s (_sensors self) ->
  sensor_is_active INV w (valid_states w) s = true ->
  timers_ok (w, self) ->
  let r := get_current_area_state INV w self in
  fst r = occupied_or_secondary w /\
  _clear_timeout_callback (snd (snd r)) = None /\
  _extended_timeout_callback (snd (snd r)) = None /\
  pending ClearTimer (fst (snd r)) = [] /\
  pending ExtendedTimer (fst (snd r)) = [].
Proof.
  intros Hmode Hin Hact Hok r. subst r. unfold get_current_area_state.
  pose proof (get_sensors_state_active INV w self s Hmode Hin Hact) as (Hb & Hw & _).
  pose proof (timers_ok_get_sensors_state INV w self Hok) as Hok1.
  destruct (_get_sensors_state INV w self) as [b [w1 self1]].
  cbn [fst snd] in *. subst b w1. cbn [datetime_now negb].
  set (w2 := set_clock_reads (S (clock_reads w)) w).
  assert (Hok2 : timers_ok (w2, self1))
    by (eapply timers_ok_ext; [..|exact Hok1]; reflexivity).
  pose proof (timers_ok_remove_clear w2 self1 Hok2) as Hok3.
  pose proof (remove_clear_timeout_callback w2 self1) as (Hc3 & _ & _).
  pose proof (remove_clear_timeout_frame w2 self1) as (Hs3 & Ha3).
  destruct (_remove_clear_timeout w2 self1) as [w3 self3]. cbn [fst snd] in *.
  pose proof (timers_ok_remove_extended w3 self3 Hok3) as Hok4.
  pose proof (remove_extended_timeout_callback w3 self3) as (He4 & Hc4 & _).
  assert (Hs4 : states (fst (_remove_extended_timeout w3 self3)) = states w3 /\
                area (fst (_remove_extended_timeout w3 self3)) = area w3)
    by (unfold _remove_extended_timeout;
        destruct (_extended_timeout_callback self3); split; reflexivity).
  destruct (_remove_extended_timeout w3 self3) as [w4 self4]. cbn [fst snd] in *.
  destruct Hs4 as [Hs4 Ha4].
  repeat split.
  - unfold occupied_or_secondary. rewrite <- secondary_state_loop_last_match.
    rewrite Ha4, Ha3. apply secondary_state_loop_ext. rewrite Hs4, Hs3. reflexivity.
  - congruence.
  - exact He4.
  - apply (no_pending_clear w4 self4 Hok4). congruence.
  - apply (no_pending_extended w4 self4 Hok4 He4).
Qed.

Lemma motion_select_timers_ok w : timers w = [] -> timers_ok (w, motion_select).
Proof.
  intros H. unfold timers_ok. rewrite H. cbn.
  repeat split; try (intros t []). constructor.
Qed.

Lemma occupied_cancels_timers_witness :
  fst (get_current_area_state example_INVALID_STATES on_world motion_select)
  = occupied_or_secondary on_world.
Proof.
  apply (occupied_cancels_timers example_INVALID_STATES on_world motion_select
           "binary_sensor.motion1").
  - reflexivity.
  - left. reflexivity.
  - vm_compute. reflexivity.
  - apply motion_select_timers_ok. reflexivity.
Defined.

Lemma get_current_area_state_arms_clear INV w self :
  _mode self = "one" ->
  (forall s, In s (_sensors self) -> sensor_is_active INV w (valid_states w) s = false) ->
  trend_intervenes w = false ->
  timers_ok (w, self) ->
  _clear_timeout_callback self = None ->
  let elapsed := clock w (clock_reads w) - _last_off_time self in
  elapsed < seconds (_get_clear_timeout w) ->
  let r := get_current_area_state INV w self in
  pending ClearTimer (fst (snd r))
    = [mkTimer (next_timer w) ClearTimer (seconds (_get_clear_timeout w) - elapsed)] /\
  _clear_timeout_callback (snd (snd r)) = Some (next_timer w) /\
  _extended_timeout_callback (snd (snd r)) = _extended_timeout_callback self /\
  pending ExtendedTimer (fst (snd r)) = pending ExtendedTimer w.
Proof.
  intros Hmode Hs Ht Hok Hcb elapsed Hlt r. subst r.
  unfold get_current_area_state.
  rewrite (get_sensors_state_quiet INV w self Hmode Hs Ht).
  cbn [datetime_now negb].
  change (_last_off_time (set_active_sensors [] self)) with (_last_off_time self).
  fold elapsed.
  set (w0 := set_clock_reads (S (clock_reads w)) w).
  set (self0 := set_active_sensors [] self).
  change (_get_clear_timeout w0) with (_get_clear_timeout w).
  assert (Hon : _is_on_clear_timeout self0 = false).
  { unfold _is_on_clear_timeout. apply bool_decide_eq_false_2.
    change (_clear_timeout_callback self0) with (_clear_timeout_callback self).
    rewrite Hcb. intros [x Hx]. discriminate. }
  rewrite Hon. cbn [negb andb].
  rewrite (proj2 (Z.ltb_lt _ _) Hlt).
  destruct (seconds (_get_clear_timeout w) <=? elapsed) eqn:Hc;
    [apply Z.leb_le in Hc; lia|].
  unfold _set_clear_timeout. rewrite Hon. cbn.
  assert (Hp : pending ClearTimer w = []) by (apply (no_pending_clear w self Hok Hcb)).
  unfold pending in *. cbn. rewrite !List.filter_app, Hp. cbn.
  repeat split; try reflexivity. apply app_nil_r.
Qed.

(** X2: in mode [one], with no presence sensor active, the humidity trend
    sensors not intervening (they are not both present, or neither is on),
    the pending timers being those of the held handles, no clear handle
    held and less than the clear timeout elapsed since [_last_off_time],
    the evaluation arms one clear timer for the time that remains of the
    clear timeout, keeps its handle, and leaves the extended timer and its
    handle as they are. *)
Theorem clear_timer_armed_for_remaining_time INV w self :
  _mode self = "one" ->
  (forall s, In s (_sensors self) -> sensor_is_active INV w (valid_states w) s = false) ->
  trend_intervenes w = false ->
  timers_ok (w, self) ->
  _clear_timeout_callback self = None ->
  let elapsed := clock w (clock_reads w) - _last_off_time self in
  elapsed < seconds (_get_clear_timeout w) ->
  let r := get_current_area_state INV w self in
  pending ClearTimer (fst (snd r))
    = [mkTimer (next_timer w) ClearTimer (seconds (_get_clear_timeout w) - elapsed)] /\
  _clear_timeout_callback (snd (snd r)) = Some (next_timer w) /\
  _extended_timeout_callback (snd (snd r)) = _extended_timeout_callback self /\
  pending ExtendedTimer (fst (snd r)) = pending ExtendedTimer w.
Proof. exact (get_current_area_state_arms_clear INV w self). Qed.

Lemma clear_timer_armed_for_remaining_time_witness :
  pending ClearTimer
    (fst (snd (get_current_area_state example_INVALID_STATES (quiet_world 45)
                 motion_select)))
  = [mkTimer 0 ClearTimer (seconds 15)].
Proof.
  apply (clear_timer_armed_for_remaining_time example_INVALID_STATES
           (quiet_world 45) motion_select).
  - reflexivity.
  - intros s [<-|[]]. vm_compute. reflexivity.
  - vm_compute. reflexivity.
  - apply motion_select_timers_ok. reflexivity.
  - reflexivity.
  - vm_compute. reflexivity.
Defined.



(** X4: in mode [one], with no presence sensor active, the humidity trend
    sensors not intervening (they are not both present, or neither is on)
    and the pending timers being those of the held handles, an evaluation
    in the extended window (the time elapsed since [_last_off_time] is at
    least the clear timeout and less than the clear plus the extended
    timeout) drops the clear handle and leaves no clear timer pending;
    with no extended handle held it arms one extended timer for the time
    that remains until the clear plus the extended timeout, and with a
    handle held it keeps the handle and arms nothing. *)
Theorem extended_window_timers INV w self :
  _mode self = "one" ->
  (forall s, In s (_sensors self) -> sensor_is_active INV w (valid_states w) s = false) ->
  trend_intervenes w = false ->
  timers_ok (w, self) ->
  let elapsed := clock w (clock_reads w) - _last_off_time self in
  let C := _get_clear_timeout w in
  let E := _get_extended_timeout w in
  seconds C <= elapsed < seconds (E + C) ->
  let r := get_current_area_state INV w self in
  _clear_timeout_callback (snd (snd r)) = None /\
  pending ClearTimer (fst (snd r)) = [] /\
  (_extended_timeout_callback self = None ->
   pending ExtendedTimer (fst (snd r))
     = [mkTimer (next_timer w) ExtendedTimer (seconds (E + C) - elapsed)] /\
   _extended_timeout_callback (snd (snd r)) = Some (next_timer w)) /\
  (forall h, _extended_timeout_callback self = Some h ->
   _extended_timeout_callback (snd (snd r)) = Some h /\
   next_timer (fst (snd r)) = next_timer w).
Proof.
  intros Hmode Hs Ht Hok elapsed C E [Hge Hlt] r. subst r.
  unfold get_current_area_state.
  rewrite (get_sensors_state_quiet INV w self Hmode Hs Ht).
  cbn [datetime_now negb].
  change (_last_off_time (set_active_sensors [] self)) with (_last_off_time self).
  fold elapsed.
  set (w0 := set_clock_reads (S (clock_reads w)) w).
  set (self0 := set_active_sensors [] self).
  change (_get_clear_timeout w0) with C.
  change (_get_extended_timeout w0) with E.
  assert (Hok0 : timers_ok (w0, self0))
    by (eapply timers_ok_ext; [..|exact Hok]; reflexivity).
  assert (Hnlt : (elapsed <? seconds C) = false) by (apply Z.ltb_ge; lia).
  rewrite Hnlt, andb_false_r.
  rewrite (proj2 (Z.leb_le _ _) Hge).
  destruct (seconds (E + C) <=? elapsed) eqn:He; [apply Z.leb_le in He; lia|].
  pose proof (timers_ok_remove_clear w0 self0 Hok0) as Hok4.
  pose proof (remove_clear_timeout_callback w0 self0) as (Hc4 & He4 & Hn4).
  destruct (_remove_clear_timeout w0 self0) as [w4 self4]. cbn [fst snd] in *.
  change (_extended_timeout_callback self0) with (_extended_timeout_callback self) in He4.
  change (next_timer w0) with (next_timer w) in Hn4.
  rewrite (proj2 (Z.ltb_lt _ _) Hlt), andb_true_r.
  pose proof (no_pending_clear w4 self4 Hok4 Hc4) as Hpc.
  unfold _is_on_extended_timeout.
  destruct (_extended_timeout_callback self) as [h|] eqn:Hext.
  - rewrite bool_decide_eq_true_2 by (rewrite He4; eauto). cbn [negb snd fst].
    split; [exact Hc4|]. split; [exact Hpc|]. split; [discriminate|].
    intros h' [= <-]. split; [exact He4|exact Hn4].
  - rewrite bool_decide_eq_false_2 by (rewrite He4; intros [x Hx]; discriminate).
    cbn [negb].
    pose proof (set_extended_timeout_ok (seconds (E + C) - elapsed) w4 self4 Hok4)
      as [Hok5 Hp5].
    assert (Hc5 : _clear_timeout_callback
                    (snd (_set_extended_timeout (seconds (E + C) - elapsed) w4 self4))
                  = None /\
                  _extended_timeout_callback
                    (snd (_set_extended_timeout (seconds (E + C) - elapsed) w4 self4))
                  = Some (next_timer w4)).
    { unfold _set_extended_timeout, _is_on_extended_timeout.
      rewrite bool_decide_eq_false_2 by (rewrite He4; intros [x Hx]; discriminate).
      cbn. split; [exact Hc4|reflexivity]. }
    destruct (_set_extended_timeout _ w4 self4) as [w5 self5]. cbn [fst snd] in *.
    destruct Hc5 as [Hc5 He5]. rewrite Hn4 in *.
    split; [exact Hc5|]. split; [apply (no_pending_clear w5 self5 Hok5 Hc5)|].
    split; [intros _; split; assumption|]. intros h [=].
Qed.

Lemma extended_window_timers_witness :
  pending ClearTimer
    (fst (snd (get_current_area_state example_INVALID_STATES (quiet_world 70)
                 motion_select))) = [].
Proof.
  apply (extended_window_timers example_INVALID_STATES (quiet_world 70) motion_select).
  - reflexivity.
  - intros s [<-|[]]. vm_compute. reflexivity.
  - vm_compute. reflexivity.
  - apply motion_select_timers_ok. reflexivity.
  - vm_compute. split; [discriminate|reflexivity].
Defined.

(** X5: in mode [one], with no presence sensor active, the humidity trend
    sensors not intervening (they are not both present, or neither is on)
    and the pending timers being those of the held handles, an evaluation
    at or after the clear plus the extended timeout since
    [_last_off_time] returns Clear, drops the extended handle and leaves
    no extended timer pending; the clear handle is left as it is. *)
Theorem clear_window_timers INV w self :
  _mode self = "one" ->
  (forall s, In s (_sensors self) -> sensor_is_active INV w (valid_states w) s = false) ->
  trend_intervenes w = false ->
  timers_ok (w, self) ->
  let elapsed := clock w (clock_reads w) - _last_off_time self in
  let C := _get_clear_timeout w in
  let E := _get_extended_timeout w in
  seconds C <= elapsed -> seconds (E + C) <= elapsed ->
  let r := get_current_area_state INV w self in
  fst r = AREA_STATE_CLEAR /\
  _extended_timeout_callback (snd (snd r)) = None /\
  pending ExtendedTimer (fst (snd r)) = [] /\
  _clear_timeout_callback (snd (snd r)) = _clear_timeout_callback self.
Proof.
  intros Hmode Hs Ht Hok elapsed C E HgeC HgeE r. subst r.
  unfold get_current_area_state.
  rewrite (get_sensors_state_quiet INV w self Hmode Hs Ht).
  cbn [datetime_now negb].
  change (_last_off_time (set_active_sensors [] self)) with (_last_off_time self).
  fold elapsed.
  set (w0 := set_clock_reads (S (clock_reads w)) w).
  set (self0 := set_active_sensors [] self).
  change (_get_clear_timeout w0) with C.
  change (_get_extended_timeout w0) with E.
  assert (Hok0 : timers_ok (w0, self0))
    by (eapply timers_ok_ext; [..|exact Hok]; reflexivity).
  assert (Hnlt : (elapsed <? seconds C) = false) by (apply Z.ltb_ge; lia).
  rewrite Hnlt, andb_false_r.
  rewrite (proj2 (Z.leb_le _ _) HgeC), (proj2 (Z.leb_le _ _) HgeE).
  pose proof (timers_ok_remove_extended w0 self0 Hok0) as Hok1.
  pose proof (remove_extended_timeout_callback w0 self0) as (He1 & Hc1 & _).
  destruct (_remove_extended_timeout w0 self0) as [w1 self1]. cbn [fst snd] in *.
  split; [reflexivity|]. split; [exact He1|].
  split; [apply (no_pending_extended w1 self1 Hok1 He1)|exact Hc1].
Qed.

Lemma clear_window_timers_witness :
  fst (get_current_area_state example_INVALID_STATES (quiet_world 95) motion_select)
  = AREA_STATE_CLEAR.
Proof.
  apply (clear_window_timers example_INVALID_STATES (quiet_world 95) motion_select).
  - reflexivity.
  - intros s [<-|[]]. vm_compute. reflexivity.
  - vm_compute. reflexivity.
  - apply motion_select_timers_ok. reflexivity.
  - vm_compute. discriminate.
  - vm_compute. discriminate.
Defined.

(** ** State updates *)

Lemma remove_extended_timeout_frame w self :
  states (fst (_remove_extended_timeout w self)) = states w /\
  area (fst (_remove_extended_timeout w self)) = area w.
Proof.
  unfold _remove_extended_timeout.
  destruct (_extended_timeout_callback self); split; reflexivity.
Qed.

Lemma set_extended_timeout_frame t w self :
  states (fst (_set_extended_timeout t w self)) = states w /\
  area (fst (_set_extended_timeout t w self)) = area w.
Proof.
  unfold _set_extended_timeout.
  destruct (_is_on_extended_timeout self).
  - pose proof (remove_extended_timeout_frame w self) as [H1 H2].
    destruct (_remove_extended_timeout w self) as [w1 self1]. cbn in *. split; assumption.
  - split; reflexivity.
Qed.

(** The timer operations leave the option shown by the entity alone. *)
Lemma remove_clear_timeout_option w self :
  _attr_current_option (snd (_remove_clear_timeout w self)) = _attr_current_option self.
Proof. unfold _remove_clear_timeout. destruct (_clear_timeout_callback self); reflexivity. Qed.

Lemma remove_extended_timeout_option w self :
  _attr_current_option (snd (_remove_extended_timeout w self)) = _attr_current_option self.
Proof.
  unfold _remove_extended_timeout. destruct (_extended_timeout_callback self); reflexivity.
Qed.

Lemma set_clear_timeout_option t w self :
  _attr_current_option (snd (_set_clear_timeout t w self)) = _attr_current_option self.
Proof.
  unfold _set_clear_timeout. destruct (_is_on_clear_timeout self); [|reflexivity].
  pose proof (remove_clear_timeout_option w self) as H.
  destruct (_remove_clear_timeout w self). exact H.
Qed.

Lemma set_extended_timeout_option t w self :
  _attr_current_option (snd (_set_extended_timeout t w self)) = _attr_current_option self.
Proof.
  unfold _set_extended_timeout. destruct (_is_on_extended_timeout self); [|reflexivity].
  pose proof (remove_extended_timeout_option w self) as H.
  destruct (_remove_extended_timeout w self). exact H.
Qed.

(** The evaluation changes neither the area nor the option shown. *)
Lemma get_current_area_state_frame INV w self :
  area (fst (snd (get_current_area_state INV w self))) = area w /\
  states (fst (snd (get_current_area_state INV w self))) = states w /\
  _attr_current_option (snd (snd (get_current_area_state INV w self)))
    = _attr_current_option self.
Proof.
  unfold get_current_area_state.
  pose proof (get_sensors_state_frame INV w self) as (_ & _ & _ & _ & Hs & Ha & Ho).
  destruct (_get_sensors_state INV w self) as [b [w1 self1]].
  cbn [fst snd datetime_now] in *.
  set (w2 := set_clock_reads (S (clock_reads w1)) w1).
  assert (Ha2 : area w2 = area w) by exact Ha.
  assert (Hs2 : states w2 = states w) by exact Hs.
  clearbody w2.
  destruct b; cbn [negb].
  - pose proof (remove_clear_timeout_frame w2 self1) as [Hs3 Ha3].
    pose proof (remove_clear_timeout_option w2 self1) as Ho3.
    destruct (_remove_clear_timeout w2 self1) as [w3 self3].
    pose proof (remove_extended_timeout_frame w3 self3) as [Hs4 Ha4].
    pose proof (remove_extended_timeout_option w3 self3) as Ho4.
    destruct (_remove_extended_timeout w3 self3) as [w4 self4].
    cbn [fst snd] in *. repeat split; congruence.
  - match goal with
    | |- context [if ?c then _set_clear_timeout ?t w2 self1 else _] =>
        assert (H3 : area (fst (if c then _set_clear_timeout t w2 self1 else (w2, self1)))
                     = area w /\
                     states (fst (if c then _set_clear_timeout t w2 self1 else (w2, self1)))
                     = states w /\
                     _attr_current_option
                       (snd (if c then _set_clear_timeout t w2 self1 else (w2, self1)))
                     = _attr_current_option self);
        [destruct c;
         [pose proof (set_clear_timeout_frame t w2 self1) as [? ?];
          pose proof (set_clear_timeout_option t w2 self1);
          repeat split; congruence
         |cbn [fst snd]; repeat split; congruence]
        |destruct (if c then _set_clear_timeout t w2 self1 else (w2, self1)) as [w3 self3]]
    end.
    cbn [fst snd] in H3. destruct H3 as (Ha3 & Hs3 & Ho3).
    destruct (_ <=? _); [|cbn [fst snd]; auto].
    destruct (_ <=? _); cbn [snd fst].
    + pose proof (remove_extended_timeout_frame w3 self3) as [Hs4 Ha4].
      pose proof (remove_extended_timeout_option w3 self3) as Ho4.
      repeat split; congruence.
    + pose proof (remove_clear_timeout_frame w3 self3) as [Hs4 Ha4].
      pose proof (remove_clear_timeout_option w3 self3) as Ho4.
      destruct (_remove_clear_timeout w3 self3) as [w4 self4]. cbn [fst snd] in *.
      destruct (_ && _); cbn [fst snd].
      * match goal with
        | |- context [_set_extended_timeout ?t w4 self4] =>
            pose proof (set_extended_timeout_frame t w4 self4) as [Hs5 Ha5];
            pose proof (set_extended_timeout_option t w4 self4) as Ho5
        end.
        repeat split; congruence.
      * repeat split; congruence.
Qed.

Lemma update_state_result INV w self :
  let r := _update_state INV w self in
  area_state (area (fst r)) = fst (get_current_area_state INV w self) /\
  (in_sync (w, self) -> in_sync r) /\
  (fst (get_current_area_state INV w self) <> area_state (area w) ->
   _attr_current_option (snd r) = fst (get_current_area_state INV w self) /\
   attr_state (snd r) = Some (fst (get_current_area_state INV w self))).
Proof.
  intros r. subst r. unfold _update_state, in_sync.
  pose proof (get_current_area_state_frame INV w self) as (Ha & _ & Ho).
  destruct (get_current_area_state INV w self) as [new_state [w1 self1]].
  cbn [fst snd] in *.
  destruct (decide (area_state (area w) = new_state)) as [Heq|Hne]; cbn [fst snd].
  - rewrite Ha. split; [exact Heq|]. split; [congruence|]. intros H. congruence.
  - cbn. repeat split.
Qed.

(** X6: after [_update_state] the area holds the state the evaluation
    returned; when that state is new, the option of the select entity and
    its state attribute are set to it, and when it is not, the option and
    the area are unchanged. *)
Theorem update_state_commits_evaluation INV w self :
  let r := _update_state INV w self in
  let new_state := fst (get_current_area_state INV w self) in
  area_state (area (fst r)) = new_state /\
  (new_state <> area_state (area w) ->
   _attr_current_option (snd r) = new_state /\ attr_state (snd r) = Some new_state) /\
  (new_state = area_state (area w) ->
   _attr_current_option (snd r) = _attr_current_option self /\
   area (fst r) = area w).
Proof.
  intros r new_state. subst r new_state.
  pose proof (update_state_result INV w self) as (H1 & _ & H3).
  split; [exact H1|]. split; [exact H3|].
  intros Heq. unfold _update_state.
  pose proof (get_current_area_state_frame INV w self) as (Ha & _ & Ho).
  destruct (get_current_area_state INV w self) as [new_state [w1 self1]].
  cbn [fst snd] in *.
  destruct (decide _) as [_|Hne]; [split; assumption|congruence].
Qed.

Lemma update_state_commits_evaluation_witness :
  area_state (area (fst (_update_state example_INVALID_STATES (quiet_world 70)
                           motion_select))) = AREA_STATE_EXTENDED /\
  _attr_current_option (snd (_update_state example_INVALID_STATES (quiet_world 70)
                               motion_select)) = AREA_STATE_EXTENDED.
Proof.
  pose proof (update_state_commits_evaluation example_INVALID_STATES (quiet_world 70)
                motion_select) as (H1 & H2 & _).
  split; [exact H1|]. apply H2. vm_compute. discriminate.
Defined.

(** X7: the option shown by the select entity stays equal to the state of
    the area across every reaction of the entity. *)
Theorem select_step_keeps_in_sync INV ev st :
  in_sync st -> in_sync (select_step INV ev st).
Proof.
  destruct st as [w self]. intros H.
  assert (Hupd : forall w' self', in_sync (w', self') ->
                                  in_sync (_update_state INV w' self'))
    by (intros w' self'; apply (update_state_result INV w' self')).
  assert (Hrc : forall w' self', in_sync (w', self') ->
                                 in_sync (_remove_clear_timeout w' self')).
  { intros w' self' H'. unfold in_sync in *.
    pose proof (remove_clear_timeout_frame w' self') as [_ Ha].
    rewrite (remove_clear_timeout_option w' self'), Ha. exact H'. }
  destruct ev as [e|e|e| |h| |sts]; cbn [select_step].
  - unfold _sensor_state_change.
    destruct (new_state e) as [ns|]; [|exact H].
    case_bool_decide; [exact H|].
    match goal with
    | |- context [if ?c then ?a else (w, self)] =>
        assert (H2 : in_sync (if c then a else (w, self)));
        [destruct c; [|exact H]|
         destruct (if c then a else (w, self)) as [w2 self2]]
    end.
    { cbn [datetime_now]. apply Hrc. exact H. }
    cbn [datetime_now]. apply Hupd. exact H2.
  - unfold _humidity_sensor_change.
    destruct (new_state e) as [ns|]; [|exact H].
    case_bool_decide; [exact H|]. cbn [datetime_now]. apply Hupd. exact H.
  - unfold _group_entity_state_change.
    destruct (negb _); [exact H|].
    destruct (new_state e) as [ns|]; [|exact H].
    case_bool_decide; [exact H|]. cbn [datetime_now]. apply Hupd. exact H.
  - apply Hupd. exact H.
  - destruct (is_pending h w); [|exact H]. apply Hupd. exact H.
  - unfold _cleanup_timers.
    pose proof (Hrc w self H) as H1.
    destruct (_remove_clear_timeout w self) as [w1 self1].
    unfold in_sync in *.
    pose proof (remove_extended_timeout_frame w1 self1) as [_ Ha].
    rewrite (remove_extended_timeout_option w1 self1), Ha. exact H1.
  - exact H.
Qed.

Lemma select_step_keeps_in_sync_witness :
  in_sync (select_step example_INVALID_STATES IntervalTick
             (quiet_world 70, motion_select)).
Proof.
  apply (select_step_keeps_in_sync example_INVALID_STATES IntervalTick
           (quiet_world 70, motion_select)).
  reflexivity.
Defined.

(** X8: from a state in which the pending timers are those of the held
    handles, [_cleanup_timers] drops both handles and leaves no clear and
    no extended timer pending. *)
Theorem cleanup_leaves_no_timer w self :
  timers_ok (w, self) ->
  let r := _cleanup_timers w self in
  _clear_timeout_callback (snd r) = None /\
  _extended_timeout_callback (snd r) = None /\
  pending ClearTimer (fst r) = [] /\
  pending ExtendedTimer (fst r) = [].
Proof.
  intros Hok r. subst r. unfold _cleanup_timers.
  pose proof (timers_ok_remove_clear w self Hok) as Hok1.
  pose proof (remove_clear_timeout_callback w self) as (Hc1 & _ & _).
  destruct (_remove_clear_timeout w self) as [w1 self1]. cbn [fst snd] in *.
  pose proof (timers_ok_remove_extended w1 self1 Hok1) as Hok2.
  pose proof (remove_extended_timeout_callback w1 self1) as (He2 & Hc2 & _).
  destruct (_remove_extended_timeout w1 self1) as [w2 self2]. cbn [fst snd] in *.
  assert (Hc : _clear_timeout_callback self2 = None) by congruence.
  repeat split; try assumption.
  - apply (no_pending_clear w2 self2 Hok2 Hc).
  - apply (no_pending_extended w2 self2 Hok2 He2).
Qed.

Lemma cleanup_leaves_no_timer_witness :
  let st := select_step example_INVALID_STATES IntervalTick
              (quiet_world 10, motion_select) in
  length (pending ClearTimer (fst st)) = 1%nat /\
  pending ClearTimer (fst (_cleanup_timers (fst st) (snd st))) = [].
Proof.
  intros st. split; [reflexivity|].
  apply (cleanup_leaves_no_timer (fst st) (snd st)).
  rewrite <- surjective_pairing.
  apply (timers_ok_step example_INVALID_STATES IntervalTick
           (quiet_world 10, motion_select)).
  apply motion_select_timers_ok. reflexivity.
Defined.

(** ** Sensor events and the last-inactive time *)

Lemma get_sensors_state_last_off INV w self :
  trend_down_on w = false ->
  _last_off_time (snd (snd (_get_sensors_state INV w self))) = _last_off_time self /\
  fst (snd (_get_sensors_state INV w self)) = w.
Proof.
  intros Ht. unfold _get_sensors_state. unfold trend_down_on in Ht.
  destruct (Nat.eqb _ 0);
    [destruct (states w !! humidity_occupied_id (area w)) as [up|];
     [destruct (states w !! humidity_empty_id (area w)) as [down|];
      [rewrite Ht|]|]|];
    cbn [snd fst];
    repeat match goal with
           | |- context [match ?x with [] => _ | _ :: _ => _ end] => destruct x
           end;
    split; reflexivity.
Qed.

Lemma remove_clear_timeout_last_off w self :
  _last_off_time (snd (_remove_clear_timeout w self)) = _last_off_time self.
Proof. unfold _remove_clear_timeout. destruct (_clear_timeout_callback self); reflexivity. Qed.

Lemma remove_extended_timeout_last_off w self :
  _last_off_time (snd (_remove_extended_timeout w self)) = _last_off_time self.
Proof.
  unfold _remove_extended_timeout. destruct (_extended_timeout_callback self); reflexivity.
Qed.

Lemma set_clear_timeout_last_off t w self :
  _last_off_time (snd (_set_clear_timeout t w self)) = _last_off_time self.
Proof.
  unfold _set_clear_timeout. destruct (_is_on_clear_timeout self); [|reflexivity].
  pose proof (remove_clear_timeout_last_off w self) as H.
  destruct (_remove_clear_timeout w self). exact H.
Qed.

Lemma set_extended_timeout_last_off t w self :
  _last_off_time (snd (_set_extended_timeout t w self)) = _last_off_time self.
Proof.
  unfold _set_extended_timeout. destruct (_is_on_extended_timeout self); [|reflexivity].
  pose proof (remove_extended_timeout_last_off w self) as H.
  destruct (_remove_extended_timeout w self). exact H.
Qed.

Lemma get_current_area_state_last_off INV w self :
  trend_down_on w = false ->
  _last_off_time (snd (snd (get_current_area_state INV w self))) = _last_off_time self.
Proof.
  intros Ht. unfold get_current_area_state.
  pose proof (get_sensors_state_last_off INV w self Ht) as [Hl _].
  destruct (_get_sensors_state INV w self) as [b [w1 self1]].
  cbn [fst snd datetime_now] in *.
  set (w2 := set_clock_reads (S (clock_reads w1)) w1). clearbody w2.
  destruct b; cbn [negb].
  - pose proof (remove_clear_timeout_last_off w2 self1) as H3.
    destruct (_remove_clear_timeout w2 self1) as [w3 self3].
    pose proof (remove_extended_timeout_last_off w3 self3) as H4.
    destruct (_remove_extended_timeout w3 self3) as [w4 self4].
    cbn [fst snd] in *. congruence.
  - match goal with
    | |- context [if ?c then _set_clear_timeout ?t w2 self1 else _] =>
        assert (H3 : _last_off_time
                       (snd (if c then _set_clear_timeout t w2 self1 else (w2, self1)))
                     = _last_off_time self);
        [destruct c;
         [rewrite set_clear_timeout_last_off; exact Hl | exact Hl]
        |destruct (if c then _set_clear_timeout t w2 self1 else (w2, self1)) as [w3 self3]]
    end.
    cbn [fst snd] in H3.
    destruct (_ <=? _); [|exact H3].
    destruct (_ <=? _); cbn [snd fst].
    + rewrite remove_extended_timeout_last_off. exact H3.
    + pose proof (remove_clear_timeout_last_off w3 self3) as H4.
      destruct (_remove_clear_timeout w3 self3) as [w4 self4]. cbn [fst snd] in *.
      destruct (_ && _); cbn [fst snd];
        [rewrite set_extended_timeout_last_off|]; congruence.
Qed.

Lemma update_state_last_off INV w self :
  trend_down_on w = false ->
  _last_off_time (snd (_update_state INV w self)) = _last_off_time self.
Proof.
  intros Ht. unfold _update_state.
  pose proof (get_current_area_state_last_off INV w self Ht) as H.
  destruct (get_current_area_state INV w self) as [new_state [w1 self1]].
  cbn [fst snd] in *. destruct (decide _); exact H.
Qed.

Lemma trend_down_on_ext w w' :
  states w' = states w -> area w' = area w -> trend_down_on w' = trend_down_on w.
Proof. intros Hs Ha. unfold trend_down_on. rewrite Hs, Ha. reflexivity. Qed.

(** X9: a sensor event with a valid new state, the humidity down-trend not
    on, sets [_last_off_time] to the time of the event when the new state
    is a non-empty string that is not an on-state, and leaves it
    unchanged otherwise. *)
Theorem sensor_event_last_off_time INV event w self ns :
  new_state event = Some ns ->
  state ns ∉ INV ->
  trend_down_on w = false ->
  _last_off_time (snd (_sensor_state_change INV event w self)) =
  if str_truthy (state ns) && negb (bool_decide (state ns ∈ on_states (area w)))
  then clock w (clock_reads w)
  else _last_off_time self.
Proof.
  intros Hns Hinv Ht. unfold _sensor_state_change. rewrite Hns.
  rewrite bool_decide_eq_false_2 by exact Hinv.
  destruct (str_truthy (state ns) && _).
  - cbn [datetime_now].
    set (w1 := set_clock_reads (S (clock_reads w)) w).
    set (self1 := set_last_off_time (clock w (clock_reads w)) self).
    pose proof (remove_clear_timeout_last_off w1 self1) as Hl.
    pose proof (remove_clear_timeout_frame w1 self1) as [Hs Ha].
    destruct (_remove_clear_timeout w1 self1) as [w2 self2]. cbn [fst snd] in *.
    rewrite update_state_last_off; [exact Hl|].
    rewrite <- Ht. apply trend_down_on_ext; cbn; [rewrite Hs|rewrite Ha]; reflexivity.
  - cbn [datetime_now]. apply update_state_last_off.
    rewrite <- Ht. apply trend_down_on_ext; reflexivity.
Qed.

Lemma sensor_event_last_off_time_witness :
  _last_off_time (snd (_sensor_state_change example_INVALID_STATES to_off
                         (quiet_world 45) motion_select)) = seconds 45.
Proof.
  rewrite (sensor_event_last_off_time example_INVALID_STATES to_off (quiet_world 45)
             motion_select (ha "off")).
  - reflexivity.
  - reflexivity.
  - intros H. apply list_elem_of_In in H. vm_compute in H. intuition discriminate.
  - reflexivity.
Defined.

(** X10: an inactive reading restarts the countdown.  In mode [one], with no
    presence sensor of the entity active, the humidity trend sensors not
    intervening (they are not both present, or neither is on) and the
    pending timers being those of the held handles, a sensor event whose
    new state is valid, not empty and not an on-state, evaluated less than
    the clear timeout after the event, sets [_last_off_time] to the time
    of the event, replaces whatever clear handle was held by a fresh one,
    and leaves one clear timer pending, the new one, armed for the clear
    timeout less the time between the clock read at the event and the
    clock read of the evaluation. *)
Theorem inactive_event_restarts_countdown INV event w self ns :
  new_state event = Some ns ->
  state ns ∉ INV ->
  str_truthy (state ns) = true ->
  state ns ∉ on_states (area w) ->
  _mode self = "one" ->
  (forall s, In s (_sensors self) -> sensor_is_active INV w (valid_states w) s = false) ->
  trend_intervenes w = false ->
  timers_ok (w, self) ->
  let t_off := clock w (clock_reads w) in
  let t_eval := clock w (S (S (clock_reads w))) in
  t_eval - t_off < seconds (_get_clear_timeout w) ->
  let r := _sensor_state_change INV event w self in
  _last_off_time (snd r) = t_off /\
  _clear_timeout_callback (snd r) = Some (next_timer w) /\
  pending ClearTimer (fst r)
    = [mkTimer (next_timer w) ClearTimer
         (seconds (_get_clear_timeout w) - (t_eval - t_off))].
Proof.
  intros Hns Hinv Htr Hoff Hmode Hs Ht Hok t_off t_eval Hlt r. subst r.
  unfold _sensor_state_change. rewrite Hns.
  rewrite bool_decide_eq_false_2 by exact Hinv.
  rewrite Htr, bool_decide_eq_false_2 by exact Hoff. cbn [negb andb datetime_now].
  set (w1 := set_clock_reads (S (clock_reads w)) w).
  set (self1 := set_last_off_time (clock w (clock_reads w)) self).
  assert (Hok1 : timers_ok (w1, self1))
    by (eapply timers_ok_ext; [..|exact Hok]; reflexivity).
  pose proof (timers_ok_remove_clear w1 self1 Hok1) as Hok2.
  pose proof (remove_clear_timeout_callback w1 self1) as (Hc2 & _ & Hn2).
  pose proof (remove_clear_timeout_last_off w1 self1) as Hl2.
  assert (Hshape : exists ts, fst (_remove_clear_timeout w1 self1)
                              = set_timers ts (next_timer w) w1 /\
                   _sensors (snd (_remove_clear_timeout w1 self1)) = _sensors self /\
                   _mode (snd (_remove_clear_timeout w1 self1)) = _mode self).
  { unfold _remove_clear_timeout. destruct (_clear_timeout_callback self1).
    - eexists. cbn. repeat split.
    - exists (timers w). cbn. repeat split. }
  destruct (_remove_clear_timeout w1 self1) as [w2 self2]. cbn [fst snd] in *.
  destruct Hshape as (ts & -> & Hsens & Hmode2).
  set (w2 := set_timers ts (next_timer w) w1) in *.
  set (w3 := set_clock_reads (S (clock_reads w2)) w2).
  assert (Hok3 : timers_ok (w3, self2))
    by (eapply timers_ok_ext; [..|exact Hok2]; reflexivity).
  pose proof (get_current_area_state_arms_clear INV w3 self2) as Harm.
  cbn zeta in Harm.
  specialize (Harm ltac:(congruence)).
  specialize (Harm ltac:(rewrite Hsens; exact Hs)).
  specialize (Harm Ht Hok3 Hc2).
  change (clock w3 (clock_reads w3)) with t_eval in Harm.
  rewrite Hl2 in Harm. change (_last_off_time self1) with t_off in Harm.
  change (_get_clear_timeout w3) with (_get_clear_timeout w) in Harm.
  specialize (Harm Hlt). destruct Harm as (Hp & Hcb & _).
  change (next_timer w3) with (next_timer w) in *.
  pose proof (get_current_area_state_last_off INV w3 self2) as Hlo.
  specialize (Hlo ltac:(unfold trend_intervenes in Ht; unfold trend_down_on;
                        change (states w3) with (states w);
                        change (area w3) with (area w);
                        destruct (states w !! humidity_occupied_id (area w));
                        [destruct (states w !! humidity_empty_id (area w));
                         [apply orb_false_iff in Ht as [_ Ht]; exact Ht|reflexivity]
                        |reflexivity])).
  unfold _update_state.
  destruct (get_current_area_state INV w3 self2) as [new_state [w4 self4]].
  cbn [fst snd] in *.
  destruct (decide _); cbn [fst snd];
    (split; [cbn; rewrite Hlo, Hl2; reflexivity|split; [exact Hcb|exact Hp]]).
Qed.

Lemma inactive_event_restarts_countdown_witness :
  pending ClearTimer
    (fst (_sensor_state_change example_INVALID_STATES to_off (quiet_world 45)
            stale_select))
  = [mkTimer 0 ClearTimer (seconds 60)].
Proof.
  apply (inactive_event_restarts_countdown example_INVALID_STATES to_off
           (quiet_world 45) stale_select (ha "off")).
  - reflexivity.
  - intros H. apply list_elem_of_In in H. vm_compute in H. intuition discriminate.
  - reflexivity.
  - intros H. apply list_elem_of_In in H. vm_compute in H. intuition discriminate.
  - reflexivity.
  - intros s [<-|[]]. vm_compute. reflexivity.
  - vm_compute. reflexivity.
  - unfold timers_ok. cbn. repeat split; try (intros t []). constructor.
  - vm_compute. reflexivity.
Defined.

(** ** The aggregation pass *)

(** X11: the answer of [_get_sensors_state] is read off the recorded list of
    active sensors: in mode [all] the list is as long as the list of
    sensors, in any other mode it is not empty; the list of last active
    sensors is replaced by a non-empty list of active sensors only. *)
Theorem sensors_state_bookkeeping INV w self :
  let r := _get_sensors_state INV w self in
  let active := attr_active_sensors (snd (snd r)) in
  (_mode self <> "all" -> fst r = negb (Nat.eqb (length active) 0)) /\
  (_mode self = "all" ->
   fst r = Nat.eqb (length active) (length (_sensors self))) /\
  attr_last_active_sensors (snd (snd r)) =
    match active with
    | [] => attr_last_active_sensors self
    | _ :: _ => active
    end.
Proof.
  intros r active. subst r active. unfold _get_sensors_state.
  set (base := map SensorId (List.filter _ (_sensors self))).
  assert (Hm : forall (b1 b2 : bool),
             (_mode self <> "all" -> (if String.eqb (_mode self) "all" then b1 else b2) = b2) /\
             (_mode self = "all" -> (if String.eqb (_mode self) "all" then b1 else b2) = b1)).
  { intros b1 b2. destruct (String.eqb_spec (_mode self) "all"); split; congruence. }
  destruct (Nat.eqb (length base) 0) eqn:Hlen.
  - assert (Hb : base = []) by (destruct base; [reflexivity|discriminate]).
    rewrite Hb.
    destruct (states w !! humidity_occupied_id (area w)) as [up|];
      [destruct (states w !! humidity_empty_id (area w)) as [down|];
       [destruct (String.eqb (state up) STATE_ON);
        destruct (String.eqb (state down) STATE_ON)|]|];
      cbn; (split; [apply Hm|split; [apply Hm|reflexivity]]).
  - destruct base as [|a l]; [discriminate|].
    cbn. split; [apply Hm|split; [apply Hm|reflexivity]].
Qed.

Lemma sensors_state_bookkeeping_witness :
  fst (_get_sensors_state example_INVALID_STATES on_world motion_select) = true.
Proof.
  rewrite (proj1 (sensors_state_bookkeeping example_INVALID_STATES on_world
                    motion_select)).
  - reflexivity.
  - discriminate.
Defined.

Lemma filter_filter_implied {A} (p q : A -> bool) (l : list A) :
  (forall x, p x = true -> q x = true) ->
  List.filter p (List.filter q l) = List.filter p l.
Proof.
  intros H. induction l as [|a l IH]; [reflexivity|].
  cbn. destruct (q a) eqn:Hq; cbn.
  - destruct (p a); [f_equal|]; exact IH.
  - destruct (p a) eqn:Hp; [|exact IH].
    rewrite (H a Hp) in Hq. discriminate.
Qed.

Lemma sensor_is_active_votes INV w vs s :
  sensor_is_active INV w vs s = true -> votes INV w s = true.
Proof.
  unfold sensor_is_active, votes. destruct (states w !! s) as [ent|]; [|discriminate].
  destruct (bool_decide (state ent ∈ INV)); [discriminate|reflexivity].
Qed.

(** X12: in any mode but [all], sensors without a state or in an invalid
    state do not take part: without them on the list of sensors
    [_get_sensors_state] gives the same answer, the same world and the
    same bookkeeping. *)
Theorem non_voting_sensors_are_absent INV w self :
  _mode self <> "all" ->
  let voters := List.filter (votes INV w) (_sensors self) in
  let r := _get_sensors_state INV w self in
  let r' := _get_sensors_state INV w (set_sensors voters self) in
  fst r' = fst r /\
  fst (snd r') = fst (snd r) /\
  snd (snd r') = set_sensors voters (snd (snd r)).
Proof.
  intros Hmode voters r r'. subst r r'. unfold _get_sensors_state.
  cbn [_sensors set_sensors]. subst voters.
  rewrite !(filter_filter_implied _ _ _ (sensor_is_active_votes INV w _)).
  set (base := map SensorId (List.filter _ (_sensors self))).
  assert (Hm : forall s', _mode s' = _mode self -> forall b1 b2 : bool,
             (if String.eqb (_mode s') "all" then b1 else b2) = b2).
  { intros s' -> b1 b2. destruct (String.eqb_spec (_mode self) "all"); congruence. }
  destruct (Nat.eqb (length base) 0);
    [destruct (states w !! humidity_occupied_id (area w)) as [up|];
     [destruct (states w !! humidity_empty_id (area w)) as [down|];
      [destruct (String.eqb (state down) STATE_ON)|]|]|];
    cbn [snd fst datetime_now];
    repeat match goal with
           | |- context [match ?x with [] => _ | _ :: _ => _ end] => destruct x
           end;
    rewrite !Hm by reflexivity; repeat split; reflexivity.
Qed.

Lemma non_voting_sensors_are_absent_witness :
  fst (_get_sensors_state example_INVALID_STATES on_world
         (set_sensors ["binary_sensor.motion1"] two_sensor_select))
  = fst (_get_sensors_state example_INVALID_STATES on_world two_sensor_select).
Proof.
  apply (non_voting_sensors_are_absent example_INVALID_STATES on_world two_sensor_select).
  discriminate.
Defined.

(** ** Secondary states *)

Lemma secondary_state_loop_no_match w configs acc :
  (forall kc, In kc configs -> trigger_matches w (snd kc) = false) ->
  secondary_state_loop w configs acc = acc.
Proof.
  revert acc. unfold secondary_state_loop.
  induction configs as [|kc rest IH]; intros acc H; [reflexivity|].
  cbn [fold_left]. rewrite (H kc) by (left; reflexivity).
  apply IH. intros kc' Hin. apply H. right. exact Hin.
Qed.

(** X13: the loop over the state configurations ends with the [for_state] of
    the last configuration whose trigger matches, whatever the
    configurations before it did and whatever state the loop started
    from. *)
Theorem last_matching_config_wins w before kc after acc :
  trigger_matches w (snd kc) = true ->
  (forall kc', In kc' after -> trigger_matches w (snd kc') = false) ->
  secondary_state_loop w (before ++ kc :: after) acc = for_state (snd kc).
Proof.
  intros Hm Hafter. unfold secondary_state_loop.
  rewrite fold_left_app. cbn [fold_left]. rewrite Hm.
  apply (secondary_state_loop_no_match w after _ Hafter).
Qed.

(** X14: when every state configuration has no trigger, a trigger without a
    state, or a trigger whose lowercased state is not the configured
    on-value, the loop leaves the state at Occupied. *)
Theorem unmatched_configs_leave_occupied w configs :
  (forall kc, In kc configs ->
     entity (snd kc) = None \/
     (exists e, entity (snd kc) = Some e /\ states w !! e = None) \/
     (exists e ent, entity (snd kc) = Some e /\ states w !! e = Some ent /\
                    lower (state ent) <> entity_state_on (snd kc))) ->
  secondary_state_loop w configs AREA_STATE_OCCUPIED = AREA_STATE_OCCUPIED.
Proof.
  intros H. apply secondary_state_loop_no_match. intros kc Hin.
  unfold trigger_matches.
  destruct (H kc Hin) as [He|[(e & He & Hs)|(e & ent & He & Hs & Hne)]];
    rewrite He; [reflexivity| |]; rewrite Hs; [reflexivity|].
  apply String.eqb_neq. exact Hne.
Qed.

Lemma last_matching_config_wins_witness :
  trigger_matches three_trigger_world sleep_conf = true /\
  trigger_matches three_trigger_world guest_conf = false /\
  secondary_state_loop three_trigger_world
    ([(AREA_STATE_SECONDARY "sleep", sleep_conf)]
     ++ (AREA_STATE_SECONDARY "movie", movie_conf)
        :: [(AREA_STATE_SECONDARY "guest", guest_conf)])
    AREA_STATE_OCCUPIED
  = AREA_STATE_SECONDARY "movie".
Proof.
  split; [reflexivity|]. split; [reflexivity|].
  apply (last_matching_config_wins three_trigger_world
           [(AREA_STATE_SECONDARY "sleep", sleep_conf)]
           (AREA_STATE_SECONDARY "movie", movie_conf)
           [(AREA_STATE_SECONDARY "guest", guest_conf)] AREA_STATE_OCCUPIED).
  - reflexivity.
  - intros kc [<-|[]]. reflexivity.
Defined.

Lemma unmatched_configs_leave_occupied_witness :
  secondary_state_loop on_world [(AREA_STATE_SECONDARY "sleep", sleep_conf)]
    AREA_STATE_OCCUPIED = AREA_STATE_OCCUPIED.
Proof.
  apply (unmatched_configs_leave_occupied on_world).
  intros kc [<-|[]]. right. left. exists "input_boolean.sleep". split; reflexivity.
Defined.

(** ** The light group: commands and their marking *)

Section LightEffects.
Variable float_of_str : string -> option pyfloat.
Variable AreaState_of_str : string -> option AreaState.

Lemma get_illuminance_fields w self :
  entity_id (snd (_get_illuminance float_of_str w self)) = entity_id self /\
  _entity_ids (snd (_get_illuminance float_of_str w self)) = _entity_ids self /\
  is_on (snd (_get_illuminance float_of_str w self)) = is_on self /\
  brightness (snd (_get_illuminance float_of_str w self)) = brightness self /\
  last_update_from_entity (snd (_get_illuminance float_of_str w self))
    = last_update_from_entity self.
Proof.
  unfold _get_illuminance. destruct (is_on_truthy self).
  - destruct (_ !! ATTR_LAST_ON_ILLUMINANCE); repeat split; reflexivity.
  - destruct (states w !! illuminance_id (area w)) as [ent|];
      [destruct (float_of_str (state ent))|]; repeat split; reflexivity.
Qed.

Lemma turn_off_light_effect w self :
  one_marked_call_or_none w self (last_update_from_entity self) (_turn_off_light w self) /\
  (is_on_truthy self = true -> control_enabled_system (area w) = true ->
   fst (_turn_off_light w self) = services_call (turn_off_call self) w).
Proof.
  unfold _turn_off_light, one_marked_call_or_none.
  destruct (is_on_truthy self); cbn [negb].
  2:{ split; [left; split; reflexivity|discriminate]. }
  destruct (control_enabled_system (area w)); cbn [negb].
  2:{ split; [left; split; reflexivity|discriminate]. }
  split; [|reflexivity]. right. eexists. split; [reflexivity|].
  split; [|reflexivity]. unfold well_formed_call. cbn. auto.
Qed.

Lemma turn_on_light_effect conf w self :
  let r := snd (_turn_on_light float_of_str conf w self) in
  one_marked_call_or_none w self (last_update_from_entity self) r /\
  _entity_ids (snd r) = lights conf /\
  entity_id (snd r) = entity_id self.
Proof.
  intros r. subst r. unfold _turn_on_light.
  set (self1 := async_update_group_state w (set_entity_ids (lights conf) self)).
  destruct (nominal_brightness conf) as [N|];
    [|split; [left; split; reflexivity|split; reflexivity]].
  destruct (_ && _); [split; [left; split; reflexivity|split; reflexivity]|].
  pose proof (get_illuminance_fields w self1) as (Hid & Hids & _ & _ & Hl).
  destruct (_get_illuminance float_of_str w self1) as [L self2]. cbn [fst snd] in *.
  change (entity_id self1) with (entity_id self) in Hid.
  change (_entity_ids self1) with (lights conf) in Hids.
  change (last_update_from_entity self1) with (last_update_from_entity self) in Hl.
  destruct (dimmed_brightness _ _ _ _) as [b|];
    [|split; [left; split; [reflexivity|exact Hl]|split; assumption]].
  destruct (negb _);
    [split; [left; split; [reflexivity|exact Hl]|split; assumption]|].
  destruct (b =? 0) eqn:Hb; cbn [snd].
  - pose proof (turn_off_light_effect w self2) as [Hoff _].
    assert (Hf : _entity_ids (snd (_turn_off_light w self2)) = _entity_ids self2 /\
                 entity_id (snd (_turn_off_light w self2)) = entity_id self2).
    { unfold _turn_off_light. destruct (negb _); [split; reflexivity|].
      destruct (negb _); split; reflexivity. }
    destruct Hf as [Hf1 Hf2]. split; [|split; congruence].
    unfold one_marked_call_or_none, well_formed_call in *.
    rewrite <- Hid, <- Hl. exact Hoff.
  - split; [|split; assumption]. right. eexists. split; [reflexivity|].
    split; [|reflexivity]. unfold well_formed_call. cbn.
    repeat split; auto. right. split; [reflexivity|]. exists b. split; [reflexivity|].
    apply Z.eqb_neq. exact Hb.
Qed.

(** X16: [_turn_on_light] takes the lights of the configuration as the
    members of the group, and either changes nothing of the world and of
    the mark [last_update_from_entity], or issues exactly one command, on
    the group itself, a turn-off without brightness or a turn-on with a
    brightness other than zero, and then sets the mark. *)
Theorem turn_on_light_issues_marked_command conf w self :
  let r := snd (_turn_on_light float_of_str conf w self) in
  ((fst r = w /\ last_update_from_entity (snd r) = last_update_from_entity self) \/
   (exists c, fst r = services_call c w /\ well_formed_call self c /\
              last_update_from_entity (snd r) = true)) /\
  _entity_ids (snd r) = lights conf /\
  entity_id (snd r) = entity_id self.
Proof. exact (turn_on_light_effect conf w self). Qed.

(** X17: [_turn_off_light] either changes nothing of the world and the mark,
    or issues exactly one command and sets the mark; with the group on and
    system control enabled it issues the turn-off, and with the group off
    it changes nothing at all. *)
Theorem turn_off_light_issues_marked_command w self :
  ((fst (_turn_off_light w self) = w /\
    last_update_from_entity (snd (_turn_off_light w self))
      = last_update_from_entity self) \/
   (exists c, fst (_turn_off_light w self) = services_call c w /\
              well_formed_call self c /\
              last_update_from_entity (snd (_turn_off_light w self)) = true)) /\
  (is_on_truthy self = true -> control_enabled_system (area w) = true ->
   fst (_turn_off_light w self) = services_call (turn_off_call self) w) /\
  (is_on_truthy self = false -> _turn_off_light w self = (w, self)).
Proof.
  pose proof (turn_off_light_effect w self) as [H1 H2].
  split; [exact H1|]. split; [exact H2|].
  intros H. unfold _turn_off_light. rewrite H. reflexivity.
Qed.

(** ** The illuminance read *)

(** X18: the illuminance read while the group is off is returned and
    recorded, and while the group is on every read returns the recorded
    value, zero as [0.0], whatever the world is then, and changes
    nothing. *)
Theorem illuminance_read_is_reused_while_on w self ent f w' :
  is_on_truthy self = false ->
  states w !! illuminance_id (area w) = Some ent ->
  float_of_str (state ent) = Some f ->
  let self1 := snd (_get_illuminance float_of_str w self) in
  fst (_get_illuminance float_of_str w self) = f /\
  forall self2,
    is_on_truthy self2 = true ->
    _attr_extra_state_attributes self2 = _attr_extra_state_attributes self1 ->
    _get_illuminance float_of_str w' self2
    = (if PyFloat.is_zero f then PyFloat.zero else f, self2).
Proof.
  intros Hoff Hs Hf self1. subst self1. unfold _get_illuminance at 1 2.
  rewrite Hoff, Hs, Hf. cbn [fst snd]. split; [reflexivity|].
  intros self2 Hon Hattrs. unfold _get_illuminance. rewrite Hon, Hattrs.
  cbn. rewrite lookup_insert_eq. cbn. unfold PyFloat.truthy.
  destruct (PyFloat.is_zero f); reflexivity.
Qed.

(** ** Manual override detection *)

(** X19: [_update_group_state] changes nothing when the area is not Clear,
    when the old or the new state is missing, and when one of them is
    neither on nor off. *)
Theorem own_change_ignored event w self :
  area_state (area w) <> AREA_STATE_CLEAR \/
  old_state event = None \/ new_state event = None \/
  (exists os, old_state event = Some os /\ is_on_off (state os) = false) \/
  (exists ns, new_state event = Some ns /\ is_on_off (state ns) = false) ->
  _update_group_state event w self = (w, self).
Proof.
  intros H. unfold _update_group_state.
  destruct (decide (area_state (area w) = AREA_STATE_CLEAR)) as [Hc|Hc].
  2:{ rewrite bool_decide_eq_false_2 by exact Hc. reflexivity. }
  rewrite bool_decide_eq_true_2 by exact Hc. cbn [negb].
  destruct H as [H|[H|[H|[(os & H & Hoo)|(ns & H & Hoo)]]]];
    [contradiction|rewrite H; reflexivity| | |].
  - rewrite H. destruct (old_state event); reflexivity.
  - rewrite H, Hoo. destruct (new_state event); reflexivity.
  - rewrite H, Hoo. destruct (old_state event) as [os|]; [|reflexivity].
    destruct (negb (is_on_off (state os))); reflexivity.
Qed.

(** X20: in a Clear area, after [_turn_on_light] has issued a command, a
    change of the group between on and off whose old state is not a
    restored one only takes the mark [last_update_from_entity] off and
    arms no timer; such a change arriving once the mark is off re-arms
    the auto-release timer. *)
Theorem issued_command_is_not_an_override conf event w self os ns c :
  fst (snd (_turn_on_light float_of_str conf w self)) = services_call c w ->
  area_state (area w) = AREA_STATE_CLEAR ->
  old_state event = Some os -> new_state event = Some ns ->
  is_on_off (state os) = true -> is_on_off (state ns) = true ->
  restored os = false ->
  let w1 := fst (snd (_turn_on_light float_of_str conf w self)) in
  let self1 := snd (snd (_turn_on_light float_of_str conf w self)) in
  _update_group_state event w1 self1 = (w1, set_last_update_from_entity false self1) /\
  fst (_update_group_state event w1 (set_last_update_from_entity false self1))
    = fst (rearm_manual_timeout w1 self1).
Proof.
  intros Hcall Hc Hos Hns Hoo Hno Hr w1 self1.
  pose proof (turn_on_light_effect conf w self) as ([[Hw _]|(c' & Hw & _ & Hl)] & _).
  { exfalso. rewrite Hw in Hcall. unfold services_call, set_calls in Hcall.
    apply (f_equal calls) in Hcall. cbn in Hcall.
    apply (f_equal (@length _)) in Hcall. rewrite length_app in Hcall. cbn in Hcall. lia. }
  fold self1 in Hl. fold w1 in Hw.
  assert (Hc1 : area_state (area w1) = AREA_STATE_CLEAR) by (rewrite Hw; exact Hc).
  unfold _update_group_state.
  rewrite bool_decide_eq_true_2 by exact Hc1. cbn [negb].
  rewrite Hos, Hns, Hoo, Hno, Hr, Hl. cbn [negb].
  split; reflexivity.
Qed.

End LightEffects.

Lemma turn_off_light_issues_marked_command_witness :
  fst (_turn_off_light clear_world (light_on ∅))
  = services_call (turn_off_call (light_on ∅)) clear_world.
Proof.
  apply (turn_off_light_issues_marked_command clear_world (light_on ∅)); reflexivity.
Defined.

Lemma illuminance_read_is_reused_while_on_witness :
  fst (_get_illuminance float_of_digits lux_world (example_light ∅)) = PyFloat.of_Z 30.
Proof.
  apply (illuminance_read_is_reused_while_on float_of_digits lux_world (example_light ∅)
           (ha "30") (PyFloat.of_Z 30) lux_world); reflexivity.
Defined.

Lemma own_change_ignored_witness :
  _update_group_state own_on_to_off lux_world (light_on ∅) = (lux_world, light_on ∅).
Proof.
  apply own_change_ignored. left. discriminate.
Defined.

Lemma issued_command_is_not_an_override_witness :
  let r := _turn_on_light float_of_digits (light_conf AREA_STATE_CLEAR 50)
             clear_world (example_light ∅) in
  calls (fst (snd r)) = [turn_on_call (example_light ∅) 127] /\
  _update_group_state own_on_to_off (fst (snd r)) (snd (snd r))
  = (fst (snd r), set_last_update_from_entity false (snd (snd r))).
Proof.
  intros r. split; [vm_compute; reflexivity|].
  apply (issued_command_is_not_an_override float_of_digits
           (light_conf AREA_STATE_CLEAR 50) own_on_to_off clear_world (example_light ∅)
           (ha "on") (ha "off") (turn_on_call (example_light ∅) 127));
    try reflexivity.
Defined.

(** ** The auto-release timer *)

Section LightTimers.
Variable float_of_str : string -> option pyfloat.
Variable AreaState_of_str : string -> option AreaState.

Lemma manual_timer_ok_ext w self w' self' :
  timers w' = timers w -> next_timer w' = next_timer w ->
  _manual_timeout_cb self' = _manual_timeout_cb self ->
  manual_timer_ok (w, self) -> manual_timer_ok (w', self').
Proof.
  intros Ht Hn Hc. unfold manual_timer_ok. rewrite Ht, Hn, Hc. tauto.
Qed.

Lemma manual_timer_ok_cancel h w self :
  manual_timer_ok (w, self) -> manual_timer_ok (cancel_timer h w, self).
Proof.
  intros (H1 & H2 & H3). unfold manual_timer_ok, cancel_timer. cbn.
  repeat split.
  - intros t Ht. apply filter_In in Ht as [Ht _]. auto.
  - apply NoDup_map_filter. exact H2.
  - intros t Ht. apply filter_In in Ht as [Ht _]. auto.
Qed.

Lemma no_pending_manual w self :
  manual_timer_ok (w, self) -> _manual_timeout_cb self = None ->
  pending ManualTimer w = [].
Proof.
  intros (_ & _ & H3) Hn. apply filter_all_false. intros x Hx.
  apply bool_decide_eq_false_2. intros Hk.
  specialize (H3 x Hx Hk). congruence.
Qed.

(** Cancelling the handle the group holds removes every pending
    auto-release timer. *)
Lemma cancel_held_manual_timer w self cb :
  manual_timer_ok (w, self) -> _manual_timeout_cb self = Some cb ->
  manual_timer_ok (cancel_timer cb w, set_manual_timeout_cb None self).
Proof.
  intros Hok Hcb.
  pose proof (manual_timer_ok_cancel cb w self Hok) as (H1 & H2 & _).
  destruct Hok as (_ & _ & H3).
  unfold manual_timer_ok. repeat split; try assumption.
  intros t Ht Hk. exfalso. cbn in Ht. apply filter_In in Ht as [Ht Hne].
  specialize (H3 t Ht Hk). rewrite Hcb in H3. injection H3 as ->.
  rewrite Nat.eqb_refl in Hne. discriminate.
Qed.

Lemma rearm_manual_timeout_ok w self :
  manual_timer_ok (w, self) ->
  manual_timer_ok (rearm_manual_timeout w self) /\
  pending ManualTimer (fst (rearm_manual_timeout w self))
    = [mkTimer (next_timer w) ManualTimer (seconds (manual_timeout (area w)))] /\
  _manual_timeout_cb (snd (rearm_manual_timeout w self)) = Some (next_timer w).
Proof.
  intros Hok.
  assert (Hpre : exists w1, manual_timer_ok (w1, set_manual_timeout_cb None self) /\
                            next_timer w1 = next_timer w /\ area w1 = area w /\
                            rearm_manual_timeout w self
                            = (snd (call_later ManualTimer
                                      (seconds (manual_timeout (area w1))) w1),
                               set_manual_timeout_cb
                                 (Some (fst (call_later ManualTimer
                                               (seconds (manual_timeout (area w1))) w1)))
                                 self)).
  { unfold rearm_manual_timeout.
    destruct (_manual_timeout_cb self) as [cb|] eqn:Hcb.
    - exists (cancel_timer cb w). split; [apply cancel_held_manual_timer; assumption|].
      repeat split.
    - exists w. split; [|repeat split].
      eapply manual_timer_ok_ext; [..|exact Hok]; try reflexivity. cbn. congruence. }
  destruct Hpre as (w1 & Hok1 & Hn1 & Ha1 & ->).
  pose proof (no_pending_manual w1 _ Hok1 eq_refl) as Hp.
  destruct Hok1 as (H1 & H2 & H3). rewrite Ha1. cbn [fst snd call_later].
  split; [|split].
  - unfold manual_timer_ok. cbn. repeat split.
    + intros x Hx. apply in_app_iff in Hx as [Hx|[<-|[]]]; [specialize (H1 x Hx)|cbn]; lia.
    + apply NoDup_map_snoc; [exact H2|]. cbn. exact H1.
    + intros x Hx Hk. apply in_app_iff in Hx as [Hx|[<-|[]]]; [|reflexivity].
      specialize (H3 x Hx Hk). discriminate.
  - unfold pending in *. cbn. rewrite List.filter_app, Hp, Hn1. reflexivity.
  - cbn. rewrite Hn1. reflexivity.
Qed.

Lemma manual_timer_ok_update_group_state event w self :
  manual_timer_ok (w, self) -> manual_timer_ok (_update_group_state event w self).
Proof.
  intros Hok. unfold _update_group_state.
  destruct (negb _); [exact Hok|].
  destruct (old_state event) as [os|]; [|exact Hok].
  destruct (new_state event) as [ns|]; [|exact Hok].
  destruct (negb _); [exact Hok|]. destruct (negb _); [exact Hok|].
  destruct (restored os).
  - destruct (negb _); [|exact Hok]. apply rearm_manual_timeout_ok. exact Hok.
  - destruct (last_update_from_entity self).
    + eapply manual_timer_ok_ext; [..|exact Hok]; reflexivity.
    + rewrite set_controlled_by_this_entity_noop.
      apply rearm_manual_timeout_ok. exact Hok.
Qed.

Lemma manual_timer_ok_step ev st :
  manual_timer_ok st ->
  manual_timer_ok (light_step float_of_str AreaState_of_str ev st).
Proof.
  destruct st as [w self]. intros Hok.
  destruct ev as [e|e|h|sts gs a]; cbn [light_step].
  - assert (Hf : _manual_timeout_cb
                   (snd (snd (_area_state_change float_of_str AreaState_of_str e w self)))
                 = _manual_timeout_cb self /\
                 timers (fst (snd (_area_state_change float_of_str AreaState_of_str e w self)))
                 = timers w /\
                 next_timer (fst (snd (_area_state_change float_of_str AreaState_of_str
                                          e w self)))
                 = next_timer w).
    { unfold _area_state_change.
      destruct (negb _); [repeat split|].
      destruct (old_state e); [|repeat split].
      destruct (new_state e) as [ns|]; [|repeat split].
      destruct (AreaState_of_str (state ns)) as [to_state|]; [|repeat split].
      destruct (has_configured_state _ _); [|repeat split].
      destruct (state_config _ _) as [conf|]; [|repeat split].
      pose proof (turn_on_light_frame float_of_str conf w self) as (_ & Hm & Ht & _).
      split; [exact Hm|]. split; [exact Ht|].
      pose proof (turn_on_light_effect float_of_str conf w self)
        as ([[Hw _]|(c & Hw & _)] & _); rewrite Hw; reflexivity. }
    destruct (_area_state_change _ _ e w self) as [o [w1 self1]]. cbn [fst snd] in *.
    destruct Hf as (Hm & Ht & Hn).
    eapply manual_timer_ok_ext; [..|exact Hok]; assumption.
  - apply manual_timer_ok_update_group_state. exact Hok.
  - destruct (is_pending_manual h w) eqn:Hp; [|exact Hok].
    pose proof (manual_timer_ok_cancel h w self Hok) as (H1 & H2 & _).
    destruct Hok as (_ & _ & H3).
    unfold is_pending_manual in Hp. apply existsb_exists in Hp as (t0 & Ht0 & Hc0).
    apply andb_true_iff in Hc0 as [Hid0 Hk0].
    apply Nat.eqb_eq in Hid0. apply bool_decide_eq_true_1 in Hk0.
    pose proof (H3 t0 Ht0 Hk0) as Hcb. rewrite Hid0 in Hcb.
    unfold manual_timer_ok. repeat split; try assumption.
    intros t Ht Hk. exfalso. cbn in Ht. apply filter_In in Ht as [Ht Hne].
    specialize (H3 t Ht Hk). rewrite Hcb in H3. injection H3 as H3.
    rewrite <- H3, Nat.eqb_refl in Hne. discriminate.
  - eapply manual_timer_ok_ext; [..|exact Hok]; reflexivity.
Qed.

Lemma light_reachable_manual_timer_ok st :
  light_reachable float_of_str AreaState_of_str st -> manual_timer_ok st.
Proof.
  induction 1 as [w self Ht Hc|ev st Hr IH].
  - unfold manual_timer_ok. rewrite Ht. cbn. repeat split; try (intros t []).
    constructor.
  - apply manual_timer_ok_step. exact IH.
Qed.

(** X21: in every state the light group reaches, at most one auto-release
    timer is pending, none is when no handle is held, and a pending one is
    the timer of the held handle. *)
Theorem at_most_one_auto_release_timer w self :
  light_reachable float_of_str AreaState_of_str (w, self) ->
  (length (pending ManualTimer w) <= 1)%nat /\
  (_manual_timeout_cb self = None -> pending ManualTimer w = []) /\
  (forall t, In t (pending ManualTimer w) -> _manual_timeout_cb self = Some (timer_id t)).
Proof.
  intros Hr. pose proof (light_reachable_manual_timer_ok _ Hr) as Hok.
  pose proof Hok as (H1 & H2 & H3).
  split; [|split].
  - destruct (_manual_timeout_cb self) as [h|] eqn:E.
    + apply (NoDup_same_id _ h); [apply NoDup_map_filter; exact H2|].
      intros t Ht. apply filter_In in Ht as [Ht Hk].
      apply bool_decide_eq_true_1 in Hk. specialize (H3 t Ht Hk). congruence.
    + rewrite (no_pending_manual w self Hok E). cbn. lia.
  - apply (no_pending_manual w self Hok).
  - intros t Ht. apply filter_In in Ht as [Ht Hk].
    apply bool_decide_eq_true_1 in Hk. apply (H3 t Ht Hk).
Qed.

(** X22: in a reachable state with the area Clear, a change of the group
    between on and off that is neither restored nor marked as the group's
    own leaves one auto-release timer pending, the new one, armed for the
    manual timeout, and its handle held. *)
Theorem override_rearms_single_timer event w self os ns :
  light_reachable float_of_str AreaState_of_str (w, self) ->
  area_state (area w) = AREA_STATE_CLEAR ->
  old_state event = Some os -> new_state event = Some ns ->
  is_on_off (state os) = true -> is_on_off (state ns) = true ->
  restored os = false -> last_update_from_entity self = false ->
  let r := _update_group_state event w self in
  pending ManualTimer (fst r)
    = [mkTimer (next_timer w) ManualTimer (seconds (manual_timeout (area w)))] /\
  _manual_timeout_cb (snd r) = Some (next_timer w).
Proof.
  intros Hreach Hc Hos Hns Hoo Hno Hr Hl r. subst r.
  pose proof (light_reachable_manual_timer_ok _ Hreach) as Hok.
  unfold _update_group_state.
  rewrite bool_decide_eq_true_2 by exact Hc. cbn [negb].
  rewrite Hos, Hns, Hoo, Hno, Hr, Hl. cbn [negb].
  rewrite set_controlled_by_this_entity_noop.
  apply (rearm_manual_timeout_ok w self Hok).
Qed.

(** ** The manual-control attribute is never written *)

(** X23: no reaction of the light group changes the [manual_control] entry
    of its attributes. *)
Theorem manual_control_attribute_is_never_written ev st :
  _attr_extra_state_attributes
    (snd (light_step float_of_str AreaState_of_str ev st)) !! ATTR_MANUAL_CONTROL
  = _attr_extra_state_attributes (snd st) !! ATTR_MANUAL_CONTROL.
Proof.
  destruct st as [w self]. destruct ev as [e|e|h|sts gs a]; cbn [light_step snd].
  - unfold _area_state_change.
    destruct (negb _); [reflexivity|].
    destruct (old_state e); [|reflexivity].
    destruct (new_state e) as [ns|]; [|reflexivity].
    destruct (AreaState_of_str (state ns)) as [to_state|]; [|reflexivity].
    destruct (has_configured_state _ _); [|reflexivity].
    destruct (state_config _ _) as [conf|]; [|reflexivity].
    apply (turn_on_light_frame float_of_str conf w self).
  - unfold _update_group_state.
    destruct (negb _); [reflexivity|].
    destruct (old_state e) as [os|]; [|reflexivity].
    destruct (new_state e) as [ns|]; [|reflexivity].
    destruct (negb _); [reflexivity|]. destruct (negb _); [reflexivity|].
    destruct (restored os).
    + destruct (negb _); [|reflexivity]. unfold rearm_manual_timeout.
      destruct (_manual_timeout_cb self); reflexivity.
    + destruct (last_update_from_entity self); [reflexivity|].
      unfold rearm_manual_timeout. destruct (_manual_timeout_cb self); reflexivity.
  - destruct (is_pending_manual h w); reflexivity.
  - reflexivity.
Qed.

End LightTimers.

Lemma at_most_one_auto_release_timer_witness :
  let st := light_step float_of_digits base_AreaState_of_str
              (OwnStateChanged own_on_to_off) (clear_world, example_light ∅) in
  length (pending ManualTimer (fst st)) = 1%nat /\
  (length (pending ManualTimer (fst st)) <= 1)%nat.
Proof.
  intros st. split; [reflexivity|].
  apply (at_most_one_auto_release_timer float_of_digits base_AreaState_of_str
           (fst st) (snd st)).
  rewrite <- surjective_pairing. apply light_reachable_step, light_reachable_init;
    reflexivity.
Defined.

Lemma override_rearms_single_timer_witness :
  pending ManualTimer (fst (_update_group_state own_on_to_off clear_world (example_light ∅)))
  = [mkTimer 0 ManualTimer (seconds 60)].
Proof.
  apply (override_rearms_single_timer float_of_digits base_AreaState_of_str
           own_on_to_off clear_world (example_light ∅) (ha "on") (ha "off"));
    try reflexivity.
  apply light_reachable_init; reflexivity.
Defined.

(** ** Flattening entity lists *)

Lemma PyItem_nested_ind (P : PyItem -> Prop) :
  (forall s, P (ItemStr s)) ->
  (forall b, P (ItemBytes b)) ->
  (forall n, P (ItemScalar n)) ->
  (forall items, Forall P items -> P (ItemIterable items)) ->
  forall i, P i.
Proof.
  intros Hs Hb Hn Hi.
  fix IH 1. intros [s|b|n|items]; [apply Hs|apply Hb|apply Hn|].
  apply Hi. induction items as [|a l IHl]; constructor; [apply IH|exact IHl].
Qed.

Lemma flatten_item_no_list i :
  Forall (fun x => is_entity_list x = false) (flatten_item i).
Proof.
  induction i as [s|b|n|items IH] using PyItem_nested_ind;
    try (cbn; constructor; [reflexivity|constructor]).
  cbn. induction IH as [|a l Ha _ IHl]; [constructor|].
  cbn. apply Forall_app. split; assumption.
Qed.

Lemma flatten_entity_list_no_list l :
  Forall (fun x => is_entity_list x = false) (flatten_entity_list l).
Proof.
  unfold flatten_entity_list. induction l as [|a l IH]; [constructor|].
  cbn. apply Forall_app. split; [apply flatten_item_no_list|exact IH].
Qed.

Lemma flatten_entity_list_flat l :
  Forall (fun x => is_entity_list x = false) l -> flatten_entity_list l = l.
Proof.
  unfold flatten_entity_list. induction 1 as [|a l Ha _ IH]; [reflexivity|].
  cbn [flat_map]. rewrite IH.
  destruct a; try reflexivity. discriminate.
Qed.

(** X24: [flatten_entity_list] yields no item that is itself an entity list,
    and flattening what it yields gives the same items again. *)
Theorem flatten_entity_list_idempotent l :
  Forall (fun x => is_entity_list x = false) (flatten_entity_list l) /\
  flatten_entity_list (flatten_entity_list l) = flatten_entity_list l.
Proof.
  split; [apply flatten_entity_list_no_list|].
  apply flatten_entity_list_flat, flatten_entity_list_no_list.
Qed.

(** X25: a list that holds no entity list, strings and bytes being items, is
    yielded by [flatten_entity_list] as it is. *)
Theorem flatten_keeps_flat_lists l :
  (forall x, In x l -> is_entity_list x = false) ->
  flatten_entity_list l = l.
Proof.
  intros H. apply flatten_entity_list_flat. apply List.Forall_forall. exact H.
Qed.

Lemma flatten_keeps_flat_lists_witness :
  flatten_entity_list [ItemStr "light.den"; ItemStr ""; ItemBytes "light.hall"]
  = [ItemStr "light.den"; ItemStr ""; ItemBytes "light.hall"].
Proof.
  apply flatten_keeps_flat_lists.
  intros x [<-|[<-|[<-|[]]]]; reflexivity.
Defined.

(** ** Cover groups *)

Lemma entity_ids_In ents ids :
  entity_ids ents = Some ids ->
  forall id, In id ids <-> exists e, In e ents /\ e !! ATTR_ENTITY_ID = Some id.
Proof.
  revert ids. induction ents as [|e rest IH]; intros ids H id.
  - injection H as <-. split; [intros []|intros (e & [] & _)].
  - cbn in H. destruct (e !! ATTR_ENTITY_ID) as [i|] eqn:He; [|discriminate].
    destruct (entity_ids rest) as [ids'|]; [|discriminate].
    injection H as <-. split.
    + intros [<-|Hin]; [exists e; split; [left; reflexivity|exact He]|].
      apply (IH ids' eq_refl) in Hin as (e' & Hin & He').
      exists e'. split; [right; exact Hin|exact He'].
    + intros (e' & [<-|Hin] & He'); [left; congruence|].
      right. apply (IH ids' eq_refl). eauto.
Qed.

Lemma cover_groups_loop_sound covers classes groups :
  cover_groups_loop covers classes = Some groups ->
  forall g, In g groups ->
    In (_device_class g) classes /\
    _entities g = List.filter (has_device_class (_device_class g)) covers /\
    entity_ids (_entities g) = Some (cover_entity_id g) /\
    existsb str_truthy (cover_entity_id g) = true.
Proof.
  revert groups. induction classes as [|dc rest IH]; intros groups H g Hg.
  - injection H as <-. destruct Hg.
  - cbn in H.
    destruct (entity_ids (List.filter (has_device_class dc) covers)) as [ids|] eqn:Hids;
      [|discriminate].
    destruct (existsb str_truthy ids) eqn:Hany.
    + unfold AreaCoverGroup_init in H. rewrite Hids in H.
      destruct (cover_groups_loop covers rest) as [gs|]; [|discriminate].
      injection H as <-. destruct Hg as [<-|Hg].
      * cbn. repeat split; auto.
      * destruct (IH gs eq_refl g Hg) as (H1 & H2). split; [right; exact H1|exact H2].
    + destruct (IH groups H g Hg) as (H1 & H2). split; [right; exact H1|exact H2].
Qed.

Lemma cover_groups_loop_complete covers classes groups dc id :
  cover_groups_loop covers classes = Some groups ->
  In dc classes ->
  (exists e, In e covers /\ e !! ATTR_DEVICE_CLASS = dc /\
             e !! ATTR_ENTITY_ID = Some id /\ id <> "") ->
  exists g, In g groups /\ _device_class g = dc /\ In id (cover_entity_id g).
Proof.
  revert groups. induction classes as [|dc' rest IH]; intros groups H Hdc He; [destruct Hdc|].
  cbn in H.
  destruct (entity_ids (List.filter (has_device_class dc') covers)) as [ids|] eqn:Hids;
    [|discriminate].
  assert (Hhere : dc' = dc -> In id ids /\ existsb str_truthy ids = true).
  { intros ->. destruct He as (e & Hin & Hc & Hid & Hne).
    assert (Hi : In id ids).
    { apply (entity_ids_In _ _ Hids). exists e. split; [|exact Hid].
      apply filter_In. split; [exact Hin|]. apply bool_decide_eq_true_2. exact Hc. }
    split; [exact Hi|]. apply existsb_exists. exists id. split; [exact Hi|].
    unfold str_truthy. apply negb_true_iff. apply String.eqb_neq. exact Hne. }
  destruct (existsb str_truthy ids) eqn:Hany.
  - unfold AreaCoverGroup_init in H. rewrite Hids in H.
    destruct (cover_groups_loop covers rest) as [gs|] eqn:Hgs; [|discriminate].
    injection H as <-.
    destruct (decide (dc' = dc)) as [Heq|Hne].
    + destruct (Hhere Heq) as [Hi _]. eexists. split; [left; reflexivity|].
      cbn. split; assumption.
    + destruct Hdc as [Hdc|Hdc]; [contradiction|].
      destruct (IH gs eq_refl Hdc He) as (g & Hg & Hr). exists g. split; [right|]; assumption.
  - destruct Hdc as [Hdc|Hdc].
    + destruct (Hhere Hdc) as [_ Hc]. discriminate.
    + apply (IH groups H Hdc He).
Qed.

(** X26: a cover group is created only with the feature enabled and covers
    present, for a listed device class or for none; its members are the
    ids of the covers of the area with that device class, and one of them
    is not the empty string. *)
Theorem cover_groups_are_sound CLASSES has_feature has_entities covers groups :
  cover_async_setup_entry CLASSES has_feature has_entities covers = Some groups ->
  forall g, In g groups ->
    has_feature = true /\ has_entities = true /\
    (_device_class g = None \/ exists dc, _device_class g = Some dc /\ In dc CLASSES) /\
    (forall id, In id (cover_entity_id g) <->
       exists e, In e covers /\ e !! ATTR_DEVICE_CLASS = _device_class g /\
                 e !! ATTR_ENTITY_ID = Some id) /\
    (exists id, In id (cover_entity_id g) /\ id <> "").
Proof.
  intros H g Hg. unfold cover_async_setup_entry in H.
  destruct has_feature; cbn [negb] in H; [|injection H as <-; destruct Hg].
  destruct has_entities; cbn [negb] in H; [|injection H as <-; destruct Hg].
  destruct (cover_groups_loop_sound _ _ _ H g Hg) as (Hc & Hents & Hids & Hany).
  split; [reflexivity|]. split; [reflexivity|]. split; [|split].
  - apply in_app_iff in Hc as [Hc|[Hc|[]]]; [|left; congruence].
    apply in_map_iff in Hc as (dc & Hdc & Hin). right. exists dc. split; [congruence|exact Hin].
  - intros id. rewrite (entity_ids_In _ _ Hids id). rewrite Hents. split.
    + intros (e & He & Hid). apply filter_In in He as [He Hc'].
      apply bool_decide_eq_true_1 in Hc'. eauto.
    + intros (e & He & Hc' & Hid). exists e. split; [|exact Hid].
      apply filter_In. split; [exact He|]. apply bool_decide_eq_true_2. exact Hc'.
  - apply existsb_exists in Hany as (id & Hin & Ht). exists id. split; [exact Hin|].
    unfold str_truthy in Ht. apply negb_true_iff in Ht. apply String.eqb_neq. exact Ht.
Qed.

(** X27: when the setup completes, each cover with a non-empty id and a
    listed device class, or none, is a member of a group of its device
    class. *)
Theorem cover_groups_are_complete CLASSES covers groups e id :
  cover_async_setup_entry CLASSES true true covers = Some groups ->
  In e covers ->
  e !! ATTR_ENTITY_ID = Some id -> id <> "" ->
  (e !! ATTR_DEVICE_CLASS = None \/
   exists dc, e !! ATTR_DEVICE_CLASS = Some dc /\ In dc CLASSES) ->
  exists g, In g groups /\ _device_class g = e !! ATTR_DEVICE_CLASS /\
            In id (cover_entity_id g).
Proof.
  intros H He Hid Hne Hc. unfold cover_async_setup_entry in H. cbn [negb] in H.
  apply (cover_groups_loop_complete _ _ _ _ id H).
  - apply in_app_iff. destruct Hc as [->|(dc & -> & Hin)].
    + right. left. reflexivity.
    + left. apply in_map. exact Hin.
  - exists e. auto.
Qed.

(** X28: a cover whose device class is not among [COVER_DEVICE_CLASSES] is
    in no cover group. *)
Theorem unlisted_cover_classes_are_dropped CLASSES has_feature has_entities covers groups e dc :
  cover_async_setup_entry CLASSES has_feature has_entities covers = Some groups ->
  e !! ATTR_DEVICE_CLASS = Some dc -> ~ In dc CLASSES ->
  forall g, In g groups -> ~ In e (_entities g).
Proof.
  intros H Hdc Hnot g Hg Hin. unfold cover_async_setup_entry in H.
  destruct has_feature; cbn [negb] in H; [|injection H as <-; destruct Hg].
  destruct has_entities; cbn [negb] in H; [|injection H as <-; destruct Hg].
  destruct (cover_groups_loop_sound _ _ _ H g Hg) as (Hc & Hents & _).
  rewrite Hents in Hin. apply filter_In in Hin as [_ Hh].
  apply bool_decide_eq_true_1 in Hh. rewrite Hdc in Hh.
  apply in_app_iff in Hc as [Hc|[Hc|[]]]; [|congruence].
  apply in_map_iff in Hc as (dc' & Heq & Hin'). rewrite <- Hh in Heq.
  injection Heq as ->. contradiction.
Qed.

Lemma example_cover_groups_eq :
  cover_async_setup_entry ["awning"; "blind"] true true example_covers
  = Some example_cover_groups.
Proof. vm_compute. reflexivity. Qed.

Lemma blind_group_created : In blind_group example_cover_groups.
Proof. vm_compute. left. reflexivity. Qed.

Lemma cover_groups_are_sound_witness :
  exists id, In id (cover_entity_id blind_group) /\ id <> "".
Proof.
  apply (cover_groups_are_sound ["awning"; "blind"] true true example_covers
           example_cover_groups example_cover_groups_eq blind_group
           blind_group_created).
Defined.

Lemma cover_groups_are_complete_witness :
  exists g, In g example_cover_groups /\
            _device_class g = blind_right !! ATTR_DEVICE_CLASS /\
            In "cover.blind_right" (cover_entity_id g).
Proof.
  apply (cover_groups_are_complete ["awning"; "blind"] example_covers
           example_cover_groups blind_right "cover.blind_right"
           example_cover_groups_eq).
  - right. right. left. reflexivity.
  - reflexivity.
  - discriminate.
  - right. exists "blind". split; [reflexivity|]. right. left. reflexivity.
Defined.

Lemma unlisted_cover_classes_are_dropped_witness :
  ~ In hatch (_entities blind_group).
Proof.
  apply (unlisted_cover_classes_are_dropped ["awning"; "blind"] true true example_covers
           example_cover_groups hatch "trapdoor" example_cover_groups_eq).
  - reflexivity.
  - intros [H|[H|[]]]; discriminate.
  - exact blind_group_created.
Defined.

(** ** Loading the presence sensors *)

Lemma presence_sensor_of_spec ae component entity :
  presence_sensor_of ae component entity =
  if is_presence_entity ae component entity then
    match entity !! ATTR_ENTITY_ID with
    | Some id => Some (Some id)
    | None => None
    end
  else Some None.
Proof.
  unfold presence_sensor_of, is_presence_entity.
  destruct (bool_decide (entity = ∅)); [reflexivity|]. cbn [negb andb].
  destruct (String.eqb component BINARY_SENSOR_DOMAIN); cbn [negb andb orb]; [|reflexivity].
  destruct (entity !! ATTR_DEVICE_CLASS) as [dc|]; [|reflexivity].
  destruct (bool_decide (dc ∈ presence_sensor_device_class ae)); reflexivity.
Qed.

Lemma load_component_spec ae component ents sensors :
  exists new,
    snd (load_component ae component ents sensors) = (sensors ++ new)%list /\
    (forall s, In s new ->
       exists entity, In entity ents /\ is_presence_entity ae component entity = true /\
                      entity !! ATTR_ENTITY_ID = Some s) /\
    (fst (load_component ae component ents sensors) = Returned ->
     forall entity, In entity ents -> is_presence_entity ae component entity = true ->
       exists s, entity !! ATTR_ENTITY_ID = Some s /\ In s new).
Proof.
  revert sensors. induction ents as [|entity rest IH]; intros sensors.
  - exists []. cbn. rewrite app_nil_r. repeat split; intros; contradiction.
  - cbn [load_component]. rewrite presence_sensor_of_spec.
    destruct (is_presence_entity ae component entity) eqn:Hq.
    + destruct (entity !! ATTR_ENTITY_ID) as [id|] eqn:Hid.
      * destruct (IH (sensors ++ [id])%list) as (new & Hs & Hsound & Hcompl).
        exists (id :: new). rewrite Hs, <- app_assoc. split; [reflexivity|]. split.
        -- intros s [<-|Hin]; [exists entity; repeat split; auto; left; reflexivity|].
           destruct (Hsound s Hin) as (e & He & Hr). exists e. split; [right|]; assumption.
        -- intros Hr e [<-|He] Hqe; [exists id; split; [exact Hid|left; reflexivity]|].
           destruct (Hcompl Hr e He Hqe) as (s & Hs' & Hin). exists s. split; [|right]; assumption.
      * exists []. cbn. rewrite app_nil_r. split; [reflexivity|]. split.
        -- intros s [].
        -- discriminate.
    + destruct (IH sensors) as (new & Hs & Hsound & Hcompl).
      exists new. split; [exact Hs|]. split.
      * intros s Hin. destruct (Hsound s Hin) as (e & He & Hr).
        exists e. split; [right|]; assumption.
      * intros Hr e [<-|He] Hqe; [congruence|]. apply (Hcompl Hr e He Hqe).
Qed.

Lemma load_components_spec ae items sensors :
  exists new,
    snd (load_components ae items sensors) = (sensors ++ new)%list /\
    (forall s, In s new -> presence_sensor_in ae items s) /\
    (fst (load_components ae items sensors) = Returned ->
     forall s, presence_sensor_in ae items s -> In s new).
Proof.
  revert sensors. induction items as [|[component ents] rest IH]; intros sensors.
  - exists []. cbn. rewrite app_nil_r. repeat split; try contradiction.
    intros _ s (c & e & en & [] & _).
  - cbn [load_components].
    destruct (decide (component ∈ presence_device_platforms ae)) as [Hin|Hnin].
    + rewrite bool_decide_eq_true_2 by exact Hin. cbn [negb].
      destruct (load_component_spec ae component ents sensors)
        as (new1 & Hs1 & Hsound1 & Hcompl1).
      destruct (load_component ae component ents sensors) as [[] sensors1];
        cbn [fst snd] in *; subst sensors1.
      * destruct (IH (sensors ++ new1)%list) as (new2 & Hs2 & Hsound2 & Hcompl2).
        exists (new1 ++ new2)%list. rewrite Hs2, app_assoc. split; [reflexivity|]. split.
        -- intros s Hs. apply in_app_iff in Hs as [Hs|Hs].
           ++ destruct (Hsound1 s Hs) as (e & He & Hq & Hid).
              exists component, ents, e. repeat split; auto. left. reflexivity.
           ++ destruct (Hsound2 s Hs) as (c & es & e & Hc & Hr).
              exists c, es, e. split; [right; exact Hc|exact Hr].
        -- intros Hr s (c & es & e & [Hc|Hc] & Hp & He & Hq & Hid); apply in_app_iff.
           ++ injection Hc as <- <-. left.
              destruct (Hcompl1 eq_refl e He Hq) as (s' & Hs' & Hin'). congruence.
           ++ right. apply (Hcompl2 Hr). exists c, es, e. auto.
      * exists new1. split; [reflexivity|]. split; [|discriminate].
        intros s Hs. destruct (Hsound1 s Hs) as (e & He & Hq & Hid).
        exists component, ents, e. repeat split; auto. left. reflexivity.
    + rewrite bool_decide_eq_false_2 by exact Hnin. cbn [negb].
      destruct (IH sensors) as (new & Hs & Hsound & Hcompl).
      exists new. split; [exact Hs|]. split.
      * intros s Hin. destruct (Hsound s Hin) as (c & es & e & Hc & Hr).
        exists c, es, e. split; [right; exact Hc|exact Hr].
      * intros Hr s (c & es & e & [Hc|Hc] & Hp & Hrest).
        -- injection Hc as <- <-. contradiction.
        -- apply (Hcompl Hr). exists c, es, e. auto.
Qed.

(** X15: for an area that is not a meta area, [_load_presence_sensors] only
    appends; each id it appends is that of a non-empty entity of a valid
    presence platform, with an allowed device class if it is a binary
    sensor, and when the method returns each such id has been appended. *)
Theorem loaded_sensors_are_the_presence_entities ae w self :
  is_meta (area w) = false ->
  let r := _load_presence_sensors ae w self in
  exists new,
    _sensors (snd r) = (_sensors self ++ new)%list /\
    (forall s, In s new -> presence_sensor_in ae (entities ae) s) /\
    (fst r = Returned ->
     forall s, presence_sensor_in ae (entities ae) s -> In s new).
Proof.
  intros Hmeta r. subst r. unfold _load_presence_sensors. rewrite Hmeta.
  destruct (load_components_spec ae (entities ae) (_sensors self))
    as (new & Hs & Hsound & Hcompl).
  destruct (load_components ae (entities ae) (_sensors self)) as [o sensors].
  cbn [fst snd] in *. exists new. repeat split; assumption.
Qed.

Lemma loaded_sensors_are_the_presence_entities_witness :
  exists new,
    _sensors (snd (_load_presence_sensors example_entities (quiet_world 0)
                     (example_select 0 ["binary_sensor.door"])))
    = (["binary_sensor.door"] ++ new)%list.
Proof.
  destruct (loaded_sensors_are_the_presence_entities example_entities
              (quiet_world 0) (example_select 0 ["binary_sensor.door"]) eq_refl)
    as (new & Hs & _ & _).
  exists new. exact Hs.
Defined.

Example loaded_sensors_example :
  _load_presence_sensors example_entities (quiet_world 0) (example_select 0 [])
  = (Returned,
     example_select 0 ["binary_sensor.motion1"; "media_player.tv"]).
Proof. vm_compute. reflexivity. Qed.
